(** * Community Research MCP server: orchestration and resilience layer

    A shallow embedding of [community_research_mcp.py]: the topic
    validator, the TTL cache, the sliding-window rate limiter, the source
    aggregator, the synthesis dispatcher and the [community_search]
    orchestrator with its retry loop and size check; further the provider
    calls, the workspace scan and the [get_server_context] tool.

    Conventions of the embedding.
    - A Python [str] is a Rocq [string]; each [ascii] stands for one
      character with code point below 256, so [String.length] is [len].
    - [time.time()] readings are integers (seconds) of type [Z]; the
      rounding of floating-point subtraction is not modelled.
    - A Python exception is a value of type [exn]; code that may raise
      returns an [outcome].  Only exceptions derived from [Exception] are
      modelled (task cancellation and interpreter exit are not).
    - JSON numbers are integers.
    - The two module-level dictionaries [_cache] and [_rate_limit_tracker]
      are [gmap]s carried in an explicit [World], together with the clock
      and a log of the externally visible steps (searches, LLM calls,
      sleeps). *)

From Stdlib Require Import ZArith NArith Ascii String List Bool Lia.
From stdpp Require Import base option list gmap strings pretty sorting.

Set Warnings "-register-all".
Local Open Scope string_scope.
Local Open Scope list_scope.
Local Open Scope Z_scope.

(* ====================================================================== *)
(** ** Exceptions and outcomes *)
(* ====================================================================== *)

Inductive exn_class : Set :=
  | ValueError | TypeError | AttributeError | KeyError | IndexError
  | JSONDecodeError | HTTPStatusError | TimeoutException | ConnectError.

(** [exn_msg] is what [str(e)] prints. *)
Record exn : Set := Exn { exn_cls : exn_class; exn_msg : string }.

Inductive outcome (A : Type) : Type :=
  | Return (a : A)
  | Raise (e : exn).
Arguments Return {A} a.
Arguments Raise {A} e.

Definition bind {A B} (m : outcome A) (k : A -> outcome B) : outcome B :=
  match m with
  | Return a => k a
  | Raise e => Raise e
  end.

Declare Scope py_scope.
Delimit Scope py_scope with py.
Notation "x <- m ;; k" := (bind m (fun x => k))
  (at level 100, m at next level, right associativity) : py_scope.

Definition raises {A} (m : outcome A) : bool :=
  match m with Raise _ => true | Return _ => false end.

(* ====================================================================== *)
(** ** Python string primitives *)
(* ====================================================================== *)

Definition code (c : ascii) : N := N_of_ascii c.

(** [str.isspace] on code points below 256. *)
Definition is_space (c : ascii) : bool :=
  let n := code c in
  ((9 <=? n) && (n <=? 13) || (28 <=? n) && (n <=? 32)
   || (n =? 133) || (n =? 160))%N.

(** [str.lower] on one character: A-Z, and the Latin-1 capitals
    0xC0-0xDE except the multiplication sign 0xD7. *)
Definition lower_char (c : ascii) : ascii :=
  let n := code c in
  if ((65 <=? n) && (n <=? 90)
      || (192 <=? n) && (n <=? 222) && negb (n =? 215))%N
  then ascii_of_N (n + 32) else c.

Fixpoint lower (s : string) : string :=
  match s with
  | EmptyString => EmptyString
  | String c s' => String (lower_char c) (lower s')
  end.

Fixpoint lstrip (s : string) : string :=
  match s with
  | EmptyString => EmptyString
  | String c s' => if is_space c then lstrip s' else s
  end.

(** Drops trailing whitespace: a character is kept when it is not a space
    or when something non-blank follows it. *)
Fixpoint rstrip (s : string) : string :=
  match s with
  | EmptyString => EmptyString
  | String c s' =>
      match rstrip s' with
      | EmptyString => if is_space c then EmptyString else String c EmptyString
      | r => String c r
      end
  end.

(** [s.strip()] *)
Definition strip (s : string) : string := rstrip (lstrip s).

(** [s.split()] with no separator: maximal runs of non-space characters.
    [cur] is the word being read, reversed. *)
Fixpoint split_go (cur : list ascii) (s : string) : list string :=
  let flush (k : list string) :=
    match cur with
    | [] => k
    | _ => string_of_list_ascii (rev cur) :: k
    end in
  match s with
  | EmptyString => flush []
  | String c s' =>
      if is_space c then flush (split_go [] s') else split_go (c :: cur) s'
  end.

Definition split (s : string) : list string := split_go [] s.

Fixpoint startswith (p s : string) : bool :=
  match p, s with
  | EmptyString, _ => true
  | String a p', String b s' => if Ascii.eqb a b then startswith p' s' else false
  | String _ _, EmptyString => false
  end.

(** [term in s] for two strings: substring test. *)
Fixpoint contains (term s : string) : bool :=
  startswith term s ||
  match s with
  | EmptyString => false
  | String _ s' => contains term s'
  end.

(** [s[:n]] *)
Fixpoint take (n : nat) (s : string) : string :=
  match n, s with
  | O, _ => EmptyString
  | S _, EmptyString => EmptyString
  | S n', String c s' => String c (take n' s')
  end.

(** [sep.join(parts)] *)
Fixpoint join (sep : string) (parts : list string) : string :=
  match parts with
  | [] => ""
  | [p] => p
  | p :: rest => p +:+ sep +:+ join sep rest
  end.

Definition len (s : string) : Z := Z.of_nat (String.length s).

(* ====================================================================== *)
(** ** Validator: [CommunitySearchInput.validate_topic_specificity] *)
(* ====================================================================== *)

Definition vague_terms : list string :=
  [ "settings"; "configuration"; "config"; "setup"; "performance";
    "optimization"; "best practices"; "how to"; "tutorial";
    "getting started"; "basics"; "help"; "issue"; "problem";
    "error"; "debugging"; "install"; "installation" ].

Definition too_vague_message (v : string) : string :=
  "Topic '" +:+ v +:+ "' is too vague. Be more specific! " +:+
  "Instead of 'settings', say 'GUI settings dialog with tabs and save/load buttons'. " +:+
  "Instead of 'performance', say 'reduce Docker image size with multi-stage builds'. " +:+
  "Include specific technologies, libraries, or patterns you're interested in.".

(** The field validator of [topic].  It runs on the value the model has
    already stripped and checked for length (10 to 500 characters). *)
Definition validate_topic_specificity (v0 : string) : outcome string :=
  let v := strip v0 in
  let words := split (lower v) in
  if (Nat.leb (List.length words) 2)
     && existsb (fun term => contains term (lower v)) vague_terms
  then Raise (Exn ValueError (too_vague_message v))
  else Return v.

(* ====================================================================== *)
(** ** JSON values and the Python operations the code applies to them *)
(* ====================================================================== *)

(** What [json.loads] and [response.json()] produce.  A [JDict] keeps its
    keys in insertion order and holds each key once.  The operations below
    raise what CPython 3.11 raises, with its messages. *)
Inductive json : Type :=
  | JNull
  | JBool (b : bool)
  | JNum (n : Z)
  | JStr (s : string)
  | JList (l : list json)
  | JDict (kv : list (string * json)).

Definition type_name (v : json) : string :=
  match v with
  | JNull => "NoneType" | JBool _ => "bool" | JNum _ => "int"
  | JStr _ => "str" | JList _ => "list" | JDict _ => "dict"
  end.

Fixpoint dict_lookup (kv : list (string * json)) (k : string) : option json :=
  match kv with
  | [] => None
  | (k', v) :: rest => if String.eqb k' k then Some v else dict_lookup rest k
  end.

(** [d[k] = v]: overwrite in place, or append a new key. *)
Fixpoint dict_set (kv : list (string * json)) (k : string) (v : json)
  : list (string * json) :=
  match kv with
  | [] => [(k, v)]
  | (k', v') :: rest =>
      if String.eqb k' k then (k', v) :: rest else (k', v') :: dict_set rest k v
  end.

Definition hex_digit (n : N) : ascii :=
  ascii_of_N (if (n <? 10)%N then 48 + n else 87 + n).

Definition hex2 (c : ascii) : string :=
  String (hex_digit (code c / 16)) (String (hex_digit (code c mod 16)) "").

Definition str_of_Z (n : Z) : string := pretty n.
Definition str_of_nat (n : nat) : string := pretty (Z.of_nat n).

Definition dquote : ascii := ascii_of_N 34.
Definition squote : ascii := ascii_of_N 39.
Definition backslash : ascii := ascii_of_N 92.

(** [repr] of a [str]. *)
Fixpoint has_char (c : ascii) (s : string) : bool :=
  match s with
  | EmptyString => false
  | String a s' => Ascii.eqb a c || has_char c s'
  end.

Definition printable (c : ascii) : bool :=
  let n := code c in
  ((32 <=? n) && (n <? 127) || (161 <=? n) && negb (n =? 173))%N.

Definition repr_char (quote c : ascii) : string :=
  if Ascii.eqb c quote || Ascii.eqb c backslash then String backslash (String c "")
  else if (code c =? 9)%N then "\t"
  else if (code c =? 10)%N then "\n"
  else if (code c =? 13)%N then "\r"
  else if printable c then String c ""
  else "\x" +:+ hex2 c.

Fixpoint repr_chars (quote : ascii) (s : string) : string :=
  match s with
  | EmptyString => ""
  | String c s' => repr_char quote c +:+ repr_chars quote s'
  end.

Definition repr_str (s : string) : string :=
  let quote : ascii :=
    if has_char squote s && negb (has_char dquote s) then dquote else squote in
  String quote (repr_chars quote s) +:+ String quote "".

(** [repr(v)] *)
Fixpoint py_repr (v : json) : string :=
  match v with
  | JNull => "None"
  | JBool true => "True"
  | JBool false => "False"
  | JNum n => str_of_Z n
  | JStr s => repr_str s
  | JList l => "[" +:+ join ", " (map py_repr l) +:+ "]"
  | JDict kv =>
      "{" +:+ join ", " (map (fun p => repr_str (fst p) +:+ ": " +:+ py_repr (snd p)) kv)
      +:+ "}"
  end.

(** [str(v)], which is what an f-string field prints. *)
Definition py_str (v : json) : string :=
  match v with
  | JStr s => s
  | _ => py_repr v
  end.

(** [bool(v)] *)
Definition truthy (v : json) : bool :=
  match v with
  | JNull => false
  | JBool b => b
  | JNum n => negb (n =? 0)%Z
  | JStr s => negb (String.eqb s "")
  | JList l => match l with [] => false | _ => true end
  | JDict kv => match kv with [] => false | _ => true end
  end.

(** [v.get(k, default)] *)
Definition py_get (v : json) (k : string) (default : json) : outcome json :=
  match v with
  | JDict kv => Return (from_option id default (dict_lookup kv k))
  | _ => Raise (Exn AttributeError
                  ("'" +:+ type_name v +:+ "' object has no attribute 'get'"))
  end.

(** ['k' in v] for a string [k] *)
Definition py_in (k : string) (v : json) : outcome bool :=
  match v with
  | JDict kv => Return (match dict_lookup kv k with Some _ => true | None => false end)
  | JList l =>
      Return (existsb (fun x => match x with JStr s => String.eqb s k | _ => false end) l)
  | JStr s => Return (contains k s)
  | _ => Raise (Exn TypeError
                  ("argument of type '" +:+ type_name v +:+ "' is not iterable"))
  end.

(** [v[k]] for a string [k] *)
Definition py_getitem (v : json) (k : string) : outcome json :=
  match v with
  | JDict kv =>
      match dict_lookup kv k with
      | Some x => Return x
      | None => Raise (Exn KeyError (repr_str k))
      end
  | JList _ => Raise (Exn TypeError "list indices must be integers or slices, not str")
  | JStr _ => Raise (Exn TypeError "string indices must be integers, not 'str'")
  | _ => Raise (Exn TypeError ("'" +:+ type_name v +:+ "' object is not subscriptable"))
  end.

(** [len(v)] *)
Definition py_len (v : json) : outcome nat :=
  match v with
  | JStr s => Return (String.length s)
  | JList l => Return (List.length l)
  | JDict kv => Return (List.length kv)
  | _ => Raise (Exn TypeError
                  ("object of type '" +:+ type_name v +:+ "' has no len()"))
  end.

Fixpoint chars (s : string) : list json :=
  match s with
  | EmptyString => []
  | String c s' => JStr (String c "") :: chars s'
  end.

(** The items a [for] loop over [v] visits. *)
Definition py_iter (v : json) : outcome (list json) :=
  match v with
  | JList l => Return l
  | JStr s => Return (chars s)
  | JDict kv => Return (map (fun p => JStr (fst p)) kv)
  | _ => Raise (Exn TypeError ("'" +:+ type_name v +:+ "' object is not iterable"))
  end.

(** [v[:n]] *)
Definition py_slice (n : nat) (v : json) : outcome json :=
  match v with
  | JStr s => Return (JStr (take n s))
  | JList l => Return (JList (firstn n l))
  | JDict _ => Raise (Exn TypeError "unhashable type: 'slice'")
  | _ => Raise (Exn TypeError ("'" +:+ type_name v +:+ "' object is not subscriptable"))
  end.

(** [for x in xs: ... f(x) ...], stopping at the first exception. *)
Fixpoint for_each {A B} (f : A -> outcome B) (xs : list A) : outcome (list B) :=
  match xs with
  | [] => Return []
  | x :: rest =>
      match f x with
      | Raise e => Raise e
      | Return y =>
          match for_each f rest with
          | Raise e => Raise e
          | Return ys => Return (y :: ys)
          end
      end
  end.

(* ---------------------------------------------------------------------- *)
(** *** [json.dumps] *)

(** [ensure_ascii=True]: everything outside space..~ is escaped. *)
Definition json_escape_char (c : ascii) : string :=
  let n := code c in
  if Ascii.eqb c dquote then String backslash (String dquote "")
  else if Ascii.eqb c backslash then String backslash (String backslash "")
  else if (n =? 10)%N then String backslash "n"
  else if (n =? 13)%N then String backslash "r"
  else if (n =? 9)%N then String backslash "t"
  else if (n =? 8)%N then String backslash "b"
  else if (n =? 12)%N then String backslash "f"
  else if ((32 <=? n) && (n <=? 126))%N then String c ""
  else String backslash "u00" +:+ hex2 c.

Fixpoint json_escape (s : string) : string :=
  match s with
  | EmptyString => ""
  | String c s' => json_escape_char c +:+ json_escape s'
  end.

Definition json_string (s : string) : string :=
  String dquote (json_escape s) +:+ String dquote "".

Fixpoint spaces (n : nat) : string :=
  match n with O => "" | S n' => String " " (spaces n') end.

Definition newline : string := String (ascii_of_N 10) "".

(** [json.dumps(v, indent=2)], [lvl] being the nesting depth. *)
Fixpoint dumps_indent (lvl : nat) (v : json) : string :=
  let nl_in := newline +:+ spaces (2 * S lvl) in
  let nl_out := newline +:+ spaces (2 * lvl) in
  match v with
  | JNull => "null"
  | JBool true => "true"
  | JBool false => "false"
  | JNum n => str_of_Z n
  | JStr s => json_string s
  | JList [] => "[]"
  | JList l =>
      "[" +:+ nl_in +:+ join ("," +:+ nl_in) (map (dumps_indent (S lvl)) l)
      +:+ nl_out +:+ "]"
  | JDict [] => "{}"
  | JDict kv =>
      "{" +:+ nl_in
      +:+ join ("," +:+ nl_in)
            (map (fun p => json_string (fst p) +:+ ": " +:+ dumps_indent (S lvl) (snd p)) kv)
      +:+ nl_out +:+ "}"
  end.

Definition json_dumps_indent2 (v : json) : string := dumps_indent 0 v.

(** [json.dumps(v)] with the default separators. *)
Fixpoint json_dumps (v : json) : string :=
  match v with
  | JNull => "null"
  | JBool true => "true"
  | JBool false => "false"
  | JNum n => str_of_Z n
  | JStr s => json_string s
  | JList l => "[" +:+ join ", " (map json_dumps l) +:+ "]"
  | JDict kv =>
      "{" +:+ join ", " (map (fun p => json_string (fst p) +:+ ": " +:+ json_dumps (snd p)) kv)
      +:+ "}"
  end.

(* ====================================================================== *)
(** ** [hashlib.md5(...).hexdigest()] (RFC 1321) *)
(* ====================================================================== *)

Module MD5.
Local Open Scope N_scope.

Definition w32 (x : N) : N := N.land x 0xffffffff.
Definition add32 (x y : N) : N := w32 (x + y).
Definition not32 (x : N) : N := N.lxor x 0xffffffff.
Definition rotl32 (x c : N) : N :=
  w32 (N.lor (N.shiftl x c) (N.shiftr x (32 - c))).

Definition shifts : list N :=
  [ 7; 12; 17; 22; 7; 12; 17; 22; 7; 12; 17; 22; 7; 12; 17; 22;
    5; 9; 14; 20; 5; 9; 14; 20; 5; 9; 14; 20; 5; 9; 14; 20;
    4; 11; 16; 23; 4; 11; 16; 23; 4; 11; 16; 23; 4; 11; 16; 23;
    6; 10; 15; 21; 6; 10; 15; 21; 6; 10; 15; 21; 6; 10; 15; 21 ].

Definition sines : list N :=
  [ 0xd76aa478; 0xe8c7b756; 0x242070db; 0xc1bdceee;
    0xf57c0faf; 0x4787c62a; 0xa8304613; 0xfd469501;
    0x698098d8; 0x8b44f7af; 0xffff5bb1; 0x895cd7be;
    0x6b901122; 0xfd987193; 0xa679438e; 0x49b40821;
    0xf61e2562; 0xc040b340; 0x265e5a51; 0xe9b6c7aa;
    0xd62f105d; 0x02441453; 0xd8a1e681; 0xe7d3fbc8;
    0x21e1cde6; 0xc33707d6; 0xf4d50d87; 0x455a14ed;
    0xa9e3e905; 0xfcefa3f8; 0x676f02d9; 0x8d2a4c8a;
    0xfffa3942; 0x8771f681; 0x6d9d6122; 0xfde5380c;
    0xa4beea44; 0x4bdecfa9; 0xf6bb4b60; 0xbebfbc70;
    0x289b7ec6; 0xeaa127fa; 0xd4ef3085; 0x04881d05;
    0xd9d4d039; 0xe6db99e5; 0x1fa27cf8; 0xc4ac5665;
    0xf4292244; 0x432aff97; 0xab9423a7; 0xfc93a039;
    0x655b59c3; 0x8f0ccc92; 0xffeff47d; 0x85845dd1;
    0x6fa87e4f; 0xfe2ce6e0; 0xa3014314; 0x4e0811a1;
    0xf7537e82; 0xbd3af235; 0x2ad7d2bb; 0xeb86d391 ].

(** [n] in [k] little-endian bytes. *)
Fixpoint le_bytes (k : nat) (n : N) : list N :=
  match k with
  | O => []
  | S k' => (n mod 256) :: le_bytes k' (n / 256)
  end.

Fixpoint le_word (bs : list N) : N :=
  match bs with
  | [] => 0
  | b :: rest => b + 256 * le_word rest
  end.

(** Padding: a 1 bit, zeros up to 56 mod 64, then the bit length. *)
Definition pad (msg : list N) : list N :=
  let n := N.of_nat (List.length msg) in
  let zeros := (55 + 64 - n mod 64) mod 64 in
  msg ++ [128] ++ repeat 0 (N.to_nat zeros) ++ le_bytes 8 (8 * n).

Fixpoint words (k : nat) (bs : list N) : list N :=
  match k with
  | O => []
  | S k' => le_word (firstn 4 bs) :: words k' (skipn 4 bs)
  end.

Record regs : Set := Regs { ra : N; rb : N; rc : N; rd : N }.

Definition init : regs :=
  Regs 0x67452301 0xefcdab89 0x98badcfe 0x10325476.

Definition round (m : list N) (r : regs) (i : N) : regs :=
  let '(Regs a b c d) := r in
  let '(f, g) :=
    if i <? 16 then (N.lor (N.land b c) (N.land (not32 b) d), i)
    else if i <? 32 then
      (N.lor (N.land d b) (N.land (not32 d) c), (5 * i + 1) mod 16)
    else if i <? 48 then (N.lxor b (N.lxor c d), (3 * i + 5) mod 16)
    else (N.lxor c (N.lor b (not32 d)), (7 * i) mod 16) in
  let f' := add32 (add32 (add32 f a) (nth (N.to_nat i) sines 0))
                  (nth (N.to_nat g) m 0) in
  Regs d (add32 b (rotl32 f' (nth (N.to_nat i) shifts 0))) b c.

Definition block (r : regs) (chunk : list N) : regs :=
  let m := words 16 chunk in
  let '(Regs a b c d) :=
    fold_left (round m) (map N.of_nat (seq 0 64)) r in
  Regs (add32 (ra r) a) (add32 (rb r) b) (add32 (rc r) c) (add32 (rd r) d).

Fixpoint blocks (k : nat) (r : regs) (bs : list N) : regs :=
  match k with
  | O => r
  | S k' => blocks k' (block r (firstn 64 bs)) (skipn 64 bs)
  end.

Definition digest (msg : list N) : list N :=
  let p := pad msg in
  let '(Regs a b c d) := blocks (List.length p / 64) init p in
  le_bytes 4 a ++ le_bytes 4 b ++ le_bytes 4 c ++ le_bytes 4 d.

Definition hex_byte (b : N) : string :=
  String (hex_digit (b / 16)) (String (hex_digit (b mod 16)) EmptyString).

Definition hexdigest (msg : list N) : string :=
  fold_right (fun b acc => hex_byte b +:+ acc) EmptyString (digest msg).
End MD5.

(** [s.encode()]: UTF-8. *)
Fixpoint encode (s : string) : list N :=
  match s with
  | EmptyString => []
  | String c s' =>
      let n := code c in
      if (n <? 128)%N then n :: encode s'
      else (192 + n / 64)%N :: (128 + n mod 64)%N :: encode s'
  end.

Definition md5_hex (s : string) : string := MD5.hexdigest (encode s).

(* ====================================================================== *)
(** ** Constants, input model and global state *)
(* ====================================================================== *)

Definition CHARACTER_LIMIT : Z := 25000.
Definition MAX_RETRIES : nat := 3.
Definition CACHE_TTL_SECONDS : Z := 3600.
Definition RATE_LIMIT_WINDOW : Z := 60.
Definition RATE_LIMIT_MAX_CALLS : nat := 10.

Inductive ResponseFormat : Set := MARKDOWN | JSON.

Record CommunitySearchInput : Set := {
  language : string;
  topic : string;
  goal : option string;
  current_setup : option string;
  response_format : ResponseFormat
}.

Inductive provider : Set := gemini | openai | anthropic | openrouter | perplexity.

(** What the orchestrator does that is visible from outside. *)
Inductive event : Set :=
  | EvSearch                  (* the four backends were queried *)
  | EvLLM (p : provider)      (* a synthesis request was sent *)
  | EvSleep (secs : Z).       (* [asyncio.sleep] *)

Record cache_entry : Set := { result : string; timestamp : Z }.

Record World : Type := {
  _cache : gmap string cache_entry;
  _rate_limit_tracker : gmap string (list Z);
  clock : Z;                  (* what [time.time()] returns now *)
  log : list event            (* most recent last *)
}.

Definition with_cache (c : gmap string cache_entry) (w : World) : World :=
  {| _cache := c; _rate_limit_tracker := _rate_limit_tracker w;
     clock := clock w; log := log w |}.

Definition with_tracker (t : gmap string (list Z)) (w : World) : World :=
  {| _cache := _cache w; _rate_limit_tracker := t;
     clock := clock w; log := log w |}.

(** Time passing and an event being recorded. *)
Definition elapse (secs : Z) (w : World) : World :=
  {| _cache := _cache w; _rate_limit_tracker := _rate_limit_tracker w;
     clock := clock w + secs; log := log w |}.

Definition emit (e : event) (w : World) : World :=
  {| _cache := _cache w; _rate_limit_tracker := _rate_limit_tracker w;
     clock := clock w; log := log w ++ [e] |}.

(* ====================================================================== *)
(** ** Caching and rate limiting *)
(* ====================================================================== *)

Fixpoint insert_item (p : string * string) (l : list (string * string))
  : list (string * string) :=
  match l with
  | [] => [p]
  | q :: rest =>
      if String.leb (fst p) (fst q) then p :: l else q :: insert_item p rest
  end.

Definition sort_items (l : list (string * string)) : list (string * string) :=
  fold_right insert_item [] l.

(** [json.dumps(v, sort_keys=True)] *)
Fixpoint json_dumps_sorted (v : json) : string :=
  match v with
  | JNull => "null"
  | JBool true => "true"
  | JBool false => "false"
  | JNum n => str_of_Z n
  | JStr s => json_string s
  | JList l => "[" +:+ join ", " (map json_dumps_sorted l) +:+ "]"
  | JDict kv =>
      "{" +:+ join ", "
        (map (fun p => json_string (fst p) +:+ ": " +:+ snd p)
             (sort_items (map (fun p => (fst p, json_dumps_sorted (snd p))) kv)))
      +:+ "}"
  end.

Definition get_cache_key (tool_name : string) (params : list (string * json))
  : string :=
  let param_str := json_dumps_sorted (JDict params) in
  md5_hex (tool_name +:+ ":" +:+ param_str).

Definition get_cached_result (cache_key : string) (w : World)
  : option string * World :=
  match _cache w !! cache_key with
  | Some cached =>
      if clock w - timestamp cached <? CACHE_TTL_SECONDS
      then (Some (result cached), w)
      else (None, with_cache (delete cache_key (_cache w)) w)
  | None => (None, w)
  end.

Definition set_cached_result (cache_key : string) (r : string) (w : World)
  : World :=
  with_cache (<[cache_key := {| result := r; timestamp := clock w |}]> (_cache w)) w.

Definition check_rate_limit (tool_name : string) (w : World) : bool * World :=
  let now := clock w in
  let tracker0 :=
    match _rate_limit_tracker w !! tool_name with
    | None => <[tool_name := []]> (_rate_limit_tracker w)
    | Some _ => _rate_limit_tracker w
    end in
  (* Remove old timestamps outside the window *)
  let kept :=
    List.filter (fun ts => now - ts <? RATE_LIMIT_WINDOW)
                (default [] (tracker0 !! tool_name)) in
  let tracker1 := <[tool_name := kept]> tracker0 in
  (* Check if under limit *)
  if Nat.leb RATE_LIMIT_MAX_CALLS (List.length kept)
  then (false, with_tracker tracker1 w)
  else (true, with_tracker (<[tool_name := kept ++ [now]]> tracker1) w).

(* ====================================================================== *)
(** ** API key management *)
(* ====================================================================== *)

Definition usable_key (key : option string) : option string :=
  match key with
  | Some k => if negb (String.eqb k "") && negb (String.eqb (strip k) "")
              then Some k else None
  | None => None
  end.

(** Priority: Gemini > OpenAI > Anthropic > OpenRouter > Perplexity.
    [getenv] is the process environment. *)
Definition get_available_llm_provider (getenv : string -> option string)
  : option (provider * string) :=
  let providers :=
    [ (gemini, getenv "GEMINI_API_KEY");
      (openai, getenv "OPENAI_API_KEY");
      (anthropic, getenv "ANTHROPIC_API_KEY");
      (openrouter, getenv "OPENROUTER_API_KEY");
      (perplexity, getenv "PERPLEXITY_API_KEY") ] in
  let fix first (l : list (provider * option string)) :=
    match l with
    | [] => None
    | (p, key) :: rest =>
        match usable_key key with
        | Some k => Some (p, k)
        | None => first rest
        end
    end in
  first providers.

(* ====================================================================== *)
(** ** Search functions

    Each backend is an HTTP exchange outside the program.  Its reply is an
    [outcome json]: [Raise e] when [client.get], [raise_for_status] or
    [response.json()] raised (connection failure, 30 s timeout, error
    status, body that is not JSON), [Return data] otherwise.  What the
    function does with [data] is modelled in full. *)
(* ====================================================================== *)

(** [try: ... except Exception: return []] *)
Definition except_empty (body : outcome (list json)) : outcome (list json) :=
  match body with
  | Return l => Return l
  | Raise _ => Return []
  end.

(** [x or d] *)
Definition py_or (x d : json) : json := if truthy x then x else d.

(** The body of the [try] in [search_stackoverflow]. *)
Definition stackoverflow_try (http : outcome json) : outcome (list json) :=
  (data <- http ;;
   items <- py_get data "items" (JList []) ;;
   top <- py_slice 5 items ;;                    (* Top 5 results *)
   its <- py_iter top ;;
   for_each (fun item =>
     title <- py_get item "title" (JStr "") ;;
     link <- py_get item "link" (JStr "") ;;
     score <- py_get item "score" (JNum 0) ;;
     answers <- py_get item "answer_count" (JNum 0) ;;
     body <- py_get item "body" (JStr "") ;;
     snippet <- py_slice 500 body ;;
     Return (JDict [("title", title); ("url", link); ("score", score);
                   ("answer_count", answers); ("snippet", snippet)])) its)%py.

Definition search_stackoverflow (http : outcome json) : outcome (list json) :=
  except_empty (stackoverflow_try http).

(** The body of the [try] in [search_github]. *)
Definition github_try (http : outcome json) : outcome (list json) :=
  (data <- http ;;
   items <- py_get data "items" (JList []) ;;
   its <- py_iter items ;;
   for_each (fun item =>
     title <- py_get item "title" (JStr "") ;;
     link <- py_get item "html_url" (JStr "") ;;
     state <- py_get item "state" (JStr "") ;;
     comments <- py_get item "comments" (JNum 0) ;;
     body <- py_get item "body" (JStr "") ;;
     snippet <- py_slice 500 (py_or body (JStr "")) ;;
     Return (JDict [("title", title); ("url", link); ("state", state);
                   ("comments", comments); ("snippet", snippet)])) its)%py.

Definition search_github (http : outcome json) : outcome (list json) :=
  except_empty (github_try http).

(** The body of the [try] in [search_reddit]. *)
Definition reddit_try (http : outcome json) : outcome (list json) :=
  (data <- http ;;
   listing <- py_get data "data" (JDict []) ;;
   children <- py_get listing "children" (JList []) ;;
   its <- py_iter children ;;
   for_each (fun item =>
     post <- py_get item "data" (JDict []) ;;
     title <- py_get post "title" (JStr "") ;;
     permalink <- py_get post "permalink" (JStr "") ;;
     score <- py_get post "score" (JNum 0) ;;
     comments <- py_get post "num_comments" (JNum 0) ;;
     selftext <- py_get post "selftext" (JStr "") ;;
     snippet <- py_slice 500 selftext ;;
     Return (JDict [("title", title);
                   ("url", JStr ("https://www.reddit.com" +:+ py_str permalink));
                   ("score", score); ("comments", comments);
                   ("snippet", snippet)])) its)%py.

Definition search_reddit (http : outcome json) : outcome (list json) :=
  except_empty (reddit_try http).

(** The body of the [try] in [search_hackernews]. *)
Definition hackernews_try (http : outcome json) : outcome (list json) :=
  (data <- http ;;
   hits <- py_get data "hits" (JList []) ;;
   top <- py_slice 3 hits ;;                     (* Top 3 results *)
   its <- py_iter top ;;
   for_each (fun item =>
     title <- py_get item "title" (JStr "") ;;
     object_id <- py_get item "objectID" JNull ;;
     url <- py_get item "url"
             (JStr ("https://news.ycombinator.com/item?id=" +:+ py_str object_id)) ;;
     points <- py_get item "points" (JNum 0) ;;
     comments <- py_get item "num_comments" (JNum 0) ;;
     Return (JDict [("title", title); ("url", url); ("points", points);
                   ("comments", comments); ("snippet", JStr "")])) its)%py.

Definition search_hackernews (http : outcome json) : outcome (list json) :=
  except_empty (hackernews_try http).

(** The replies of the four backends to one fan-out. *)
Record Replies : Type := {
  so_http : outcome json;
  gh_http : outcome json;
  rd_http : outcome json;
  hn_http : outcome json
}.

Record AggregatedResults : Type := {
  stackoverflow : list json;
  github : list json;
  reddit : list json;
  hackernews : list json
}.

(** [asyncio.gather] over the tasks with [return_exceptions=True]: every task runs to
    its end; the result list holds, in task order, what each returned or
    the exception it ended with. *)
Definition gather {A} (tasks : list (outcome A)) : list (outcome A) := tasks.

(** [r if isinstance(r, list) else []] *)
Definition list_or_empty (r : option (outcome (list json))) : list json :=
  match r with
  | Some (Return l) => l
  | _ => []
  end.

Definition aggregate_search_results (r : Replies) : AggregatedResults :=
  let tasks :=
    [ search_stackoverflow (so_http r);
      search_github (gh_http r);
      search_reddit (rd_http r);
      search_hackernews (hn_http r) ] in
  let results := gather tasks in
  {| stackoverflow := list_or_empty (results !! 0%nat);
     github := list_or_empty (results !! 1%nat);
     reddit := list_or_empty (results !! 2%nat);
     hackernews := list_or_empty (results !! 3%nat) |}.

(** [search_results.values()] *)
Definition values (a : AggregatedResults) : list (list json) :=
  [stackoverflow a; github a; reddit a; hackernews a].

(* ====================================================================== *)
(** ** LLM synthesis

    The five [call_<provider>] functions post the prompt and parse the
    reply.  The provider is outside the program: what a call does is given
    by the attempt's [llm] field, [Return v] when the reply text, with its
    code fences stripped, went through [json.loads] and gave [v], and
    [Raise e] when the request, the status check, the extraction of the
    text or [json.loads] raised [e]. *)
(* ====================================================================== *)

(** Everything outside the program that one pass of the retry loop meets. *)
Record Attempt : Type := {
  replies : Replies;
  search_secs : Z;                       (* time the fan-out takes *)
  llm : provider -> outcome json;
  llm_secs : Z                           (* time the LLM call takes *)
}.

Record Env : Type := {
  getenv : string -> option string;
  attempts : nat -> Attempt
}.

Definition no_provider_error : string :=
  "No LLM API key configured. Please set GEMINI_API_KEY, OPENAI_API_KEY, or ANTHROPIC_API_KEY in your .env file.".

Definition error_dict (msg : string) : json :=
  JDict [("error", JStr msg); ("findings", JList [])].

Definition synthesize_with_llm (env : Env) (x : Attempt) (w : World)
  : json * World :=
  match get_available_llm_provider (getenv env) with
  | None => (error_dict no_provider_error, w)
  | Some (p, api_key) =>
      let w' := elapse (llm_secs x) (emit (EvLLM p) w) in
      (* try: call the selected provider; except Exception as e: ... *)
      match llm x p with
      | Return v => (v, w')
      | Raise e => (error_dict ("LLM synthesis failed: " +:+ exn_msg e), w')
      end
  end.

(* ====================================================================== *)
(** ** Response formatting and the character limit *)
(* ====================================================================== *)

Fixpoint enumerate {A} (start : nat) (l : list A) : list (nat * A) :=
  match l with
  | [] => []
  | x :: rest => (start, x) :: enumerate (S start) rest
  end.

(** [sep.join(lines)]: every item has to be a [str]. *)
Fixpoint py_join_from (i : nat) (sep : string) (lines : list json)
  : outcome string :=
  match lines with
  | [] => Return ""
  | v :: rest =>
      match v with
      | JStr s =>
          match rest with
          | [] => Return s
          | _ =>
              match py_join_from (S i) sep rest with
              | Return t => Return (s +:+ sep +:+ t)
              | Raise e => Raise e
              end
          end
      | _ => Raise (Exn TypeError
                      ("sequence item " +:+ str_of_nat i +:+
                       ": expected str instance, " +:+ type_name v +:+ " found"))
      end
  end.

Definition py_join (sep : string) (lines : list json) : outcome string :=
  py_join_from 0 sep lines.

Definition finding_lines (entry : nat * json) : outcome (list json) :=
  let '(i, finding) := entry in
  (title <- py_get finding "title" (JStr "Recommendation") ;;
   difficulty <- py_get finding "difficulty" (JStr "Unknown") ;;
   score <- py_get finding "community_score" (JStr "N/A") ;;
   problem <- py_get finding "problem" (JStr "No problem description") ;;
   solution <- py_get finding "solution" (JStr "No solution provided") ;;
   benefit <- py_get finding "benefit" (JStr "No benefits listed") ;;
   evidence <- py_get finding "evidence" (JStr "No evidence provided") ;;
   gotchas <- py_get finding "gotchas" (JStr "None noted") ;;
   Return
     [ JStr ("### " +:+ str_of_nat i +:+ ". " +:+ py_str title);
       JStr ("**Difficulty**: " +:+ py_str difficulty +:+
             " | **Community Score**: " +:+ py_str score +:+ "/100");
       JStr "";
       JStr "**Problem**:"; problem; JStr "";
       JStr "**Solution**:"; solution; JStr "";
       JStr "**Benefits**:"; benefit; JStr "";
       JStr "**Evidence**:"; evidence; JStr "";
       JStr "**Gotchas**:"; gotchas; JStr "";
       JStr "---"; JStr "" ])%py.

Definition count_line (label : string) (l : list json) : json :=
  JStr ("- " +:+ label +:+ ": " +:+ str_of_nat (List.length l) +:+ " results").

Definition render_markdown (params : CommunitySearchInput) (synthesis : json)
    (search_results : AggregatedResults) : outcome string :=
  let lines0 :=
    [ JStr ("# Community Research: " +:+ topic params);
      JStr ("**Language**: " +:+ language params);
      JStr "" ] in
  (has_error <- py_in "error" synthesis ;;
   lines1 <-
     (if has_error : bool then
        err <- py_getitem synthesis "error" ;;
        Return (lines0 ++ [JStr ("**Error**: " +:+ py_str err); JStr ""])
      else Return lines0) ;;
   findings <- py_get synthesis "findings" (JList []) ;;
   lines2 <-
     (if truthy findings then
        n <- py_len findings ;;
        items <- py_iter findings ;;
        sections <- for_each finding_lines (enumerate 1 items) ;;
        Return (lines1
                ++ [JStr ("## Found " +:+ str_of_nat n +:+ " Recommendations"); JStr ""]
                ++ concat sections
                (* Add source summary *)
                ++ [ JStr "## Sources Searched";
                     count_line "Stack Overflow" (stackoverflow search_results);
                     count_line "GitHub" (github search_results);
                     count_line "Reddit" (reddit search_results);
                     count_line "Hacker News" (hackernews search_results) ])
      else Return lines1) ;;
   py_join newline lines2)%py.

Definition count_of (l : list json) : json := JNum (Z.of_nat (List.length l)).

(** The items of the [response] dictionary, in the order they are written. *)
Definition response_items (params : CommunitySearchInput) (findings err : json)
    (search_results : AggregatedResults) (total_results : nat)
  : list (string * json) :=
  [ ("language", JStr (language params));
    ("topic", JStr (topic params));
    ("total_sources", JNum (Z.of_nat total_results));
    ("findings", findings);
    ("error", err);
    ("sources_searched", JDict
       [ ("stackoverflow", count_of (stackoverflow search_results));
         ("github", count_of (github search_results));
         ("reddit", count_of (reddit search_results));
         ("hackernews", count_of (hackernews search_results)) ]) ].

Definition json_response (params : CommunitySearchInput) (synthesis : json)
    (search_results : AggregatedResults) (total_results : nat) : outcome json :=
  (findings <- py_get synthesis "findings" (JList []) ;;
   err <- py_get synthesis "error" JNull ;;
   Return (JDict (response_items params findings err search_results total_results)))%py.

Definition truncation_notice : string :=
  newline +:+ newline +:+
  "[Response truncated due to size limits. Use JSON format for full data.]".

Definition truncation_message (original_count kept : nat) : string :=
  "Response truncated from " +:+ str_of_nat original_count +:+ " to " +:+
  str_of_nat kept +:+ " findings due to size limits.".

(** The JSON branch of the size check.  [response_dict] is what
    [json.loads(result)] gives; [result] was written by [json.dumps] from
    a dictionary of JSON values a moment before, so it is that dictionary. *)
Definition truncate_json (response_dict : json) : outcome string :=
  (fs <- py_get response_dict "findings" (JList []) ;;
   original_count <- py_len fs ;;
   fs0 <- py_getitem response_dict "findings" ;;
   kept <- py_slice (Nat.max 1 (original_count / 2)) fs0 ;;
   match response_dict with
   | JDict kv =>
       let kv1 := dict_set kv "findings" kept in
       let kv2 := dict_set kv1 "truncated" (JBool true) in
       n <- py_len kept ;;
       let kv3 := dict_set kv2 "truncation_message"
                    (JStr (truncation_message original_count n)) in
       Return (json_dumps_indent2 (JDict kv3))
   | _ => Raise (Exn TypeError
                   ("'" +:+ type_name response_dict +:+
                    "' object does not support item assignment"))
   end)%py.

Definition truncate_markdown (result0 : string) : string :=
  take (Z.to_nat CHARACTER_LIMIT) result0 +:+ truncation_notice.

(** Lines 892-969: format the response, then check the character limit. *)
Definition format_response (params : CommunitySearchInput) (synthesis : json)
    (search_results : AggregatedResults) (total_results : nat) : outcome string :=
  (rendered <-
     match response_format params with
     | MARKDOWN =>
         r <- render_markdown params synthesis search_results ;;
         Return (r, JNull)
     | JSON =>
         response <- json_response params synthesis search_results total_results ;;
         Return (json_dumps_indent2 response, response)
     end ;;
   let '(result0, response) := rendered in
   (* Check character limit *)
   if len result0 >? CHARACTER_LIMIT then
     match response_format params with
     | JSON => truncate_json response
     | MARKDOWN => Return (truncate_markdown result0)
     end
   else Return result0)%py.

(* ====================================================================== *)
(** ** The orchestrator: [community_search] *)
(* ====================================================================== *)

Definition rate_limit_payload : string :=
  json_dumps_indent2 (JDict
    [("error", JStr "Rate limit exceeded. Maximum 10 requests per minute. Please wait and try again.")]).

Definition no_results_payload (params : CommunitySearchInput) : string :=
  json_dumps_indent2 (error_dict
    ("No results found for " +:+ String dquote (topic params) +:+ String dquote " in "
     +:+ language params +:+ ". Try different search terms or a more common topic.")).

Definition failed_payload (e : exn) : string :=
  json_dumps_indent2 (error_dict
    ("Search failed after " +:+ str_of_nat MAX_RETRIES +:+ " attempts: " +:+ exn_msg e)).

Definition unexpected_payload : string :=
  json_dumps_indent2 (error_dict "Unexpected error").

Definition optional (o : option string) : json :=
  match o with Some s => JStr s | None => JNull end.

Definition cache_key_of (params : CommunitySearchInput) : string :=
  get_cache_key "community_search"
    [ ("language", JStr (language params));
      ("topic", JStr (topic params));
      ("goal", optional (goal params));
      ("current_setup", optional (current_setup params)) ].

Definition total_count (a : AggregatedResults) : nat :=
  fold_right Nat.add 0%nat (map (@List.length json) (values a)).

(** The body of the [try] in pass [attempt] of the loop.  The world is
    returned in both cases: what happened before an exception stays. *)
Definition run_attempt (env : Env) (params : CommunitySearchInput)
    (cache_key : string) (attempt : nat) (w : World) : outcome string * World :=
  let x := attempts env attempt in
  (* Search all sources in parallel *)
  let w1 := elapse (search_secs x) (emit EvSearch w) in
  let search_results := aggregate_search_results (replies x) in
  (* Check if we got any results *)
  let total_results := total_count search_results in
  if Nat.eqb total_results 0 then
    let r := no_results_payload params in
    (Return r, set_cached_result cache_key r w1)
  else
    (* Synthesize with LLM *)
    let '(synthesis, w2) := synthesize_with_llm env x w1 in
    match format_response params synthesis search_results total_results with
    | Return r =>
        (* Cache and return *)
        (Return r, set_cached_result cache_key r w2)
    | Raise e => (Raise e, w2)
    end.

Definition sleep (secs : Z) (w : World) : World :=
  elapse secs (emit (EvSleep secs) w).

(** [for attempt in range(MAX_RETRIES): try: ... except Exception as e: ...],
    over the attempt numbers still to run. *)
Fixpoint retry_loop (env : Env) (params : CommunitySearchInput)
    (cache_key : string) (todo : list nat) (w : World) : string * World :=
  match todo with
  | [] => (unexpected_payload, w)
  | attempt :: rest =>
      match run_attempt env params cache_key attempt w with
      | (Return r, w') => (r, w')
      | (Raise e, w') =>
          if Nat.eqb attempt (MAX_RETRIES - 1) then (failed_payload e, w')
          else
            (* Wait before retry (exponential backoff) *)
            retry_loop env params cache_key rest (sleep (2 ^ Z.of_nat attempt) w')
      end
  end.

Definition community_search (env : Env) (params : CommunitySearchInput)
    (w : World) : string * World :=
  (* Check rate limit *)
  let '(allowed, w1) := check_rate_limit "community_search" w in
  if negb allowed then (rate_limit_payload, w1)
  else
    (* Check cache *)
    let cache_key := cache_key_of params in
    let '(cached_result, w2) := get_cached_result cache_key w1 in
    match cached_result with
    | Some r =>
        if negb (String.eqb r "") then (r, w2)
        else retry_loop env params cache_key (seq 0 MAX_RETRIES) w2
    | None => retry_loop env params cache_key (seq 0 MAX_RETRIES) w2
    end.

Definition empty_world (t : Z) : World :=
  {| _cache := ∅; _rate_limit_tracker := ∅; clock := t; log := [] |}.

(* ====================================================================== *)
(** ** Drivers: sequences of calls at given clock readings *)
(* ====================================================================== *)

Definition at_time (t : Z) (w : World) : World :=
  {| _cache := _cache w; _rate_limit_tracker := _rate_limit_tracker w;
     clock := t; log := log w |}.

(** The rate window of one operation name (empty when never used). *)
Definition window (tool_name : string) (w : World) : list Z :=
  default [] (_rate_limit_tracker w !! tool_name).

(** The timestamps of [l] that an admission check at [now] keeps. *)
Definition live (now : Z) (l : list Z) : list Z :=
  List.filter (fun ts => now - ts <? RATE_LIMIT_WINDOW) l.

(** [check_rate_limit tool_name] called once at each of [times]. *)
Fixpoint checks (tool_name : string) (times : list Z) (w : World)
  : list bool * World :=
  match times with
  | [] => ([], w)
  | t :: rest =>
      let '(b, w1) := check_rate_limit tool_name (at_time t w) in
      let '(bs, w2) := checks tool_name rest w1 in
      (b :: bs, w2)
  end.

(** The call times that were admitted. *)
Definition admitted (tool_name : string) (times : list Z) (w : World) : list Z :=
  map fst (List.filter snd (combine times (fst (checks tool_name times w)))).

Fixpoint ascending (times : list Z) : bool :=
  match times with
  | t :: ((t' :: _) as rest) => (t <=? t') && ascending rest
  | _ => true
  end.

(** How many of [l] fall in the 60-second window that ends at [t]. *)
Definition in_window_ending (t : Z) (l : list Z) : nat :=
  List.length (List.filter (fun ts => (t - RATE_LIMIT_WINDOW <? ts) && (ts <=? t)) l).

(** The topic, lower-cased, has a vague term somewhere in it. *)
Definition mentions_vague_term (t : string) : Prop :=
  exists term pre post, In term vague_terms /\ lower t = pre +:+ term +:+ post.

(** What [format_response] returns, by format and by size. *)
Definition size_checked (params : CommunitySearchInput) (synthesis : json)
    (sr : AggregatedResults) (total : nat) (r : string) : Prop :=
  match response_format params with
  | MARKDOWN =>
      exists r0,
        render_markdown params synthesis sr = Return r0
        /\ (len r0 <= CHARACTER_LIMIT -> r = r0)
        /\ (CHARACTER_LIMIT < len r0 ->
              r = take (Z.to_nat CHARACTER_LIMIT) r0 +:+ truncation_notice
              /\ len r = CHARACTER_LIMIT + 73)
  | JSON =>
      exists findings err,
        py_get synthesis "findings" (JList []) = Return findings
        /\ py_get synthesis "error" JNull = Return err
        /\ let items := response_items params findings err sr total in
           (len (json_dumps_indent2 (JDict items)) <= CHARACTER_LIMIT ->
              r = json_dumps_indent2 (JDict items))
           /\ (CHARACTER_LIMIT < len (json_dumps_indent2 (JDict items)) ->
               forall fs, findings = JList fs ->
               let kept := firstn (Nat.max 1 (List.length fs / 2)) fs in
               r = json_dumps_indent2 (JDict
                     (response_items params (JList kept) err sr total
                      ++ [ ("truncated", JBool true);
                           ("truncation_message",
                            JStr (truncation_message (List.length fs)
                                    (List.length kept))) ])))
  end.

(** What the four [try] bodies of one fan-out end with, in task order. *)
Definition tries (r : Replies) : list (outcome (list json)) :=
  [ stackoverflow_try (so_http r); github_try (gh_http r);
    reddit_try (rd_http r); hackernews_try (hn_http r) ].

(** Number of entries per source. *)
Definition entry_counts (a : AggregatedResults) : list nat :=
  map (@List.length json) (values a).

(** What [community_search] takes from the cache: [get_cached_result]
    followed by [if cached_result:], which also skips an empty string. *)
Definition cached_payload (cache_key : string) (w : World) : option string :=
  match fst (get_cached_result cache_key w) with
  | Some r => if String.eqb r "" then None else Some r
  | None => None
  end.

(** The world after the rate check and the cache lookup of a call. *)
Definition after_lookup (params : CommunitySearchInput) (w : World) : World :=
  snd (get_cached_result (cache_key_of params)
         (snd (check_rate_limit "community_search" w))).

(** The sleeps recorded in a log. *)
Definition sleeps (l : list event) : list Z :=
  flat_map (fun e => match e with EvSleep n => [n] | _ => [] end) l.

(** How many fan-outs a log records. *)
Definition searches (l : list event) : nat :=
  List.length (List.filter (fun e => match e with EvSearch => true | _ => false end) l).

(** [community_search] called once at each of [times] for the same query. *)
Fixpoint calls (env : Env) (params : CommunitySearchInput) (times : list Z)
    (w : World) : list string * World :=
  match times with
  | [] => ([], w)
  | t :: rest =>
      let '(r, w1) := community_search env params (at_time t w) in
      let '(rs, w2) := calls env params rest w1 in
      (r :: rs, w2)
  end.

(* ====================================================================== *)
(** ** Sample inputs *)
(* ====================================================================== *)

Definition fastapi_query (fmt : ResponseFormat) : CommunitySearchInput :=
  {| language := "Python";
     topic := "FastAPI background task queue with Redis";
     goal := None; current_setup := None;
     response_format := fmt |}.

Definition connection_refused : exn := Exn ConnectError "All connection attempts failed".
Definition read_timeout : exn := Exn TimeoutException "The read operation timed out".

(** A Stack Overflow reply with two questions. *)
Definition two_questions : json :=
  JDict [("items", JList
    [ JDict [("title", JStr "Celery vs RQ"); ("link", JStr "https://stackoverflow.com/q/1");
             ("score", JNum 12); ("answer_count", JNum 3); ("body", JStr "<p>...</p>")];
      JDict [("title", JStr "Redis queue"); ("link", JStr "https://stackoverflow.com/q/2");
             ("score", JNum 7); ("answer_count", JNum 1); ("body", JStr "<p>...</p>")] ])].

(** Stack Overflow answers; GitHub refuses the connection, Reddit times
    out, Hacker News sends a JSON array where an object is expected. *)
Definition one_of_four : Replies :=
  {| so_http := Return two_questions;
     gh_http := Raise connection_refused;
     rd_http := Raise read_timeout;
     hn_http := Return (JList [JStr "unexpected"]) |}.

Definition no_hits : Replies :=
  {| so_http := Return (JDict [("items", JList [])]);
     gh_http := Return (JDict [("items", JList [])]);
     rd_http := Return (JDict [("data", JDict [("children", JList [])])]);
     hn_http := Return (JDict [("hits", JList [])]) |}.

Definition no_keys : string -> option string := fun _ => None.

Definition openai_key : string -> option string :=
  fun k => if String.eqb k "OPENAI_API_KEY" then Some "sk-test" else None.

(** The same replies at every attempt: the fan-out takes 2 s, the LLM 5 s. *)
Definition steady (r : Replies) (l : provider -> outcome json) : nat -> Attempt :=
  fun _ => {| replies := r; search_secs := 2; llm := l; llm_secs := 5 |}.

Definition never_called : provider -> outcome json :=
  fun _ => Raise (Exn ConnectError "not reached").

(** Nothing is found anywhere; an OpenAI key is configured. *)
Definition quiet_env : Env :=
  {| getenv := openai_key; attempts := steady no_hits never_called |}.

(** Stack Overflow finds two questions; the provider answers with a JSON
    array, which is valid JSON but not the object the renderer expects. *)
Definition array_reply_env : Env :=
  {| getenv := openai_key;
     attempts := steady one_of_four (fun _ => Return (JList [])) |}.

(** The provider answers with prose: [json.loads] raises. *)
Definition not_json : exn :=
  Exn JSONDecodeError "Expecting value: line 1 column 1 (char 0)".

Definition prose_reply_env : Env :=
  {| getenv := openai_key;
     attempts := steady one_of_four (fun _ => Raise not_json) |}.

Definition filler (n : nat) : string := string_of_list_ascii (repeat "x"%char n).

(** One finding whose problem statement runs to 30,000 characters. *)
Definition verbose_finding : json :=
  JDict [ ("title", JStr "Use a task queue"); ("problem", JStr (filler (Z.to_nat 30000)));
          ("solution", JStr "Celery with Redis as broker"); ("benefit", JStr "Non-blocking");
          ("evidence", JStr "12 votes"); ("difficulty", JStr "Medium");
          ("community_score", JNum 85); ("gotchas", JStr "Visibility timeout") ].

Definition verbose_env : Env :=
  {| getenv := openai_key;
     attempts := steady one_of_four
                   (fun _ => Return (JDict [("findings", JList [verbose_finding])])) |}.

Definition queue_finding : json :=
  JDict [ ("title", JStr "Use a task queue"); ("problem", JStr "Requests block");
          ("solution", JStr "Celery with Redis as broker"); ("benefit", JStr "Non-blocking");
          ("evidence", JStr "12 votes"); ("difficulty", JStr "Medium");
          ("community_score", JNum 85); ("gotchas", JStr "Visibility timeout") ].

(** Stack Overflow finds two questions and the provider returns one
    well-formed finding. *)
Definition helpful_env : Env :=
  {| getenv := openai_key;
     attempts := steady one_of_four
                   (fun _ => Return (JDict [("findings", JList [queue_finding])])) |}.

(** A markdown request at time 0, and the world it leaves one minute later. *)
Definition markdown_first : string * World :=
  community_search helpful_env (fastapi_query MARKDOWN) (empty_world 0).

(** The same query in JSON format, after the markdown request and on its own. *)
Definition json_second : string * World :=
  community_search helpful_env (fastapi_query JSON) (at_time 60 (snd markdown_first)).

Definition json_alone : string * World :=
  community_search helpful_env (fastapi_query JSON) (empty_world 60).

(** Eight findings of some 4,000 characters each. *)
Definition long_finding : json :=
  JDict [ ("title", JStr "Use a task queue"); ("problem", JStr (filler (Z.to_nat 4000))) ].

Definition eight_findings_env : Env :=
  {| getenv := openai_key;
     attempts := steady one_of_four
                   (fun _ => Return (JDict [("findings", JList (repeat long_finding 8))])) |}.

(** Results are found but no API key is set. *)
Definition unconfigured_env : Env :=
  {| getenv := no_keys; attempts := steady one_of_four never_called |}.

(** Eleven calls, one per second. *)
Definition burst_times : list Z := [0; 1; 2; 3; 4; 5; 6; 7; 8; 9; 10].

(** The state in which the eleventh call of the burst starts. *)
Definition before_eleventh (env : Env) (params : CommunitySearchInput) : World :=
  at_time 10 (snd (calls env params (firstn 10 burst_times) (empty_world 0))).

(* ====================================================================== *)
(** ** Vocabulary of the further properties *)
(* ====================================================================== *)

(** The environment variable that holds a provider's key, and the
    provider's place in the priority list of [get_available_llm_provider]. *)
Definition env_var (p : provider) : string :=
  match p with
  | gemini => "GEMINI_API_KEY"
  | openai => "OPENAI_API_KEY"
  | anthropic => "ANTHROPIC_API_KEY"
  | openrouter => "OPENROUTER_API_KEY"
  | perplexity => "PERPLEXITY_API_KEY"
  end.

Definition rank (p : provider) : nat :=
  match p with
  | gemini => 0 | openai => 1 | anthropic => 2 | openrouter => 3 | perplexity => 4
  end.

(** Only Perplexity has a key, and Gemini's variable is set to blanks. *)
Definition blank_gemini_env : string -> option string :=
  fun k => if String.eqb k "GEMINI_API_KEY" then Some "   "
           else if String.eqb k "PERPLEXITY_API_KEY" then Some " pplx-1 "
           else None.

Definition is_hex_char (c : ascii) : bool :=
  let n := code c in
  ((48 <=? n) && (n <=? 57) || (97 <=? n) && (n <=? 102))%N.

Fixpoint all_chars (f : ascii -> bool) (s : string) : bool :=
  match s with
  | EmptyString => true
  | String c s' => f c && all_chars f s'
  end.

Definition is_str (v : json) : bool :=
  match v with JStr _ => true | _ => false end.

(** A field that is absent or holds a string. *)
Definition text_field (kv : list (string * json)) (k : string) : bool :=
  match dict_lookup kv k with
  | None => true
  | Some v => is_str v
  end.

(** A finding the markdown renderer can print: an object whose five text
    fields are absent or strings (title, difficulty and score go through an
    f-string and may be anything). *)
Definition renderable_finding (f : json) : bool :=
  match f with
  | JDict kv =>
      forallb (text_field kv) ["problem"; "solution"; "benefit"; "evidence"; "gotchas"]
  | _ => false
  end.

(** The findings of a reply object: the list under ["findings"], or the
    empty list when the key is absent. *)
Definition findings_list (kv : list (string * json)) : option (list json) :=
  match dict_lookup kv "findings" with
  | None => Some []
  | Some (JList fs) => Some fs
  | Some _ => None
  end.

(** A finding whose problem statement is the JSON null. *)
Definition null_problem_reply : list (string * json) :=
  [("findings", JList [JDict [("title", JStr "Use a task queue"); ("problem", JNull)]])].

Definition null_problem_env : Env :=
  {| getenv := openai_key;
     attempts := steady one_of_four (fun _ => Return (JDict null_problem_reply)) |}.

(** The keys of a result entry, in order (nothing for a non-object). *)
Definition entry_keys (e : json) : list string :=
  match e with JDict kv => map fst kv | _ => [] end.

(** The entry's snippet is a string of at most 500 characters, or (when the
    backend sent a list as body) a list of at most 500 items. *)
Definition bounded_snippet (e : json) : bool :=
  match e with
  | JDict kv =>
      match dict_lookup kv "snippet" with
      | Some (JStr s) => Nat.leb (String.length s) 500
      | Some (JList l) => Nat.leb (List.length l) 500
      | _ => false
      end
  | _ => false
  end.

Definition is_dict (v : json) : bool :=
  match v with JDict _ => true | _ => false end.

(** A reply that carries [items] under the key [k]. *)
Definition items_reply (k : string) (items : list json) : outcome json :=
  Return (JDict [(k, JList items)]).

(** Seven GitHub issues, and six Stack Overflow questions of which the
    second has a null body. *)
Definition seven_issues : list json :=
  repeat (JDict [("title", JStr "Worker hangs"); ("body", JNull)]) 7.

Definition six_questions_one_null : list json :=
  [ JDict [("title", JStr "q1"); ("body", JStr "b1")];
    JDict [("title", JStr "q2"); ("body", JNull)];
    JDict [("title", JStr "q3"); ("body", JStr "b3")];
    JDict [("title", JStr "q4"); ("body", JStr "b4")];
    JDict [("title", JStr "q5"); ("body", JStr "b5")];
    JDict [("title", JStr "q6"); ("body", JStr "b6")] ].

(** An item [search_stackoverflow] can turn into an entry: an object whose
    body is absent, a string or a list. *)
Definition so_item_ok (item : json) : bool :=
  match item with
  | JDict kv =>
      match dict_lookup kv "body" with
      | None | Some (JStr _) | Some (JList _) => true
      | Some _ => false
      end
  | _ => false
  end.

(** The same for [search_github], where a falsy body counts as absent. *)
Definition gh_item_ok (item : json) : bool :=
  match item with
  | JDict kv =>
      match dict_lookup kv "body" with
      | None | Some (JStr _) | Some (JList _) => true
      | Some v => negb (truthy v)
      end
  | _ => false
  end.

Definition six_questions_reply : Replies :=
  {| so_http := items_reply "items" six_questions_one_null;
     gh_http := items_reply "items" seven_issues;
     rd_http := Raise read_timeout;
     hn_http := Raise read_timeout |}.

(* ====================================================================== *)
(** ** The provider calls: [call_gemini] to [call_perplexity]

    What a provider function does with the reply of its HTTP request: it
    takes the generated text out of the reply object, deletes the code
    fences, trims, and parses.  An attempt's [llm p] above is the outcome
    of [call_provider p] on the reply the provider gave. *)
(* ====================================================================== *)

(** [v[0]] *)
Definition py_first (v : json) : outcome json :=
  match v with
  | JList (x :: _) => Return x
  | JList [] => Raise (Exn IndexError "list index out of range")
  | JStr (String c _) => Return (JStr (String c ""))
  | JStr "" => Raise (Exn IndexError "string index out of range")
  | JDict _ => Raise (Exn KeyError "0")
  | _ => Raise (Exn TypeError ("'" +:+ type_name v +:+ "' object is not subscriptable"))
  end.

(** [s.replace(old, new)] for a non-empty [old]: occurrences are taken from
    the left and do not overlap.  [skip] counts the characters of the
    occurrence just replaced that are still to be passed over. *)
Fixpoint replace_go (old new : string) (skip : nat) (s : string) : string :=
  match s with
  | EmptyString => EmptyString
  | String c s' =>
      match skip with
      | S k => replace_go old new k s'
      | O =>
          if startswith old s
          then new +:+ replace_go old new (String.length old - 1) s'
          else String c (replace_go old new 0 s')
      end
  end.

(** With an empty [old], [new] is put before every character and at the
    end. *)
Fixpoint intersperse (new s : string) : string :=
  match s with
  | EmptyString => new
  | String c s' => new +:+ String c (intersperse new s')
  end.

Definition replace (s old new : string) : string :=
  match old with
  | EmptyString => intersperse new s
  | _ => replace_go old new 0 s
  end.

Definition fence : string := "```".
Definition fence_open : string := "```json" +:+ newline.
Definition fence_close : string := newline +:+ "```".

(** [text.replace('```json\n', '').replace('\n```', '').replace('```', '').strip()] *)
Definition strip_fences (text : json) : outcome string :=
  match text with
  | JStr s =>
      Return (strip (replace (replace (replace s fence_open "") fence_close "") fence ""))
  | _ => Raise (Exn AttributeError
                  ("'" +:+ type_name text +:+ "' object has no attribute 'replace'"))
  end.

(** In the five functions below [http] is the outcome of the POST request,
    of [raise_for_status] and of [response.json()], and [json_loads] is
    [json.loads]. *)
Definition call_gemini (json_loads : string -> outcome json) (http : outcome json)
  : outcome json :=
  (data <- http ;;
   candidates <- py_getitem data "candidates" ;;
   candidate <- py_first candidates ;;
   content <- py_getitem candidate "content" ;;
   parts <- py_getitem content "parts" ;;
   part <- py_first parts ;;
   text <- py_getitem part "text" ;;
   text <- strip_fences text ;;
   json_loads text)%py.

Definition call_openai (json_loads : string -> outcome json) (http : outcome json)
  : outcome json :=
  (data <- http ;;
   choices <- py_getitem data "choices" ;;
   choice <- py_first choices ;;
   message <- py_getitem choice "message" ;;
   text <- py_getitem message "content" ;;
   text <- strip_fences text ;;
   json_loads text)%py.

Definition call_anthropic (json_loads : string -> outcome json) (http : outcome json)
  : outcome json :=
  (data <- http ;;
   content <- py_getitem data "content" ;;
   block <- py_first content ;;
   text <- py_getitem block "text" ;;
   text <- strip_fences text ;;
   json_loads text)%py.

Definition call_openrouter (json_loads : string -> outcome json) (http : outcome json)
  : outcome json :=
  (data <- http ;;
   choices <- py_getitem data "choices" ;;
   choice <- py_first choices ;;
   message <- py_getitem choice "message" ;;
   text <- py_getitem message "content" ;;
   text <- strip_fences text ;;
   json_loads text)%py.

Definition call_perplexity (json_loads : string -> outcome json) (http : outcome json)
  : outcome json :=
  (data <- http ;;
   choices <- py_getitem data "choices" ;;
   choice <- py_first choices ;;
   message <- py_getitem choice "message" ;;
   text <- py_getitem message "content" ;;
   text <- strip_fences text ;;
   json_loads text)%py.

(** The provider functions by name, as [synthesize_with_llm] dispatches. *)
Definition call_provider (p : provider) : (string -> outcome json) -> outcome json -> outcome json :=
  match p with
  | gemini => call_gemini
  | openai => call_openai
  | anthropic => call_anthropic
  | openrouter => call_openrouter
  | perplexity => call_perplexity
  end.

(* ====================================================================== *)
(** ** Workspace detection: [detect_workspace_context]

    The file system below the working directory is a [tree].  [os.walk]
    passes over a directory it cannot list without raising, so the
    [except] branch of the scan is not reached. *)
(* ====================================================================== *)

(** A directory as [os.walk] lists it: the names of the entries that are
    not directories, and the sub-directories, both in listing order.
    [Unlisted] is a directory the walk yields nothing for: one whose
    listing fails, or, below the top, a symbolic link to a directory. *)
Inductive tree : Type :=
  | Dir (files : list string) (dirs : list (string * tree))
  | Unlisted.

Definition is_in (x : string) (l : list string) : bool := existsb (String.eqb x) l.

Definition ignored_dirs : list string :=
  [".git"; "node_modules"; "__pycache__"; "venv"; ".venv"; "dist"; "build"].

(** The file lists that [os.walk(cwd)] yields, top-down, when the loop body
    removes the ignored names from [dirs] before the walk goes on. *)
Fixpoint walk (t : tree) : list (list string) :=
  match t with
  | Unlisted => []
  | Dir files dirs =>
      files :: flat_map (fun d => if is_in (fst d) ignored_dirs then []
                                  else walk (snd d)) dirs
  end.

(** [name.rfind('.')], [None] for -1. *)
Fixpoint rfind_dot (name : string) : option nat :=
  match name with
  | EmptyString => None
  | String c rest =>
      match rfind_dot rest with
      | Some i => Some (S i)
      | None => if Ascii.eqb c "." then Some O else None
      end
  end.

(** [s[n:]] *)
Fixpoint drop_chars (n : nat) (s : string) : string :=
  match n, s with
  | O, _ => s
  | S _, EmptyString => EmptyString
  | S n', String _ s' => drop_chars n' s'
  end.

(** [Path(root) / file] has the name [file]; its [suffix] starts at the last
    dot unless that dot is the first or the last character. *)
Definition path_suffix (name : string) : string :=
  match rfind_dot name with
  | Some i =>
      if (0 <? i)%nat && (i <? String.length name - 1)%nat
      then drop_chars i name else ""
  | None => ""
  end.

Definition language_patterns : list (string * list string) :=
  [ ("Python", [".py"]);
    ("JavaScript", [".js"; ".jsx"]);
    ("TypeScript", [".ts"; ".tsx"]);
    ("Java", [".java"]);
    ("C++", [".cpp"; ".cc"; ".cxx"]);
    ("C#", [".cs"]);
    ("Go", [".go"]);
    ("Rust", [".rs"]);
    ("Ruby", [".rb"]);
    ("PHP", [".php"]);
    ("Swift", [".swift"]);
    ("Kotlin", [".kt"]) ].

Definition framework_files : list (string * list string) :=
  [ ("Django", ["manage.py"; "settings.py"]);
    ("FastAPI", ["main.py"]);
    ("Flask", ["app.py"]);
    ("React", ["package.json"]);
    ("Vue", ["vue.config.js"]);
    ("Angular", ["angular.json"]);
    ("Next.js", ["next.config.js"]);
    ("Express", ["package.json"]) ].

Definition config_names : list string :=
  ["package.json"; "requirements.txt"; "Cargo.toml"; "go.mod"; "pom.xml"].

Definition max_files : nat := 100.

(** The local variables of the scan. *)
Record scan : Type := {
  languages : gset string;
  frameworks : gset string;
  config_files : list string;
  file_count : nat
}.

Definition scan_start : scan :=
  {| languages := ∅; frameworks := ∅; config_files := []; file_count := 0 |}.

(** [for name, values in patterns.items(): if x in values: found.add(name)] *)
Definition add_matching (x : string) (patterns : list (string * list string))
    (found : gset string) : gset string :=
  fold_left (fun acc p => if is_in x (snd p) then acc ∪ {[ fst p ]} else acc)
            patterns found.

(** The body of the inner loop, after its [break] test. *)
Definition scan_file (file : string) (s : scan) : scan :=
  {| languages := add_matching (path_suffix file) language_patterns (languages s);
     frameworks := add_matching file framework_files (frameworks s);
     config_files :=
       if is_in file config_names then config_files s ++ [file] else config_files s;
     file_count := S (file_count s) |}.

(** [for file in files: if file_count >= max_files: break ...] *)
Fixpoint scan_files (files : list string) (s : scan) : scan :=
  match files with
  | [] => s
  | file :: rest =>
      if (max_files <=? file_count s)%nat then s
      else scan_files rest (scan_file file s)
  end.

(** The outer loop, with its own [break] after each directory. *)
Fixpoint scan_walk (visits : list (list string)) (s : scan) : scan :=
  match visits with
  | [] => s
  | files :: rest =>
      let s' := scan_files files s in
      if (max_files <=? file_count s')%nat then s' else scan_walk rest s'
  end.

(** [sorted(list(found))] *)
Definition sorted (found : gset string) : list string :=
  merge_sort String.le (elements found).

Definition detect_workspace_context (cwd : string) (t : tree) : json :=
  let s := scan_walk (walk t) scan_start in
  JDict [ ("workspace", JStr cwd);
          ("languages", JList (map JStr (sorted (languages s))));
          ("frameworks", JList (map JStr (sorted (frameworks s))));
          ("config_files", JList (map JStr (config_files s)));
          ("scan_limited", JBool (max_files <=? file_count s)%nat) ].

(* ====================================================================== *)
(** ** The [get_server_context] tool *)
(* ====================================================================== *)

Definition provider_name (p : provider) : string :=
  match p with
  | gemini => "gemini"
  | openai => "openai"
  | anthropic => "anthropic"
  | openrouter => "openrouter"
  | perplexity => "perplexity"
  end.

(** The dictionary [context]. *)
Definition server_context (getenv : string -> option string) (cwd : string) (t : tree)
  : outcome json :=
  let workspace_context := detect_workspace_context cwd t in
  let provider_info := get_available_llm_provider getenv in
  (found <- py_getitem workspace_context "languages" ;;
   language <- (if truthy found
                then (found <- py_getitem workspace_context "languages" ;;
                      py_first found)
                else Return JNull) ;;
   Return (JDict
     [ ("handshake", JDict
          [ ("server", JStr "community-research-mcp");
            ("version", JStr "1.0.0");
            ("status", JStr "initialized");
            ("description",
             JStr "Searches Stack Overflow, Reddit, GitHub, forums for real solutions");
            ("capabilities", JDict
               [ ("multi_source_search", JBool true);
                 ("query_validation", JBool true);
                 ("llm_synthesis", JBool true);
                 ("caching", JBool true);
                 ("rate_limiting", JBool true) ]) ]);
       ("project_context", workspace_context);
       ("context_defaults", JDict [("language", language)]);
       ("available_providers", JDict
          [ ("configured",
             match provider_info with
             | Some (p, _) => JStr (provider_name p)
             | None => JNull
             end);
            ("supported",
             JList [JStr "gemini"; JStr "openai"; JStr "anthropic";
                    JStr "openrouter"; JStr "perplexity"]) ]) ]))%py.


(* ---------------------------------------------------------------------- *)
(** ** Vocabulary of the provider calls and of the workspace scan *)

(** The reply shapes the providers document, around the generated text. *)
Definition gemini_reply (text : json) : json :=
  JDict [("candidates",
          JList [JDict [("content", JDict [("parts", JList [JDict [("text", text)]])])]])].

Definition chat_reply (text : json) : json :=
  JDict [("choices", JList [JDict [("message", JDict [("content", text)])]])].

Definition anthropic_reply (text : json) : json :=
  JDict [("content", JList [JDict [("text", text)]])].

Definition reply_of (p : provider) (text : json) : json :=
  match p with
  | gemini => gemini_reply text
  | anthropic => anthropic_reply text
  | _ => chat_reply text
  end.

(** A stand-in for the parser that hands back the text it was given. *)
Definition echo : string -> outcome json := fun s => Return (JStr s).

Definition fenced (body : string) : string := fence_open +:+ body +:+ fence_close.

(** The number of backticks a string starts with. *)
Fixpoint lead (s : string) : nat :=
  match s with
  | String c s' => if Ascii.eqb "`" c then S (lead s') else O
  | EmptyString => O
  end.

(** The order in which [sort_keys] puts the items of a dictionary. *)
Definition by_key (p q : string * string) : Prop := String.le (fst p) (fst q).

(** The files the walk reaches, in the order it yields them, and the ones
    the scan examines. *)
Definition visible_files (t : tree) : list string := concat (walk t).
Definition examined (t : tree) : list string := firstn max_files (visible_files t).

(** The tree with the content of every ignored directory forgotten. *)
Fixpoint without_ignored (t : tree) : tree :=
  match t with
  | Unlisted => Unlisted
  | Dir files dirs =>
      Dir files (map (fun d => (fst d, if is_in (fst d) ignored_dirs then Unlisted
                                       else without_ignored (snd d))) dirs)
  end.

(** The names of [patterns] that [x] is listed under. *)
Definition matches (x : string) (patterns : list (string * list string)) (name : string)
  : Prop :=
  exists values, In (name, values) patterns /\ is_in x values = true.

Definition field (v : json) (k : string) : option json :=
  match v with
  | JDict kv => dict_lookup kv k
  | _ => None
  end.

(** The loop body applied to a list of files, with no limit. *)
Definition scan_list (files : list string) (s : scan) : scan :=
  fold_left (fun acc file => scan_file file acc) files s.

(** A small project: a Node front end beside a Python entry point, with
    vendored and generated directories. *)
Definition sample_tree : tree :=
  Dir ["README.md"; "package.json"; ".gitignore"; "main.py"]
      [ ("node_modules", Dir ["index.js"; "package.json"] [("deep", Dir ["x.rb"] [])]);
        ("src", Dir ["app.ts"; "cli.cpp"; "a.tar.gz"; "Makefile"; "x."; ".py"]
                    [("build", Dir ["gen.go"] []); ("lib", Dir ["util.cs"] [])]);
        ("link", Unlisted) ].


(* ====================================================================== *)
(** * Properties *)
(* ====================================================================== *)

(** ** Sanity checks of the primitives against CPython *)

Example validate_settings :
  raises (validate_topic_specificity "settings") = true.
Proof. reflexivity. Qed.

Example validate_fastapi :
  validate_topic_specificity "  FastAPI background task queue with Redis "
  = Return "FastAPI background task queue with Redis".
Proof. reflexivity. Qed.

Example split_demo : split "  how   to	x " = ["how"; "to"; "x"].
Proof. reflexivity. Qed.

Example repr_demo :
  py_repr (JList [JStr "it's"; JNum (-3); JNull; JDict [("a", JBool true)]])
  = "[" +:+ String dquote "it's" +:+ String dquote ", -3, None, {'a': True}]".
Proof. vm_compute. reflexivity. Qed.

Example md5_empty : md5_hex "" = "d41d8cd98f00b204e9800998ecf8427e".
Proof. vm_compute. reflexivity. Qed.

Example md5_fox :
  md5_hex "The quick brown fox jumps over the lazy dog"
  = "9e107d9d372bb6826bd81d3542a419d6".
Proof. vm_compute. reflexivity. Qed.

(* ---------------------------------------------------------------------- *)
(** ** Cache *)

Section Cache.
Implicit Types (key p : string) (w : World).

Lemma get_fresh key w e :
  _cache w !! key = Some e ->
  clock w - timestamp e < CACHE_TTL_SECONDS ->
  get_cached_result key w = (Some (result e), w).
Proof.
  intros Hk Hage. unfold get_cached_result. rewrite Hk.
  destruct (Z.ltb_spec (clock w - timestamp e) CACHE_TTL_SECONDS); [reflexivity | lia].
Qed.

Lemma get_stale key w e :
  _cache w !! key = Some e ->
  CACHE_TTL_SECONDS <= clock w - timestamp e ->
  get_cached_result key w = (None, with_cache (delete key (_cache w)) w).
Proof.
  intros Hk Hage. unfold get_cached_result. rewrite Hk.
  destruct (Z.ltb_spec (clock w - timestamp e) CACHE_TTL_SECONDS); [lia | reflexivity].
Qed.

Lemma get_absent key w :
  _cache w !! key = None -> get_cached_result key w = (None, w).
Proof. intros Hk. unfold get_cached_result. now rewrite Hk. Qed.

Lemma set_then_lookup key p w dt :
  _cache (elapse dt (set_cached_result key p w)) !! key
  = Some {| result := p; timestamp := clock w |}.
Proof. simpl. apply lookup_insert_eq. Qed.

Lemma put_get key p w dt :
  let w1 := elapse dt (set_cached_result key p w) in
  (dt < CACHE_TTL_SECONDS -> get_cached_result key w1 = (Some p, w1))
  /\ (CACHE_TTL_SECONDS <= dt ->
      get_cached_result key w1 = (None, with_cache (delete key (_cache w1)) w1)
      /\ _cache (snd (get_cached_result key w1)) !! key = None
      /\ forall dt', fst (get_cached_result key
                            (elapse dt' (snd (get_cached_result key w1)))) = None).
Proof.
  intros w1. pose proof (set_then_lookup key p w dt) as Hk. fold w1 in Hk.
  assert (Hage : clock w1 - clock w = dt) by (simpl; lia).
  split; intros Hdt.
  - now rewrite (get_fresh _ _ _ Hk) by (simpl timestamp; lia).
  - rewrite (get_stale _ _ _ Hk) by (simpl timestamp; lia).
    split; [reflexivity |]. simpl snd. split.
    + simpl. apply lookup_delete_eq.
    + intros dt'. rewrite get_absent; [reflexivity |].
      simpl. apply lookup_delete_eq.
Qed.

End Cache.

(** C8.  Cache round-trip and lazy expiry.  For every query [q] and payload
    [p]: storing [p] under the key of [q] and reading it back [dt] seconds
    later returns [p] exactly and leaves the world as it is whenever
    [dt < 3600] (in particular at once, [dt = 0]); once
    [now - createdAt >= 3600] the read deletes the entry and reports a miss,
    the key is absent afterwards, and every later read misses too. *)
Theorem cache_round_trip_and_lazy_expiry
    (q : CommunitySearchInput) (p : string) (w : World) (dt : Z) :
  let key := cache_key_of q in
  let w1 := elapse dt (set_cached_result key p w) in
  get_cached_result key (set_cached_result key p w)
    = (Some p, set_cached_result key p w)
  /\ (dt < CACHE_TTL_SECONDS -> get_cached_result key w1 = (Some p, w1))
  /\ (CACHE_TTL_SECONDS <= clock w1 - clock w ->
      get_cached_result key w1 = (None, with_cache (delete key (_cache w1)) w1)
      /\ _cache (snd (get_cached_result key w1)) !! key = None
      /\ forall dt', fst (get_cached_result key
                            (elapse dt' (snd (get_cached_result key w1)))) = None).
Proof.
  cbv zeta. generalize (cache_key_of q). intros key.
  destruct (put_get key p w dt) as [Hfresh Hstale].
  destruct (put_get key p w 0) as [Hnow _].
  split; [| split].
  - assert (E : elapse 0 (set_cached_result key p w) = set_cached_result key p w).
    { unfold elapse. simpl. now rewrite Z.add_0_r. }
    rewrite <- E. apply Hnow. reflexivity.
  - exact Hfresh.
  - intros Hage. apply Hstale. simpl in Hage. lia.
Qed.

Lemma cache_round_trip_witness :
  get_cached_result (cache_key_of (fastapi_query JSON))
    (elapse 10 (set_cached_result (cache_key_of (fastapi_query JSON)) "{}"
                  (empty_world 0)))
  = (Some "{}",
     elapse 10 (set_cached_result (cache_key_of (fastapi_query JSON)) "{}"
                  (empty_world 0)))
  /\ fst (get_cached_result (cache_key_of (fastapi_query JSON))
            (elapse 3600
               (set_cached_result (cache_key_of (fastapi_query JSON)) "{}"
                  (empty_world 0)))) = None.
Proof.
  split.
  - apply (cache_round_trip_and_lazy_expiry (fastapi_query JSON) "{}" (empty_world 0) 10).
    reflexivity.
  - destruct (cache_round_trip_and_lazy_expiry (fastapi_query JSON) "{}" (empty_world 0) 3600)
      as (_ & _ & Hstale).
    destruct Hstale as (Hget & _); [unfold CACHE_TTL_SECONDS; simpl; lia |].
    now rewrite Hget.
Defined.

(* ---------------------------------------------------------------------- *)
(** ** Rate limiter *)

Section RateLimiter.
Implicit Types (name : string) (w : World) (l : list Z).

(** One admission check, in terms of the operation's window. *)
Lemma check_rate_limit_step name w :
  let kept := live (clock w) (window name w) in
  check_rate_limit name w =
    if Nat.ltb (List.length kept) RATE_LIMIT_MAX_CALLS
    then (true, with_tracker (<[name := kept ++ [clock w]]> (_rate_limit_tracker w)) w)
    else (false, with_tracker (<[name := kept]> (_rate_limit_tracker w)) w).
Proof.
  unfold check_rate_limit, window, live.
  destruct (_rate_limit_tracker w !! name) as [l0 |] eqn:Hl; cbn [default].
  - rewrite Hl. cbn [default]. rewrite insert_insert_eq.
    rewrite Nat.ltb_antisym. now destruct (Nat.leb _ _).
  - rewrite lookup_insert_eq. cbn [default]. rewrite !insert_insert_eq.
    rewrite Nat.ltb_antisym. now destruct (Nat.leb _ _).
Qed.

Lemma window_after_insert name l w :
  window name (with_tracker (<[name := l]> (_rate_limit_tracker w)) w) = l.
Proof. unfold window. simpl. now rewrite lookup_insert_eq. Qed.

Lemma window_other name name' l w :
  name <> name' ->
  window name' (with_tracker (<[name := l]> (_rate_limit_tracker w)) w) = window name' w.
Proof. intros Hne. unfold window. simpl. now rewrite lookup_insert_ne. Qed.

Lemma window_at_time name t w : window name (at_time t w) = window name w.
Proof. reflexivity. Qed.

Lemma live_live now now' l : now <= now' -> live now' (live now l) = live now' l.
Proof.
  intros Hle. unfold live. induction l as [| ts l IH]; [reflexivity |].
  simpl. destruct (Z.ltb_spec (now - ts) RATE_LIMIT_WINDOW) as [Hin | Hout]; simpl.
  - now rewrite IH.
  - destruct (Z.ltb_spec (now' - ts) RATE_LIMIT_WINDOW); [lia | exact IH].
Qed.

Lemma live_app now l l' : live now (l ++ l') = live now l ++ live now l'.
Proof. unfold live. apply List.filter_app. Qed.

Lemma live_all now l :
  (forall ts, In ts l -> now - ts < RATE_LIMIT_WINDOW) -> live now l = l.
Proof.
  intros Hall. unfold live. induction l as [| ts l IH]; [reflexivity |].
  simpl. destruct (Z.ltb_spec (now - ts) RATE_LIMIT_WINDOW) as [_ | Hout].
  - f_equal. apply IH. intros; apply Hall; now right.
  - specialize (Hall ts (or_introl eq_refl)). lia.
Qed.

Lemma filter_length_mono {A} (f g : A -> bool) (l : list A) :
  (forall x, f x = true -> g x = true) ->
  (List.length (List.filter f l) <= List.length (List.filter g l))%nat.
Proof.
  intros Himp. induction l as [| x l IH]; [reflexivity |].
  simpl. destruct (f x) eqn:Hf.
  - rewrite (Himp x Hf). simpl. lia.
  - destruct (g x); simpl; lia.
Qed.

End RateLimiter.

Section RateLimiterRuns.
Variable name : string.
Implicit Types (w : World) (l times : list Z).

Lemma checks_cons t times w :
  checks name (t :: times) w =
    (fst (check_rate_limit name (at_time t w))
       :: fst (checks name times (snd (check_rate_limit name (at_time t w)))),
     snd (checks name times (snd (check_rate_limit name (at_time t w))))).
Proof.
  simpl. destruct (check_rate_limit name (at_time t w)) as [b w1]. simpl.
  now destruct (checks name times w1).
Qed.

Lemma admitted_cons t times w :
  admitted name (t :: times) w =
    (if fst (check_rate_limit name (at_time t w)) then [t] else [])
    ++ admitted name times (snd (check_rate_limit name (at_time t w))).
Proof.
  unfold admitted. rewrite checks_cons. simpl.
  now destruct (fst (check_rate_limit name (at_time t w))).
Qed.

(** What a check at time [t] does to a window that is [live c A]. *)
Lemma check_on_live t c A w :
  c <= t -> window name w = live c A ->
  let r := check_rate_limit name (at_time t w) in
  (fst r = true /\ (List.length (live t A) < RATE_LIMIT_MAX_CALLS)%nat
   /\ window name (snd r) = live t (A ++ [t]))
  \/ (fst r = false /\ window name (snd r) = live t A).
Proof.
  intros Hct Hwin. cbv zeta. rewrite check_rate_limit_step. cbv zeta.
  change (clock (at_time t w)) with t. rewrite window_at_time, Hwin, (live_live c t A Hct).
  destruct (Nat.ltb_spec (List.length (live t A)) RATE_LIMIT_MAX_CALLS) as [Hlt | Hge].
  - left. cbn [fst snd]. repeat split; [exact Hlt |].
    rewrite window_after_insert, live_app. f_equal.
    unfold live. simpl. replace (t - t) with 0 by lia. reflexivity.
  - right. cbn [fst snd]. split; [reflexivity |].
    apply window_after_insert.
Qed.

Lemma in_window_app t l l' :
  in_window_ending t (l ++ l') = (in_window_ending t l + in_window_ending t l')%nat.
Proof. unfold in_window_ending. now rewrite List.filter_app, length_app. Qed.

Lemma in_window_le_live t t' l :
  t <= t' -> (in_window_ending t' l <= List.length (live t l))%nat.
Proof.
  intros Hle. unfold in_window_ending, live. apply filter_length_mono.
  intros ts Hts. apply andb_true_iff in Hts as [H1 H2].
  apply Z.ltb_lt in H1. apply Z.ltb_lt. lia.
Qed.

Lemma in_window_single t t' :
  (in_window_ending t' [t] <= 1)%nat
  /\ (t' < t -> in_window_ending t' [t] = 0%nat).
Proof.
  unfold in_window_ending. simpl.
  destruct (Z.ltb_spec (t' - RATE_LIMIT_WINDOW) t), (Z.leb_spec t t'); simpl;
    split; intros; lia.
Qed.

(** Invariant of a run: the window is the live part of what was admitted,
    and no 60-second window holds more than ten admitted calls. *)
Lemma admitted_bound times : forall w A c,
  window name w = live c A ->
  ascending (c :: times) = true ->
  (forall t, (in_window_ending t A <= RATE_LIMIT_MAX_CALLS)%nat) ->
  forall t, (in_window_ending t (A ++ admitted name times w) <= RATE_LIMIT_MAX_CALLS)%nat.
Proof.
  induction times as [| t0 times IH]; intros w A c Hwin Hasc HA t.
  - unfold admitted. simpl. now rewrite app_nil_r.
  - assert (Hc : c <= t0 /\ ascending (t0 :: times) = true).
    { simpl in Hasc. apply andb_true_iff in Hasc as [H1 H2].
      apply Z.leb_le in H1. now split. }
    destruct Hc as [Hc Hasc'].
    rewrite admitted_cons.
    destruct (check_on_live t0 c A w Hc Hwin) as [(Hb & Hlen & Hw') | (Hb & Hw')];
      rewrite Hb.
    + rewrite app_assoc. apply (IH _ (A ++ [t0]) t0 Hw' Hasc').
      intros t'. rewrite in_window_app.
      destruct (in_window_single t0 t') as [H1 H0].
      destruct (Z.lt_ge_cases t' t0) as [Hlt | Hge].
      * rewrite (H0 Hlt). specialize (HA t'). lia.
      * pose proof (in_window_le_live t0 t' A Hge). lia.
    + simpl app. apply (IH _ A t0 Hw' Hasc' HA).
Qed.

(** With every timestamp involved inside one window, nothing is pruned:
    a check is admitted exactly while fewer than ten are recorded. *)
Lemma checks_without_pruning times : forall w,
  (forall ts t, In ts (window name w ++ times) -> In t times ->
                t - ts < RATE_LIMIT_WINDOW) ->
  fst (checks name times w)
  = map (fun i => Nat.ltb (List.length (window name w) + i) RATE_LIMIT_MAX_CALLS)
        (seq 0 (List.length times)).
Proof.
  induction times as [| t0 times IH]; intros w Hlive; [reflexivity |].
  rewrite checks_cons. cbn [fst].
  rewrite check_rate_limit_step. cbv zeta.
  change (clock (at_time t0 w)) with t0. rewrite window_at_time.
  rewrite live_all
    by (intros ts Hts; apply Hlive; [apply in_or_app; now left | now left]).
  cbn [List.length seq map]. rewrite Nat.add_0_r.
  destruct (Nat.ltb_spec (List.length (window name w)) RATE_LIMIT_MAX_CALLS) as [Hlt | Hge];
    cbn [fst snd]; f_equal.
  - rewrite IH.
    + rewrite window_after_insert, length_app. cbn [List.length].
      rewrite <- seq_shift, map_map. apply map_ext. intros i. f_equal. lia.
    + rewrite window_after_insert. intros ts t Hts Ht.
      apply Hlive; [| now right].
      rewrite <- app_assoc in Hts. apply in_app_or in Hts as [Hts | Hts];
        apply in_or_app; [now left | right; exact Hts].
  - rewrite IH.
    + rewrite window_after_insert.
      rewrite <- seq_shift, map_map. apply map_ext_in. intros i _.
      destruct (Nat.ltb_spec (List.length (window name w) + i) RATE_LIMIT_MAX_CALLS),
               (Nat.ltb_spec (List.length (window name w) + S i) RATE_LIMIT_MAX_CALLS);
        try reflexivity; lia.
    + rewrite window_after_insert. intros ts t Hts Ht.
      apply Hlive; [| now right].
      apply in_app_or in Hts as [Hts | Hts]; apply in_or_app;
        [now left | right; now right].
Qed.

End RateLimiterRuns.

(** C5.  Sliding-window admission.  For every operation name and state, a
    check first prunes the window to the timestamps less than 60 seconds
    old ([kept]); with fewer than 10 left it appends the current time and
    returns true, otherwise it returns false and records nothing; the
    windows of other names, the cache and the clock are untouched.  Hence
    eleven calls less than 60 seconds apart, starting from an empty
    window, are answered true ten times and then false, and on any
    schedule of calls in time order no window of 60 seconds (the calls at
    times [ts] with [t - 60 < ts <= t], for any [t]) ever holds more than
    ten admitted calls. *)
Theorem rate_limiter_sliding_window (name : string) (w : World) :
  let kept := live (clock w) (window name w) in
  let r := check_rate_limit name w in
  ((List.length kept < 10)%nat ->
     fst r = true /\ window name (snd r) = kept ++ [clock w])
  /\ ((10 <= List.length kept)%nat ->
     fst r = false /\ window name (snd r) = kept)
  /\ (forall other, other <> name -> window other (snd r) = window other w)
  /\ _cache (snd r) = _cache w
  /\ clock (snd r) = clock w
  /\ (forall times,
        List.length times = 11%nat -> window name w = [] ->
        (forall t t', In t times -> In t' times -> t - t' < RATE_LIMIT_WINDOW) ->
        fst (checks name times w) = repeat true 10 ++ [false])
  /\ (forall times,
        window name w = [] -> ascending times = true ->
        forall t, (in_window_ending t (admitted name times w) <= 10)%nat).
Proof.
  cbv zeta. rewrite check_rate_limit_step. cbv zeta.
  change RATE_LIMIT_MAX_CALLS with 10%nat.
  repeat split.
  - destruct (Nat.ltb_spec (List.length (live (clock w) (window name w))) 10);
      [reflexivity | lia].
  - destruct (Nat.ltb_spec (List.length (live (clock w) (window name w))) 10);
      [cbn [snd]; apply window_after_insert | lia].
  - destruct (Nat.ltb_spec (List.length (live (clock w) (window name w))) 10);
      [lia | reflexivity].
  - destruct (Nat.ltb_spec (List.length (live (clock w) (window name w))) 10);
      [lia | cbn [snd]; apply window_after_insert].
  - intros other Hne.
    destruct (Nat.ltb (List.length (live (clock w) (window name w))) 10);
      cbn [snd]; apply window_other; congruence.
  - now destruct (Nat.ltb (List.length (live (clock w) (window name w))) 10).
  - now destruct (Nat.ltb (List.length (live (clock w) (window name w))) 10).
  - intros times Hlen Hempty Hclose.
    rewrite checks_without_pruning.
    + rewrite Hempty, Hlen. reflexivity.
    + rewrite Hempty. intros ts t Hts Ht. now apply Hclose.
  - intros times Hempty Hasc t.
    destruct times as [| t0 times]; [unfold admitted, in_window_ending; simpl; lia |].
    apply (admitted_bound name (t0 :: times) w [] t0).
    + now rewrite Hempty.
    + change (ascending (t0 :: t0 :: times))
        with ((t0 <=? t0) && ascending (t0 :: times))%bool.
      rewrite Hasc, Z.leb_refl. reflexivity.
    + intros t'. unfold in_window_ending. simpl. unfold RATE_LIMIT_MAX_CALLS. lia.
Qed.

Lemma rate_limiter_witness :
  fst (checks "community_search" burst_times (empty_world 0))
  = repeat true 10 ++ [false]
  /\ (in_window_ending 10 (admitted "community_search" burst_times (empty_world 0))
      <= 10)%nat
  /\ fst (check_rate_limit "community_search" (empty_world 0)) = true.
Proof.
  pose proof (rate_limiter_sliding_window "community_search" (empty_world 0))
    as (Hadmit & _ & _ & _ & _ & Hburst & Hany).
  split; [| split].
  - apply Hburst; [reflexivity | reflexivity |].
    intros t t' Ht Ht'. unfold RATE_LIMIT_WINDOW. unfold burst_times in Ht, Ht'.
    repeat (destruct Ht as [<- | Ht]; [repeat (destruct Ht' as [<- | Ht']; [lia |]); destruct Ht' |]).
    destruct Ht.
  - apply Hany; reflexivity.
  - apply Hadmit. vm_compute. lia.
Defined.

(** Admission resets exactly 60 seconds after the first call of a burst:
    a timestamp whose age has reached 60 is pruned, one of age 59 is not. *)
Example rate_limiter_reset :
  fst (checks "community_search" [0; 0; 0; 0; 0; 0; 0; 0; 0; 0; 59; 60] (empty_world 0))
  = repeat true 10 ++ [false; true].
Proof. vm_compute. reflexivity. Qed.

(* ---------------------------------------------------------------------- *)
(** ** Source aggregator *)

Section Aggregator.

Lemma except_empty_returns body : raises (except_empty body) = false.
Proof. now destruct body. Qed.

Lemma except_empty_of_raise body :
  raises body = true -> except_empty body = Return [].
Proof. destruct body; [discriminate | reflexivity]. Qed.

Lemma aggregate_entries r :
  values (aggregate_search_results r)
  = map (fun t => list_or_empty (Some (except_empty t))) (tries r).
Proof. reflexivity. Qed.

Lemma entry_of_try (t : outcome (list json)) :
  list_or_empty (Some (except_empty t))
  = match t with Return l => l | Raise _ => [] end.
Proof. now destruct t. Qed.

End Aggregator.

(** C6.  Failure isolation in the source aggregator.  For every combination
    of backend replies: no search task ends with an exception; a backend
    whose request or whose processing of the reply raises (connection
    error, timeout, error status, malformed reply) contributes the empty
    list; a backend that works contributes what it extracted, whatever the
    other three do; and when three of the four raise and one returns two
    results, exactly one source has two entries and three are empty. *)
Theorem aggregator_isolates_failures (r : Replies) :
  let a := aggregate_search_results r in
  Forall (fun task => raises task = false)
    [ search_stackoverflow (so_http r); search_github (gh_http r);
      search_reddit (rd_http r); search_hackernews (hn_http r) ]
  /\ (raises (stackoverflow_try (so_http r)) = true -> stackoverflow a = [])
  /\ (raises (github_try (gh_http r)) = true -> github a = [])
  /\ (raises (reddit_try (rd_http r)) = true -> reddit a = [])
  /\ (raises (hackernews_try (hn_http r)) = true -> hackernews a = [])
  /\ (forall l, stackoverflow_try (so_http r) = Return l -> stackoverflow a = l)
  /\ (forall l, github_try (gh_http r) = Return l -> github a = l)
  /\ (forall l, reddit_try (rd_http r) = Return l -> reddit a = l)
  /\ (forall l, hackernews_try (hn_http r) = Return l -> hackernews a = l)
  /\ (forall l,
        List.length l = 2%nat -> In (Return l) (tries r) ->
        List.length (List.filter raises (tries r)) = 3%nat ->
        count_occ Nat.eq_dec (entry_counts a) 2%nat = 1%nat
        /\ count_occ Nat.eq_dec (entry_counts a) 0%nat = 3%nat).
Proof.
  cbv zeta.
  assert (Hentry : forall (t : outcome (list json)),
             list_or_empty (Some (except_empty t))
             = match t with Return l => l | Raise _ => [] end)
    by apply entry_of_try.
  unfold aggregate_search_results, gather, search_stackoverflow, search_github,
    search_reddit, search_hackernews.
  cbn [lookup list_lookup stackoverflow github reddit hackernews].
  repeat match goal with |- _ /\ _ => split end.
  - repeat constructor; apply except_empty_returns.
  - intros H. now rewrite (except_empty_of_raise _ H).
  - intros H. now rewrite (except_empty_of_raise _ H).
  - intros H. now rewrite (except_empty_of_raise _ H).
  - intros H. now rewrite (except_empty_of_raise _ H).
  - intros l H. now rewrite H.
  - intros l H. now rewrite H.
  - intros l H. now rewrite H.
  - intros l H. now rewrite H.
  - intros l Hlen Hin Hthree. unfold entry_counts, values, tries in *.
    cbn [stackoverflow github reddit hackernews map]. rewrite !Hentry.
    destruct (stackoverflow_try (so_http r)) as [l0 | e0],
             (github_try (gh_http r)) as [l1 | e1],
             (reddit_try (rd_http r)) as [l2 | e2],
             (hackernews_try (hn_http r)) as [l3 | e3];
      cbn [List.filter raises List.length] in Hthree; try discriminate Hthree;
      repeat (destruct Hin as [Hin | Hin];
              [try discriminate Hin; injection Hin as -> |]);
      try destruct Hin; cbn [List.length]; rewrite Hlen; split; reflexivity.
Qed.

Lemma aggregator_witness :
  entry_counts (aggregate_search_results one_of_four) = [2; 0; 0; 0]%nat
  /\ count_occ Nat.eq_dec (entry_counts (aggregate_search_results one_of_four)) 2%nat = 1%nat
  /\ count_occ Nat.eq_dec (entry_counts (aggregate_search_results one_of_four)) 0%nat = 3%nat
  /\ github (aggregate_search_results one_of_four) = []
  /\ hackernews (aggregate_search_results one_of_four) = [].
Proof.
  pose proof (aggregator_isolates_failures one_of_four)
    as (_ & _ & Hgh & _ & Hhn & _ & _ & _ & _ & Hcount).
  split; [reflexivity |].
  destruct (Hcount (stackoverflow (aggregate_search_results one_of_four)))
    as [H2 H0]; [reflexivity | left; reflexivity | reflexivity |].
  split; [exact H2 |]. split; [exact H0 |].
  split; [apply Hgh; reflexivity | apply Hhn; reflexivity].
Defined.

(* ---------------------------------------------------------------------- *)
(** ** Validator *)

Section Validator.

Lemma startswith_spec p : forall s,
  startswith p s = true <-> exists rest, s = p +:+ rest.
Proof.
  induction p as [| a p IH]; intros s; simpl.
  - split; [intros _; now exists s | reflexivity].
  - destruct s as [| b s].
    + split; [discriminate | intros [rest H]; discriminate H].
    + destruct (Ascii.eqb_spec a b) as [-> | Hne].
      * rewrite IH. split; intros [rest H]; exists rest.
        -- now rewrite H.
        -- now injection H.
      * split; [discriminate | intros [rest H]; injection H; congruence].
Qed.

Lemma contains_spec term : forall s,
  contains term s = true <-> exists pre post, s = pre +:+ term +:+ post.
Proof.
  induction s as [| c s IH]; simpl; rewrite orb_true_iff, startswith_spec.
  - split.
    + intros [[rest H] | H]; [| discriminate]. exists "", rest. exact H.
    + intros (pre & post & H). left. exists post.
      destruct pre; [exact H | discriminate H].
  - rewrite IH. split.
    + intros [[rest H] | (pre & post & H)].
      * exists "", rest. exact H.
      * exists (String c pre), post. simpl. now rewrite H.
    + intros (pre & post & H). destruct pre as [| c' pre]; simpl in H.
      * left. now exists post.
      * right. exists pre, post. now injection H.
Qed.

Lemma mentions_vague_term_spec t :
  existsb (fun term => contains term (lower t)) vague_terms = true
  <-> mentions_vague_term t.
Proof.
  unfold mentions_vague_term. rewrite existsb_exists. split.
  - intros (term & Hin & Hc). apply contains_spec in Hc as (pre & post & H).
    now exists term, pre, post.
  - intros (term & pre & post & Hin & H). exists term. split; [exact Hin |].
    apply contains_spec. now exists pre, post.
Qed.

End Validator.

(** C7, as the code has it.  The validator rejects a topic exactly when,
    after trimming, it has at most two whitespace-separated words and its
    lower-cased text contains a term of the vagueness list as a substring
    (anywhere: inside a longer word, or across the two words); it then
    raises the "too vague" error that echoes the trimmed topic.  Every
    other topic is accepted and returned trimmed, among them every topic
    of three or more words. *)
Theorem validator_rejects_short_topics_with_vague_substring (v : string) :
  let t := strip v in
  let few_words := (List.length (split (lower t)) <= 2)%nat in
  (few_words /\ mentions_vague_term t <->
     validate_topic_specificity v = Raise (Exn ValueError (too_vague_message t)))
  /\ (~ (few_words /\ mentions_vague_term t) <->
     validate_topic_specificity v = Return t)
  /\ ((3 <= List.length (split (lower t)))%nat ->
     validate_topic_specificity v = Return t).
Proof.
  cbv zeta. unfold validate_topic_specificity.
  rewrite <- mentions_vague_term_spec.
  destruct (Nat.leb_spec (List.length (split (lower (strip v)))) 2) as [Hle | Hgt];
    destruct (existsb _ vague_terms) eqn:Hv; cbn [andb];
    intuition (discriminate || lia || congruence).
Qed.

Lemma validator_witness :
  raises (validate_topic_specificity "  performance ") = true
  /\ validate_topic_specificity "FastAPI background task queue with Redis"
     = Return "FastAPI background task queue with Redis".
Proof.
  split.
  - destruct (validator_rejects_short_topics_with_vague_substring "  performance ")
      as (Hrej & _ & _).
    destruct Hrej as [Hrej _]. rewrite Hrej; [reflexivity |].
    split; [vm_compute; lia |].
    exists "performance", "", "". split; [| reflexivity].
    unfold vague_terms. simpl. tauto.
  - destruct (validator_rejects_short_topics_with_vague_substring
                "FastAPI background task queue with Redis") as (_ & _ & Hacc).
    apply Hacc. vm_compute. lia.
Defined.

(** C7, as the specification words it, fails: a two-word topic of 17
    characters with the specific term "redis" is rejected because its
    other word is a vague term; "helper functions" is rejected although
    none of its words is in the vagueness list ("help" occurs inside
    "helper"). *)
Lemma validator_rejects_specific_topic :
  (10 <=? len "Redis performance") = true
  /\ existsb (String.eqb "redis") (split (lower (strip "Redis performance"))) = true
  /\ existsb (fun term => contains term "redis") vague_terms = false
  /\ raises (validate_topic_specificity "Redis performance") = true
  /\ (10 <=? len "helper functions") = true
  /\ existsb (fun word => existsb (String.eqb word) vague_terms)
       (split (lower (strip "helper functions"))) = false
  /\ raises (validate_topic_specificity "helper functions") = true.
Proof. vm_compute. repeat split. Qed.

(* ---------------------------------------------------------------------- *)
(** ** Orchestrator: the three ways a call proceeds *)

Section Orchestrator.
Variables (env : Env) (params : CommunitySearchInput).
Implicit Types (w : World) (key : string).

Lemma search_rejected w :
  fst (check_rate_limit "community_search" w) = false ->
  community_search env params w
  = (rate_limit_payload, snd (check_rate_limit "community_search" w)).
Proof.
  intros H. unfold community_search.
  destruct (check_rate_limit "community_search" w) as [b w1].
  simpl in H. now subst b.
Qed.

Lemma search_hit w r :
  fst (check_rate_limit "community_search" w) = true ->
  cached_payload (cache_key_of params) (snd (check_rate_limit "community_search" w))
    = Some r ->
  community_search env params w = (r, after_lookup params w).
Proof.
  intros Hok Hhit. unfold community_search, after_lookup.
  destruct (check_rate_limit "community_search" w) as [b w1].
  cbn [fst snd] in *. subst b. cbn [negb].
  unfold cached_payload in Hhit.
  destruct (get_cached_result (cache_key_of params) w1) as [[c |] w2];
    cbn [fst snd] in *; [| discriminate].
  destruct (String.eqb c ""); [discriminate |].
  now injection Hhit as ->.
Qed.

Lemma search_miss w :
  fst (check_rate_limit "community_search" w) = true ->
  cached_payload (cache_key_of params) (snd (check_rate_limit "community_search" w))
    = None ->
  community_search env params w
  = retry_loop env params (cache_key_of params) (seq 0 MAX_RETRIES)
      (after_lookup params w).
Proof.
  intros Hok Hmiss. unfold community_search, after_lookup.
  destruct (check_rate_limit "community_search" w) as [b w1].
  cbn [fst snd] in *. subst b. cbn [negb].
  unfold cached_payload in Hmiss.
  destruct (get_cached_result (cache_key_of params) w1) as [[c |] w2];
    cbn [fst snd] in *; [| reflexivity].
  now destruct (String.eqb c "").
Qed.

(** Neither the rate check nor the cache lookup writes to the log or moves
    the clock. *)
Lemma after_lookup_log w : log (after_lookup params w) = log w.
Proof.
  unfold after_lookup. rewrite check_rate_limit_step. cbv zeta.
  generalize (cache_key_of params). intros key.
  destruct (Nat.ltb _ _); cbn [snd]; unfold get_cached_result;
    cbn [_cache with_tracker];
    (destruct (_cache w !! key) as [e |]; [| reflexivity]);
    cbn [clock]; destruct (_ <? _); reflexivity.
Qed.

Lemma after_lookup_clock w : clock (after_lookup params w) = clock w.
Proof.
  unfold after_lookup. rewrite check_rate_limit_step. cbv zeta.
  generalize (cache_key_of params). intros key.
  destruct (Nat.ltb _ _); cbn [snd]; unfold get_cached_result;
    cbn [_cache with_tracker];
    (destruct (_cache w !! key) as [e |]; [| reflexivity]);
    cbn [clock]; destruct (_ <? _); reflexivity.
Qed.

(** One pass of the loop, by what its [try] body ends with. *)
Lemma retry_loop_return key attempt rest w r w' :
  run_attempt env params key attempt w = (Return r, w') ->
  retry_loop env params key (attempt :: rest) w = (r, w').
Proof. intros H. cbn [retry_loop]. now rewrite H. Qed.

Lemma retry_loop_raise_last key rest w e w' :
  run_attempt env params key 2 w = (Raise e, w') ->
  retry_loop env params key (2%nat :: rest) w = (failed_payload e, w').
Proof. intros H. cbn [retry_loop]. now rewrite H. Qed.

Lemma retry_loop_raise_again key attempt rest w e w' :
  (attempt < 2)%nat ->
  run_attempt env params key attempt w = (Raise e, w') ->
  retry_loop env params key (attempt :: rest) w
  = retry_loop env params key rest (sleep (2 ^ Z.of_nat attempt) w').
Proof.
  intros Hlt H. cbn [retry_loop]. rewrite H.
  destruct (Nat.eqb_spec attempt (MAX_RETRIES - 1)) as [E | _]; [| reflexivity].
  unfold MAX_RETRIES in E. simpl in E. lia.
Qed.

(** A pass that raises leaves the cache as it found it. *)
Lemma run_attempt_raise_cache key attempt w e w' :
  run_attempt env params key attempt w = (Raise e, w') ->
  _cache w' = _cache w /\ _rate_limit_tracker w' = _rate_limit_tracker w.
Proof.
  unfold run_attempt.
  destruct (Nat.eqb _ 0); [discriminate |].
  unfold synthesize_with_llm.
  destruct (get_available_llm_provider (getenv env)) as [[p k] |].
  - destruct (llm (attempts env attempt) p);
      destruct (format_response _ _ _ _); intros H; try discriminate H;
      injection H as _ <-; split; reflexivity.
  - destruct (format_response _ _ _ _); intros H; try discriminate H;
      injection H as _ <-; split; reflexivity.
Qed.

End Orchestrator.

(* ---------------------------------------------------------------------- *)
(** ** Zero results *)

Section NoResults.
Variables (env : Env) (params : CommunitySearchInput).

Lemma run_attempt_no_results key attempt w :
  total_count (aggregate_search_results (replies (attempts env attempt))) = 0%nat ->
  run_attempt env params key attempt w
  = (Return (no_results_payload params),
     set_cached_result key (no_results_payload params)
       (elapse (search_secs (attempts env attempt)) (emit EvSearch w))).
Proof. intros H. unfold run_attempt. now rewrite H. Qed.

Lemma dumps_dict_nonempty p kv :
  String.eqb (json_dumps_indent2 (JDict (p :: kv))) "" = false.
Proof. reflexivity. Qed.

Lemma no_results_payload_nonempty : String.eqb (no_results_payload params) "" = false.
Proof. apply dumps_dict_nonempty. Qed.

End NoResults.

(** C4.  Zero results.  In any pass of the retry loop where the four
    backends together return nothing, the loop ends at once with the
    "no results" payload: the fan-out is the only step taken (no LLM call,
    no sleep, no further pass) and the payload is stored under the query's
    key.  For a call that was admitted and missed the cache this happens in
    the first pass, and any read of the key within the next hour, by
    [get_cached_result] or by a later [community_search], returns that
    exact payload. *)
Theorem zero_results_short_circuit_and_cache
    (env : Env) (params : CommunitySearchInput) (w : World) :
  let key := cache_key_of params in
  let r := no_results_payload params in
  (forall attempt rest w0,
      total_count (aggregate_search_results (replies (attempts env attempt))) = 0%nat ->
      retry_loop env params key (attempt :: rest) w0
      = (r, set_cached_result key r
              (elapse (search_secs (attempts env attempt)) (emit EvSearch w0))))
  /\ (fst (check_rate_limit "community_search" w) = true ->
      cached_payload key (snd (check_rate_limit "community_search" w)) = None ->
      total_count (aggregate_search_results (replies (attempts env 0))) = 0%nat ->
      let out := community_search env params w in
      fst out = r
      /\ log (snd out) = log w ++ [EvSearch]
      /\ _cache (snd out) !! key = Some {| result := r; timestamp := clock (snd out) |}
      /\ (forall dt, dt < CACHE_TTL_SECONDS ->
            get_cached_result key (elapse dt (snd out)) = (Some r, elapse dt (snd out))
            /\ cached_payload key (elapse dt (snd out)) = Some r)).
Proof.
  cbv zeta.
  assert (Hloop : forall key attempt rest w0,
      total_count (aggregate_search_results (replies (attempts env attempt))) = 0%nat ->
      retry_loop env params key (attempt :: rest) w0
      = (no_results_payload params,
         set_cached_result key (no_results_payload params)
           (elapse (search_secs (attempts env attempt)) (emit EvSearch w0)))).
  { intros key attempt rest w0 H. apply retry_loop_return.
    now apply run_attempt_no_results. }
  split; [apply Hloop |].
  intros Hok Hmiss Hzero.
  rewrite (search_miss env params w Hok Hmiss).
  change (seq 0 MAX_RETRIES) with [0; 1; 2]%nat.
  rewrite (Hloop _ 0%nat _ _ Hzero). cbn [fst snd].
  pose proof (after_lookup_log params w) as Hlog.
  revert Hlog. generalize (after_lookup params w). generalize (cache_key_of params).
  intros key w2 Hlog.
  split; [reflexivity |]. split; [cbn; now rewrite Hlog |].
  split; [cbn; apply lookup_insert_eq |].
  intros dt Hdt.
  assert (Hget : get_cached_result key
            (elapse dt (set_cached_result key (no_results_payload params)
               (elapse (search_secs (attempts env 0)) (emit EvSearch w2))))
          = (Some (no_results_payload params),
             elapse dt (set_cached_result key (no_results_payload params)
               (elapse (search_secs (attempts env 0)) (emit EvSearch w2))))).
  { now apply put_get. }
  split; [exact Hget |].
  unfold cached_payload. rewrite Hget. cbn [fst].
  now rewrite no_results_payload_nonempty.
Qed.

Lemma zero_results_witness :
  fst (community_search {| getenv := openai_key; attempts := steady no_hits never_called |}
         (fastapi_query JSON) (empty_world 0))
  = no_results_payload (fastapi_query JSON)
  /\ log (snd (community_search
                 {| getenv := openai_key; attempts := steady no_hits never_called |}
                 (fastapi_query JSON) (empty_world 0)))
     = [EvSearch].
Proof.
  destruct (zero_results_short_circuit_and_cache
              {| getenv := openai_key; attempts := steady no_hits never_called |}
              (fastapi_query JSON) (empty_world 0)) as [_ H].
  destruct H as (Hr & Hlog & _); [vm_compute; reflexivity .. |].
  split; [exact Hr | exact Hlog].
Defined.

(* ---------------------------------------------------------------------- *)
(** ** Rate budget and cache *)

Section Budget.
Variables (env : Env) (params : CommunitySearchInput).
Implicit Types (w : World) (key : string).

Lemma get_cached_result_frame key w :
  _rate_limit_tracker (snd (get_cached_result key w)) = _rate_limit_tracker w
  /\ clock (snd (get_cached_result key w)) = clock w
  /\ log (snd (get_cached_result key w)) = log w.
Proof.
  unfold get_cached_result. destruct (_cache w !! key) as [e |]; [| now repeat split].
  destruct (_ <? _); now repeat split.
Qed.

Lemma get_cached_result_hit_frame key w r :
  fst (get_cached_result key w) = Some r -> snd (get_cached_result key w) = w.
Proof.
  unfold get_cached_result. destruct (_cache w !! key) as [e |]; [| discriminate].
  destruct (_ <? _); [reflexivity | discriminate].
Qed.

(** The lookup reads the cache and the clock only. *)
Lemma cached_payload_after_check key name w :
  cached_payload key (snd (check_rate_limit name w)) = cached_payload key w.
Proof.
  rewrite check_rate_limit_step. cbv zeta.
  destruct (Nat.ltb _ _); unfold cached_payload, get_cached_result;
    cbn [snd with_tracker _cache clock];
    (destruct (_cache w !! key); [destruct (_ <? _) |]); reflexivity.
Qed.

Lemma run_attempt_tracker key attempt w :
  _rate_limit_tracker (snd (run_attempt env params key attempt w))
  = _rate_limit_tracker w.
Proof.
  unfold run_attempt. destruct (Nat.eqb _ 0); [reflexivity |].
  unfold synthesize_with_llm.
  destruct (get_available_llm_provider (getenv env)) as [[p k] |];
    [destruct (llm (attempts env attempt) p) |];
    destruct (format_response _ _ _ _); reflexivity.
Qed.

Lemma retry_loop_tracker key todo : forall w,
  _rate_limit_tracker (snd (retry_loop env params key todo w)) = _rate_limit_tracker w.
Proof.
  induction todo as [| attempt rest IH]; intros w; [reflexivity |].
  cbn [retry_loop].
  pose proof (run_attempt_tracker key attempt w) as Ht.
  destruct (run_attempt env params key attempt w) as [[r | e] w']; cbn [snd] in *.
  - exact Ht.
  - destruct (Nat.eqb attempt (MAX_RETRIES - 1)); cbn [snd]; [exact Ht |].
    rewrite IH. exact Ht.
Qed.

End Budget.

(** C10.  The rate budget is spent before the cache is consulted.  With
    fewer than ten live timestamps a call is admitted and the current time
    is appended to the window, whether the answer then comes from the cache
    or from a new search; a call answered from the cache returns the stored
    payload and leaves cache and log as they were.  With ten live
    timestamps the call gets the rate-limit payload, whatever the cache
    holds for its query, and nothing but the pruning of the window
    changes. *)
Theorem rate_budget_spent_before_cache
    (env : Env) (params : CommunitySearchInput) (w : World) :
  let key := cache_key_of params in
  let kept := live (clock w) (window "community_search" w) in
  let out := community_search env params w in
  ((List.length kept < 10)%nat ->
     window "community_search" (snd out) = kept ++ [clock w])
  /\ (forall r, (List.length kept < 10)%nat -> cached_payload key w = Some r ->
        fst out = r /\ _cache (snd out) = _cache w /\ log (snd out) = log w)
  /\ ((10 <= List.length kept)%nat ->
        fst out = rate_limit_payload
        /\ window "community_search" (snd out) = kept
        /\ _cache (snd out) = _cache w /\ log (snd out) = log w).
Proof.
  cbv zeta.
  pose proof (check_rate_limit_step "community_search" w) as Hstep. cbv zeta in Hstep.
  change RATE_LIMIT_MAX_CALLS with 10%nat in Hstep.
  pose proof (cached_payload_after_check (cache_key_of params) "community_search" w) as Hsame.
  split; [| split].
  - (* admitted: the timestamp is recorded on every path *)
    intros Hlt.
    assert (Hok : fst (check_rate_limit "community_search" w) = true).
    { rewrite Hstep. now destruct (Nat.ltb_spec
        (List.length (live (clock w) (window "community_search" w))) 10); [| lia]. }
    assert (Hwin : window "community_search" (snd (check_rate_limit "community_search" w))
                   = live (clock w) (window "community_search" w) ++ [clock w]).
    { rewrite Hstep. destruct (Nat.ltb_spec
        (List.length (live (clock w) (window "community_search" w))) 10); [| lia].
      cbn [snd]. apply window_after_insert. }
    rewrite <- Hwin. unfold window. f_equal. f_equal.
    destruct (cached_payload (cache_key_of params)
                (snd (check_rate_limit "community_search" w))) as [r |] eqn:Hc.
    + rewrite (search_hit env params w r Hok Hc). cbn [snd]. unfold after_lookup.
      apply get_cached_result_frame.
    + rewrite (search_miss env params w Hok Hc). rewrite retry_loop_tracker.
      unfold after_lookup. apply get_cached_result_frame.
  - (* answered from the cache *)
    intros r Hlt Hhit. rewrite <- Hsame in Hhit.
    assert (Hok : fst (check_rate_limit "community_search" w) = true).
    { rewrite Hstep. now destruct (Nat.ltb_spec
        (List.length (live (clock w) (window "community_search" w))) 10); [| lia]. }
    rewrite (search_hit env params w r Hok Hhit). cbn [fst snd].
    split; [reflexivity |]. unfold after_lookup.
    assert (Hfst : exists c, fst (get_cached_result (cache_key_of params)
                     (snd (check_rate_limit "community_search" w))) = Some c).
    { unfold cached_payload in Hhit.
      destruct (fst (get_cached_result (cache_key_of params)
                  (snd (check_rate_limit "community_search" w)))) as [c |];
        [now exists c | discriminate]. }
    destruct Hfst as [c Hfst]. rewrite (get_cached_result_hit_frame _ _ _ Hfst).
    rewrite Hstep. now destruct (Nat.ltb _ 10).
  - (* rejected *)
    intros Hge.
    assert (Hno : fst (check_rate_limit "community_search" w) = false).
    { rewrite Hstep. now destruct (Nat.ltb_spec
        (List.length (live (clock w) (window "community_search" w))) 10); [lia |]. }
    rewrite (search_rejected env params w Hno). cbn [fst snd].
    split; [reflexivity |]. rewrite Hstep.
    destruct (Nat.ltb_spec (List.length (live (clock w) (window "community_search" w))) 10);
      [lia |].
    cbn [snd]. split; [apply window_after_insert | split; reflexivity].
Qed.

Lemma rate_budget_witness :
  cached_payload (cache_key_of (fastapi_query JSON))
    (before_eleventh quiet_env (fastapi_query JSON))
  = Some (no_results_payload (fastapi_query JSON))
  /\ fst (community_search quiet_env (fastapi_query JSON)
            (before_eleventh quiet_env (fastapi_query JSON)))
     = rate_limit_payload
  /\ fst (calls quiet_env (fastapi_query JSON) burst_times (empty_world 0))
     = repeat (no_results_payload (fastapi_query JSON)) 10 ++ [rate_limit_payload]
  /\ searches (log (snd (calls quiet_env (fastapi_query JSON) burst_times (empty_world 0))))
     = 1%nat
  /\ window "community_search"
       (snd (calls quiet_env (fastapi_query JSON) (firstn 2 burst_times) (empty_world 0)))
     = [0; 1].
Proof.
  split; [vm_compute; reflexivity |].
  split.
  - apply (rate_budget_spent_before_cache quiet_env (fastapi_query JSON)
             (before_eleventh quiet_env (fastapi_query JSON))).
    vm_compute. lia.
  - split; [vm_compute; reflexivity |].
    split; vm_compute; reflexivity.
Defined.

(* ---------------------------------------------------------------------- *)
(** ** Retry loop *)

Section Retry.
Variables (env : Env) (params : CommunitySearchInput).
Implicit Types (w : World) (key : string).

Lemma sleeps_app l l' : sleeps (l ++ l') = sleeps l ++ sleeps l'.
Proof. unfold sleeps. apply flat_map_app. Qed.

Lemma searches_app l l' : searches (l ++ l') = (searches l + searches l')%nat.
Proof. unfold searches. now rewrite List.filter_app, length_app. Qed.

(** A pass starts with the fan-out and may add one LLM call; it never
    sleeps. *)
Lemma run_attempt_log key attempt w :
  exists tail,
    log (snd (run_attempt env params key attempt w)) = log w ++ EvSearch :: tail
    /\ sleeps tail = [] /\ searches tail = 0%nat.
Proof.
  unfold run_attempt. destruct (Nat.eqb _ 0).
  - exists []. now repeat split.
  - unfold synthesize_with_llm.
    destruct (get_available_llm_provider (getenv env)) as [[p k] |].
    + exists [EvLLM p].
      destruct (llm (attempts env attempt) p);
        destruct (format_response _ _ _ _); cbn; rewrite <- app_assoc; now repeat split.
    + exists []. destruct (format_response _ _ _ _); now repeat split.
Qed.

Lemma run_attempt_counts key attempt w :
  sleeps (log (snd (run_attempt env params key attempt w))) = sleeps (log w)
  /\ searches (log (snd (run_attempt env params key attempt w))) = S (searches (log w)).
Proof.
  destruct (run_attempt_log key attempt w) as (tail & -> & Hs & Hn).
  change (EvSearch :: tail) with ([EvSearch] ++ tail). split.
  - rewrite !sleeps_app, Hs. cbn. now rewrite app_nil_r.
  - rewrite !searches_app, Hn. cbn. lia.
Qed.

Lemma sleep_counts secs w :
  sleeps (log (sleep secs w)) = sleeps (log w) ++ [secs]
  /\ searches (log (sleep secs w)) = searches (log w)
  /\ _cache (sleep secs w) = _cache w
  /\ clock (sleep secs w) = clock w + secs.
Proof.
  unfold sleep. cbn [log elapse emit _cache clock].
  rewrite sleeps_app, searches_app. cbn. repeat split; lia.
Qed.

End Retry.

(** C9, as the code has it.  In any pass whose [try] body raises, the
    exception is caught and the cache is left alone.  After pass 0 the
    orchestrator sleeps 1 s and after pass 1 it sleeps 2 s (2^attempt),
    then runs the next pass from the fan-out on; when pass 2 raises it
    returns the "Search failed after 3 attempts" payload at once.  So a
    call whose three passes all raise makes three fan-outs, sleeps exactly
    1 s and 2 s (there is no 4 s wait), returns the terminal error and
    writes nothing to the cache. *)
Theorem retry_with_exponential_backoff
    (env : Env) (params : CommunitySearchInput) (key : string) (w : World) :
  (forall attempt rest e w',
      (attempt < 2)%nat ->
      run_attempt env params key attempt w = (Raise e, w') ->
      retry_loop env params key (attempt :: rest) w
      = retry_loop env params key rest (sleep (2 ^ Z.of_nat attempt) w')
      /\ _cache (sleep (2 ^ Z.of_nat attempt) w') = _cache w
      /\ sleeps (log (sleep (2 ^ Z.of_nat attempt) w'))
         = sleeps (log w) ++ [2 ^ Z.of_nat attempt])
  /\ (forall rest e w',
      run_attempt env params key 2 w = (Raise e, w') ->
      retry_loop env params key (2%nat :: rest) w = (failed_payload e, w')
      /\ _cache w' = _cache w
      /\ sleeps (log w') = sleeps (log w))
  /\ (forall e0 w0 e1 w1 e2 w2,
      run_attempt env params key 0 w = (Raise e0, w0) ->
      run_attempt env params key 1 (sleep 1 w0) = (Raise e1, w1) ->
      run_attempt env params key 2 (sleep 2 w1) = (Raise e2, w2) ->
      retry_loop env params key (seq 0 MAX_RETRIES) w = (failed_payload e2, w2)
      /\ _cache w2 = _cache w
      /\ sleeps (log w2) = sleeps (log w) ++ [1; 2]
      /\ searches (log w2) = (searches (log w) + 3)%nat).
Proof.
  assert (Hpass : forall attempt w1 e w',
             run_attempt env params key attempt w1 = (Raise e, w') ->
             _cache w' = _cache w1
             /\ sleeps (log w') = sleeps (log w1)
             /\ searches (log w') = S (searches (log w1))).
  { intros attempt w1 e w' H.
    destruct (run_attempt_raise_cache env params key attempt w1 e w' H) as [Hc _].
    pose proof (run_attempt_counts env params key attempt w1) as Hn.
    rewrite H in Hn. cbn [snd] in Hn. tauto. }
  split; [| split].
  - intros attempt rest e w' Hlt H.
    destruct (Hpass _ _ _ _ H) as (Hc & Hs & _).
    destruct (sleep_counts (2 ^ Z.of_nat attempt) w') as (Hs' & _ & Hc' & _).
    split; [exact (retry_loop_raise_again env params key attempt rest w e w' Hlt H) |].
    split; congruence.
  - intros rest e w' H.
    destruct (Hpass _ _ _ _ H) as (Hc & Hs & _).
    split; [exact (retry_loop_raise_last env params key rest w e w' H) |]. now split.
  - intros e0 w0 e1 w1 e2 w2 H0 H1 H2.
    change (seq 0 MAX_RETRIES) with [0; 1; 2]%nat.
    rewrite (retry_loop_raise_again env params key 0 _ w e0 w0) by (lia || exact H0).
    change (2 ^ Z.of_nat 0) with 1.
    rewrite (retry_loop_raise_again env params key 1 _ _ e1 w1) by (lia || exact H1).
    change (2 ^ Z.of_nat 1) with 2.
    rewrite (retry_loop_raise_last env params key _ _ e2 w2 H2).
    destruct (Hpass _ _ _ _ H0) as (Hc0 & Hs0 & Hn0).
    destruct (Hpass _ _ _ _ H1) as (Hc1 & Hs1 & Hn1).
    destruct (Hpass _ _ _ _ H2) as (Hc2 & Hs2 & Hn2).
    destruct (sleep_counts 1 w0) as (Hs0' & Hn0' & Hc0' & _).
    destruct (sleep_counts 2 w1) as (Hs1' & Hn1' & Hc1' & _).
    split; [reflexivity |]. split; [congruence |]. split.
    + rewrite Hs2, Hs1', Hs1, Hs0', Hs0, <- app_assoc. reflexivity.
    + lia.
Qed.

Lemma retry_witness :
  fst (community_search array_reply_env (fastapi_query MARKDOWN) (empty_world 0))
  = failed_payload (Exn AttributeError "'list' object has no attribute 'get'")
  /\ _cache (snd (retry_loop array_reply_env (fastapi_query MARKDOWN)
                    (cache_key_of (fastapi_query MARKDOWN)) (seq 0 MAX_RETRIES)
                    (empty_world 0)))
     = ∅.
Proof.
  destruct (retry_with_exponential_backoff array_reply_env (fastapi_query MARKDOWN)
              (cache_key_of (fastapi_query MARKDOWN)) (empty_world 0))
    as (_ & _ & Hall).
  edestruct Hall as (Hr & Hc & _); [vm_compute; reflexivity .. |].
  split; [vm_compute; reflexivity |].
  rewrite Hr. cbn [snd]. exact Hc.
Defined.

(** C9, as the specification words it (waits of 1 s, 2 s and 4 s), fails:
    when all three passes raise, the sleeps are 1 s and 2 s and nothing
    else; the third failure is answered at once. *)
Lemma no_four_second_wait :
  sleeps (log (snd (community_search array_reply_env (fastapi_query MARKDOWN)
                      (empty_world 0))))
  = [1; 2]
  /\ existsb (Z.eqb 4)
       (sleeps (log (snd (community_search array_reply_env (fastapi_query MARKDOWN)
                            (empty_world 0))))) = false
  /\ searches (log (snd (community_search array_reply_env (fastapi_query MARKDOWN)
                           (empty_world 0)))) = 3%nat
  /\ clock (snd (community_search array_reply_env (fastapi_query MARKDOWN)
                   (empty_world 0))) = (2 + 5) + 1 + (2 + 5) + 2 + (2 + 5).
Proof. vm_compute. repeat split. Qed.

(* ---------------------------------------------------------------------- *)
(** ** Synthesis failures *)

Section SynthesisFailure.

(** An error dictionary always renders, in both formats, whatever its
    size. *)
Lemma format_response_error_dict params msg sr total :
  exists r, format_response params (error_dict msg) sr total = Return r.
Proof.
  unfold format_response. destruct (response_format params).
  - unfold render_markdown, error_dict.
    cbn [py_in dict_lookup String.eqb Ascii.eqb Bool.eqb bind py_getitem py_get
         truthy from_option id app py_join py_join_from].
    destruct (_ >? _); eexists; reflexivity.
  - unfold json_response, response_items, error_dict.
    cbn [dict_lookup String.eqb Ascii.eqb Bool.eqb bind py_get from_option id].
    destruct (_ >? _); [| eexists; reflexivity].
    unfold truncate_json.
    cbn [dict_lookup String.eqb Ascii.eqb Bool.eqb bind py_getitem py_get
         from_option id py_len py_slice].
    eexists; reflexivity.
Qed.

End SynthesisFailure.

(** C2, as the code has it.  In any pass that found results, with a
    provider configured, an exception raised by the provider call (a reply
    that [json.loads] rejects, like any other) is caught inside
    [synthesize_with_llm] and becomes the synthesis result
    [{'error': 'LLM synthesis failed: ...', 'findings': []}].  That pass
    renders it, stores it in the cache and returns it: the loop ends there,
    with one fan-out, one LLM call, no sleep and no further pass. *)
Theorem unparseable_reply_is_returned_not_retried
    (env : Env) (params : CommunitySearchInput) (key : string)
    (attempt : nat) (rest : list nat) (w : World)
    (p : provider) (api_key : string) (e : exn) :
  total_count (aggregate_search_results (replies (attempts env attempt))) <> 0%nat ->
  get_available_llm_provider (getenv env) = Some (p, api_key) ->
  llm (attempts env attempt) p = Raise e ->
  let x := attempts env attempt in
  let synthesis := error_dict ("LLM synthesis failed: " +:+ exn_msg e) in
  let w1 := elapse (search_secs x) (emit EvSearch w) in
  let w2 := elapse (llm_secs x) (emit (EvLLM p) w1) in
  synthesize_with_llm env x w1 = (synthesis, w2)
  /\ exists r,
       format_response params synthesis (aggregate_search_results (replies x))
         (total_count (aggregate_search_results (replies x))) = Return r
       /\ retry_loop env params key (attempt :: rest) w = (r, set_cached_result key r w2)
       /\ log (set_cached_result key r w2) = log w ++ [EvSearch; EvLLM p]
       /\ _cache (set_cached_result key r w2) !! key
          = Some {| result := r; timestamp := clock w2 |}.
Proof.
  intros Hfound Hprov Hllm. cbv zeta.
  assert (Hsyn : synthesize_with_llm env (attempts env attempt)
                   (elapse (search_secs (attempts env attempt)) (emit EvSearch w))
                 = (error_dict ("LLM synthesis failed: " +:+ exn_msg e),
                    elapse (llm_secs (attempts env attempt))
                      (emit (EvLLM p)
                         (elapse (search_secs (attempts env attempt)) (emit EvSearch w))))).
  { unfold synthesize_with_llm. now rewrite Hprov, Hllm. }
  split; [exact Hsyn |].
  destruct (format_response_error_dict params ("LLM synthesis failed: " +:+ exn_msg e)
              (aggregate_search_results (replies (attempts env attempt)))
              (total_count (aggregate_search_results (replies (attempts env attempt)))))
    as [r Hr].
  exists r. split; [exact Hr |]. split.
  - apply retry_loop_return. unfold run_attempt.
    destruct (Nat.eqb_spec
                (total_count (aggregate_search_results (replies (attempts env attempt)))) 0)
      as [E | _]; [contradiction |].
    now rewrite Hsyn, Hr.
  - split; [cbn; now rewrite <- app_assoc | cbn; apply lookup_insert_eq].
Qed.

Lemma unparseable_reply_witness :
  exists r,
    retry_loop prose_reply_env (fastapi_query JSON) (cache_key_of (fastapi_query JSON))
      [0; 1; 2]%nat (empty_world 0)
    = (r, set_cached_result (cache_key_of (fastapi_query JSON)) r
            (elapse 5 (emit (EvLLM openai) (elapse 2 (emit EvSearch (empty_world 0)))))).
Proof.
  destruct (unparseable_reply_is_returned_not_retried prose_reply_env (fastapi_query JSON)
              (cache_key_of (fastapi_query JSON)) 0 [1; 2]%nat (empty_world 0)
              openai "sk-test" not_json)
    as (_ & r & _ & Hloop & _);
    [vm_compute; discriminate | reflexivity | reflexivity |].
  exists r. exact Hloop.
Defined.

(** C2, as the specification words it, fails: the provider's reply does
    not parse in the first pass, two more passes are available, and yet
    the call makes one fan-out, never sleeps, and returns (and caches) the
    payload that carries the error. *)
Lemma malformed_reply_ends_the_call :
  llm (attempts prose_reply_env 0) openai = Raise not_json
  /\ searches (log (snd (community_search prose_reply_env (fastapi_query JSON)
                           (empty_world 0)))) = 1%nat
  /\ sleeps (log (snd (community_search prose_reply_env (fastapi_query JSON)
                         (empty_world 0)))) = []
  /\ contains "LLM synthesis failed: Expecting value"
       (fst (community_search prose_reply_env (fastapi_query JSON) (empty_world 0)))
     = true
  /\ cached_payload (cache_key_of (fastapi_query JSON))
       (snd (community_search prose_reply_env (fastapi_query JSON) (empty_world 0)))
     = Some (fst (community_search prose_reply_env (fastapi_query JSON) (empty_world 0))).
Proof. vm_compute. repeat split. Qed.

(* ---------------------------------------------------------------------- *)
(** ** Character limit *)

Section CharacterLimit.

Lemma length_append (s t : string) :
  String.length (s +:+ t) = (String.length s + String.length t)%nat.
Proof. induction s as [| c s IH]; simpl; [reflexivity | now rewrite IH]. Qed.

Lemma length_take (n : nat) : forall s : string,
  String.length (take n s) = Nat.min n (String.length s).
Proof.
  induction n as [| n IH]; intros [| c s]; simpl; try reflexivity.
  now rewrite IH.
Qed.

Lemma len_truncate_markdown (r0 : string) :
  CHARACTER_LIMIT < len r0 ->
  len (truncate_markdown r0) = CHARACTER_LIMIT + len truncation_notice.
Proof.
  unfold truncate_markdown, len. intros Hlong.
  rewrite length_append, length_take. unfold CHARACTER_LIMIT in *. lia.
Qed.

Lemma truncate_json_list params fs err sr total :
  truncate_json (JDict (response_items params (JList fs) err sr total))
  = Return (json_dumps_indent2 (JDict
      (response_items params
         (JList (firstn (Nat.max 1 (List.length fs / 2)) fs)) err sr total
       ++ [ ("truncated", JBool true);
            ("truncation_message",
             JStr (truncation_message (List.length fs)
                     (List.length (firstn (Nat.max 1 (List.length fs / 2)) fs)))) ]))).
Proof. reflexivity. Qed.

End CharacterLimit.

Lemma format_response_size_checked params synthesis sr total r :
  format_response params synthesis sr total = Return r ->
  size_checked params synthesis sr total r.
Proof.
  unfold format_response, size_checked. destruct (response_format params).
  - destruct (render_markdown params synthesis sr) as [r0 | e]; cbn [bind];
      [| discriminate].
    intros H. exists r0. split; [reflexivity |].
    destruct (Z.gtb_spec (len r0) CHARACTER_LIMIT) as [Hlong | Hshort];
      injection H as <-.
    + split; [lia |]. intros _. split; [reflexivity |].
      now rewrite len_truncate_markdown.
    + split; [reflexivity | lia].
  - unfold json_response.
    destruct (py_get synthesis "findings" (JList [])) as [findings | e]; cbn [bind];
      [| discriminate].
    destruct (py_get synthesis "error" JNull) as [err | e]; cbn [bind];
      [| discriminate].
    intros H. exists findings, err. split; [reflexivity |]. split; [reflexivity |].
    cbv zeta.
    destruct (Z.gtb_spec
                (len (json_dumps_indent2
                        (JDict (response_items params findings err sr total))))
                CHARACTER_LIMIT) as [Hlong | Hshort].
    + split; [lia |]. intros _ fs ->.
      rewrite truncate_json_list in H. now injection H as <-.
    + split; [intros _; now injection H as <- | lia].
Qed.

(** C3, as the code has it.  A pass of the loop that returns a payload
    found either no results (and returns the "no results" payload
    unchecked) or rendered the synthesis and checked the rendering against
    the 25,000-character limit once.  In markdown mode a longer string is
    cut to its first 25,000 characters and the fixed notice is appended, so
    what is returned has 25,000 characters plus the 73 of the notice.  In
    JSON mode a response whose serialisation is longer gets its list of [n]
    findings cut to the first [max 1 (n / 2)], [truncated] set to true and
    a [truncation_message] that states [n] and the number kept, and is
    serialised again; its length is not checked a second time.  A payload
    within the limit is returned as rendered. *)
Theorem character_limit_applied_once
    (env : Env) (params : CommunitySearchInput) (key : string)
    (attempt : nat) (w w' : World) (r : string) :
  run_attempt env params key attempt w = (Return r, w') ->
  let x := attempts env attempt in
  let sr := aggregate_search_results (replies x) in
  let synthesis :=
    fst (synthesize_with_llm env x (elapse (search_secs x) (emit EvSearch w))) in
  (total_count sr = 0%nat /\ r = no_results_payload params)
  \/ (total_count sr <> 0%nat
      /\ format_response params synthesis sr (total_count sr) = Return r
      /\ size_checked params synthesis sr (total_count sr) r).
Proof.
  cbv zeta. unfold run_attempt.
  destruct (Nat.eqb_spec
              (total_count (aggregate_search_results (replies (attempts env attempt)))) 0)
    as [Hzero | Hfound].
  - intros [= <- _]. left. now split.
  - destruct (synthesize_with_llm env (attempts env attempt) _) as [synthesis w2].
    cbn [fst].
    destruct (format_response params synthesis _ _) as [r1 | e] eqn:Hfmt;
      intros H; [| discriminate H].
    injection H as -> _. right. split; [exact Hfound |]. split; [reflexivity |].
    now apply format_response_size_checked.
Qed.

Lemma character_limit_witness :
  match run_attempt verbose_env (fastapi_query MARKDOWN)
          (cache_key_of (fastapi_query MARKDOWN)) 0 (empty_world 0) with
  | (Return r, _) => len r = CHARACTER_LIMIT + 73
  | (Raise _, _) => False
  end.
Proof.
  destruct (run_attempt verbose_env (fastapi_query MARKDOWN)
              (cache_key_of (fastapi_query MARKDOWN)) 0 (empty_world 0))
    as [[r | e] w'] eqn:H.
  - destruct (character_limit_applied_once _ _ _ _ _ _ _ H)
      as [[Hzero _] | (_ & _ & r0 & Hr0 & _ & Hlong)].
    + revert Hzero. vm_compute. discriminate.
    + apply Hlong.
      assert (Hlen : match render_markdown (fastapi_query MARKDOWN)
                             (JDict [("findings", JList [verbose_finding])])
                             (aggregate_search_results one_of_four) with
                     | Return s => CHARACTER_LIMIT <? len s
                     | Raise _ => false
                     end = true) by (vm_compute; reflexivity).
      change (render_markdown (fastapi_query MARKDOWN)
                (JDict [("findings", JList [verbose_finding])])
                (aggregate_search_results one_of_four) = Return r0) in Hr0.
      rewrite Hr0 in Hlen. now apply Z.ltb_lt.
  - assert (Hok : raises (fst (run_attempt verbose_env (fastapi_query MARKDOWN)
                                 (cache_key_of (fastapi_query MARKDOWN)) 0
                                 (empty_world 0))) = false)
      by (vm_compute; reflexivity).
    rewrite H in Hok. discriminate Hok.
Defined.

(** C3, as the specification words it, fails in both formats: with one
    finding of some 30,000 characters the markdown payload that
    [community_search] returns has 25,073 characters, and the JSON payload,
    whose single finding survives the halving, has 30,633. *)
Lemma payload_exceeds_character_limit :
  len (fst (community_search verbose_env (fastapi_query MARKDOWN) (empty_world 0)))
  = 25073
  /\ len (fst (community_search verbose_env (fastapi_query JSON) (empty_world 0)))
     = 30633
  /\ contains "Response truncated from 1 to 1 findings due to size limits."
       (fst (community_search verbose_env (fastapi_query JSON) (empty_world 0)))
     = true.
Proof. vm_compute. repeat split. Qed.

(** Eight findings that do not fit are cut to four, and the message says so. *)
Example truncation_eight_to_four :
  contains "Response truncated from 8 to 4 findings due to size limits."
    (fst (community_search eight_findings_env (fastapi_query JSON) (empty_world 0)))
  = true
  /\ (len (fst (community_search eight_findings_env (fastapi_query JSON) (empty_world 0)))
       <=? CHARACTER_LIMIT) = true.
Proof. vm_compute. split; reflexivity. Qed.

(** Without an API key the call still answers, with the configuration
    error in the payload, and caches that answer. *)
Example unconfigured_provider_is_cached :
  contains "No LLM API key configured"
    (fst (community_search unconfigured_env (fastapi_query JSON) (empty_world 0))) = true
  /\ log (snd (community_search unconfigured_env (fastapi_query JSON) (empty_world 0)))
     = [EvSearch]
  /\ cached_payload (cache_key_of (fastapi_query JSON))
       (snd (community_search unconfigured_env (fastapi_query JSON) (empty_world 0)))
     = Some (fst (community_search unconfigured_env (fastapi_query JSON) (empty_world 0))).
Proof. vm_compute. repeat split. Qed.

(* ---------------------------------------------------------------------- *)
(** ** Cache key *)

(** C1.  The key is computed from language, topic, goal and current setup
    only: two queries that differ in nothing but the response format get
    the same key.  A JSON request made one minute after a markdown request
    for the same query is therefore answered from the cache with the
    markdown text, without a search, where the same request on an empty
    cache returns a JSON document. *)
Theorem cache_key_ignores_response_format :
  (forall (lang top : string) (g setup : option string) (fmt fmt' : ResponseFormat),
      cache_key_of {| language := lang; topic := top; goal := g;
                      current_setup := setup; response_format := fmt |}
      = cache_key_of {| language := lang; topic := top; goal := g;
                        current_setup := setup; response_format := fmt' |})
  /\ cache_key_of (fastapi_query MARKDOWN) = "ee6b377f905cc1d913cfdfe7f462fba7"
  /\ cache_key_of (fastapi_query JSON) = "ee6b377f905cc1d913cfdfe7f462fba7"
  /\ fst json_second = fst markdown_first
  /\ startswith "# Community Research: FastAPI" (fst json_second) = true
  /\ searches (log (snd json_second)) = searches (log (snd markdown_first))
  /\ startswith "{" (fst json_alone) = true
  /\ String.eqb (fst json_second) (fst json_alone) = false.
Proof.
  split; [reflexivity |]. vm_compute. repeat split.
Qed.

(* ====================================================================== *)
(** * Further properties of the code *)
(* ====================================================================== *)

(* ---------------------------------------------------------------------- *)
(** ** Provider selection *)

Section ProviderSelection.

Lemma strip_empty_of_empty : strip "" = "".
Proof. reflexivity. Qed.

Lemma usable_key_spec key k :
  usable_key key = Some k <-> key = Some k /\ strip k <> "".
Proof.
  unfold usable_key. destruct key as [k0 |]; [| split; [discriminate | intros [H _]; discriminate H]].
  destruct (String.eqb_spec k0 "") as [-> | Hne]; cbn [negb andb].
  - split; [discriminate | intros [[= <-] H]; now contradiction H].
  - destruct (String.eqb_spec (strip k0) "") as [E | Hs]; cbn [negb].
    + split; [discriminate | intros [[= <-] H]; contradiction].
    + split; [intros [= <-]; now split | intros [[= <-] _]; reflexivity].
Qed.

End ProviderSelection.

(** X1.  [get_available_llm_provider] returns the first provider, in the
    order Gemini, OpenAI, Anthropic, OpenRouter, Perplexity, whose
    environment variable is set to something other than blanks, together
    with the key as it is stored (not stripped); it returns nothing exactly
    when no variable holds a usable key. *)
Theorem provider_priority (getenv : string -> option string) :
  (forall p k,
      get_available_llm_provider getenv = Some (p, k)
      <-> (getenv (env_var p) = Some k /\ strip k <> ""
           /\ forall q, (rank q < rank p)%nat ->
                        usable_key (getenv (env_var q)) = None))
  /\ (get_available_llm_provider getenv = None
      <-> forall q, usable_key (getenv (env_var q)) = None).
Proof.
  unfold get_available_llm_provider.
  change (getenv "GEMINI_API_KEY") with (getenv (env_var gemini)).
  change (getenv "OPENAI_API_KEY") with (getenv (env_var openai)).
  change (getenv "ANTHROPIC_API_KEY") with (getenv (env_var anthropic)).
  change (getenv "OPENROUTER_API_KEY") with (getenv (env_var openrouter)).
  change (getenv "PERPLEXITY_API_KEY") with (getenv (env_var perplexity)).
  split.
  - intros p k.
    match goal with |- ?L <-> _ =>
      enough (Hmain : L <-> (usable_key (getenv (env_var p)) = Some k
                             /\ forall q, (rank q < rank p)%nat ->
                                          usable_key (getenv (env_var q)) = None))
        by (rewrite Hmain, usable_key_spec; tauto)
    end.
    destruct (usable_key (getenv (env_var gemini))) as [k0 |] eqn:E0;
      [| destruct (usable_key (getenv (env_var openai))) as [k1 |] eqn:E1;
         [| destruct (usable_key (getenv (env_var anthropic))) as [k2 |] eqn:E2;
            [| destruct (usable_key (getenv (env_var openrouter))) as [k3 |] eqn:E3;
               [| destruct (usable_key (getenv (env_var perplexity))) as [k4 |] eqn:E4]]]].
    all: split;
      [ intros Heq;
        first [ discriminate Heq
              | injection Heq as <- <-;
                (split; [assumption |]);
                intros q Hq; destruct q; cbn in Hq; (assumption || lia) ]
      | intros [Hk Hhigher];
        pose proof (Hhigher gemini) as H0; pose proof (Hhigher openai) as H1;
        pose proof (Hhigher anthropic) as H2; pose proof (Hhigher openrouter) as H3;
        destruct p; cbn [rank] in H0, H1, H2, H3;
        try (specialize (H0 ltac:(lia))); try (specialize (H1 ltac:(lia)));
        try (specialize (H2 ltac:(lia))); try (specialize (H3 ltac:(lia)));
        congruence ].
  - destruct (usable_key (getenv (env_var gemini))) as [k0 |] eqn:E0;
      [| destruct (usable_key (getenv (env_var openai))) as [k1 |] eqn:E1;
         [| destruct (usable_key (getenv (env_var anthropic))) as [k2 |] eqn:E2;
            [| destruct (usable_key (getenv (env_var openrouter))) as [k3 |] eqn:E3;
               [| destruct (usable_key (getenv (env_var perplexity))) as [k4 |] eqn:E4]]]].
    all: split; try discriminate; try reflexivity.
    + intros H. specialize (H gemini). congruence.
    + intros H. specialize (H openai). congruence.
    + intros H. specialize (H anthropic). congruence.
    + intros H. specialize (H openrouter). congruence.
    + intros H. specialize (H perplexity). congruence.
    + intros _ q. now destruct q.
Qed.

(** A variable that holds only blanks is passed over, and the key that is
    returned keeps its surrounding spaces. *)
Example provider_blank_key_skipped :
  get_available_llm_provider blank_gemini_env = Some (perplexity, " pplx-1 ").
Proof. reflexivity. Qed.

(* ---------------------------------------------------------------------- *)
(** ** Cache: replacement and independence of keys *)

(** X2.  A cache write replaces: storing [p2] under a key that already
    holds [p1] leaves the cache exactly as if [p1] had never been stored,
    and the entry's age restarts at the second write, so [p2] is read back
    for the next hour however old the first entry was. *)
Theorem cache_write_replaces
    (key p1 p2 : string) (w : World) (dt1 dt2 : Z) :
  let w1 := elapse dt1 (set_cached_result key p1 w) in
  let w2 := elapse dt2 (set_cached_result key p2 w1) in
  _cache (set_cached_result key p2 w1) = _cache (set_cached_result key p2 (elapse dt1 w))
  /\ (dt2 < CACHE_TTL_SECONDS -> get_cached_result key w2 = (Some p2, w2)).
Proof.
  cbv zeta. split.
  - cbn. apply insert_insert_eq.
  - intros Hdt. now apply put_get.
Qed.

Lemma cache_write_replaces_witness :
  get_cached_result "k"
    (elapse 10 (set_cached_result "k" "new"
                  (elapse 5000 (set_cached_result "k" "old" (empty_world 0)))))
  = (Some "new",
     elapse 10 (set_cached_result "k" "new"
                  (elapse 5000 (set_cached_result "k" "old" (empty_world 0))))).
Proof.
  apply (cache_write_replaces "k" "old" "new" (empty_world 0) 5000 10).
  reflexivity.
Defined.

(** A read looks at the entry under its key and at the clock, nothing else. *)
Lemma get_cached_result_ext (key : string) (w w' : World) :
  _cache w' !! key = _cache w !! key -> clock w' = clock w ->
  fst (get_cached_result key w') = fst (get_cached_result key w).
Proof.
  intros Hk Hc. unfold get_cached_result. rewrite Hk, Hc.
  destruct (_cache w !! key) as [e |]; [| reflexivity].
  now destruct (_ <? _).
Qed.

(** X3.  Cache operations on one key never change what another key reads:
    after a write to [key], and after a read of [key] (also one that evicts
    an expired entry), every other key holds the entry it held before and a
    read of it gives the same answer. *)
Theorem cache_keys_are_independent (key other p : string) (w : World) :
  key <> other ->
  _cache (set_cached_result key p w) !! other = _cache w !! other
  /\ _cache (snd (get_cached_result key w)) !! other = _cache w !! other
  /\ fst (get_cached_result other (set_cached_result key p w))
     = fst (get_cached_result other w)
  /\ fst (get_cached_result other (snd (get_cached_result key w)))
     = fst (get_cached_result other w).
Proof.
  intros Hne.
  assert (Hset : _cache (set_cached_result key p w) !! other = _cache w !! other)
    by (cbn; now apply lookup_insert_ne).
  assert (Hget : _cache (snd (get_cached_result key w)) !! other = _cache w !! other).
  { unfold get_cached_result. destruct (_cache w !! key) as [e |]; [| reflexivity].
    destruct (_ <? _); [reflexivity |]. cbn. now apply lookup_delete_ne. }
  assert (Hclock : clock (snd (get_cached_result key w)) = clock w)
    by apply get_cached_result_frame.
  repeat split; try assumption.
  - now apply get_cached_result_ext.
  - now apply get_cached_result_ext.
Qed.

Lemma cache_keys_witness :
  fst (get_cached_result "b"
         (snd (get_cached_result "a"
                 (elapse 4000 (set_cached_result "b" "kept"
                                 (elapse 3000 (set_cached_result "a" "stale"
                                                 (empty_world 0))))))))
  = fst (get_cached_result "b"
           (elapse 4000 (set_cached_result "b" "kept"
                           (elapse 3000 (set_cached_result "a" "stale"
                                           (empty_world 0)))))).
Proof.
  apply (cache_keys_are_independent "a" "b" ""
           (elapse 4000 (set_cached_result "b" "kept"
                           (elapse 3000 (set_cached_result "a" "stale"
                                           (empty_world 0)))))).
  discriminate.
Defined.

(* ---------------------------------------------------------------------- *)
(** ** Rate limiter: a rejected call leaves no trace *)

(** X4.  A rejected admission check records nothing that matters later:
    for any later clock reading, the next check of the same operation
    answers the same, and leaves the same window, as it would have if the
    rejected call had never been made. *)
Theorem rejected_check_leaves_no_trace (name : string) (w : World) (t : Z) :
  fst (check_rate_limit name w) = false ->
  clock w <= t ->
  fst (check_rate_limit name (at_time t (snd (check_rate_limit name w))))
  = fst (check_rate_limit name (at_time t w))
  /\ window name (snd (check_rate_limit name (at_time t (snd (check_rate_limit name w)))))
     = window name (snd (check_rate_limit name (at_time t w))).
Proof.
  intros Hrej Hle.
  assert (Hwin : window name (snd (check_rate_limit name w))
                 = live (clock w) (window name w)).
  { revert Hrej. rewrite check_rate_limit_step. cbv zeta.
    destruct (Nat.ltb _ _); [discriminate |]. intros _. cbn [snd].
    apply window_after_insert. }
  revert Hwin. generalize (snd (check_rate_limit name w)). intros w1 Hwin.
  rewrite !check_rate_limit_step. cbv zeta.
  change (clock (at_time t w1)) with t. change (clock (at_time t w)) with t.
  rewrite !window_at_time, Hwin, (live_live (clock w) t _ Hle).
  destruct (Nat.ltb _ _); cbn [fst snd]; split; try reflexivity;
    now rewrite !window_after_insert.
Qed.

Lemma rejected_check_witness :
  fst (check_rate_limit "community_search"
         (at_time 65 (snd (check_rate_limit "community_search"
                             (before_eleventh quiet_env (fastapi_query JSON))))))
  = fst (check_rate_limit "community_search"
           (at_time 65 (before_eleventh quiet_env (fastapi_query JSON)))).
Proof.
  apply (rejected_check_leaves_no_trace "community_search"
           (before_eleventh quiet_env (fastapi_query JSON)) 65).
  - vm_compute. reflexivity.
  - vm_compute. discriminate.
Defined.

(* ---------------------------------------------------------------------- *)
(** ** Cache key: a fixed-width hexadecimal string *)

Section KeyFormat.
Local Open Scope N_scope.

Lemma hex_digit_is_hex (n : N) : n < 16 -> is_hex_char (hex_digit n) = true.
Proof.
  intros Hn.
  destruct n as [| p]; [reflexivity |].
  do 4 (destruct p as [p | p |]; try reflexivity); exfalso; lia.
Qed.

Lemma le_bytes_length k n : List.length (MD5.le_bytes k n) = k.
Proof. revert n. induction k as [| k IH]; intros n; simpl; [reflexivity | now rewrite IH]. Qed.

Lemma le_bytes_small k : forall n, Forall (fun b => b < 256) (MD5.le_bytes k n).
Proof.
  induction k as [| k IH]; intros n; simpl; constructor; [| apply IH].
  apply N.mod_lt. discriminate.
Qed.

Lemma digest_shape msg :
  List.length (MD5.digest msg) = 16%nat /\ Forall (fun b => b < 256) (MD5.digest msg).
Proof.
  unfold MD5.digest. destruct (MD5.blocks _ _ _) as [a b c d]. split.
  - rewrite !length_app, !le_bytes_length. reflexivity.
  - rewrite !Forall_app. repeat split; apply le_bytes_small.
Qed.

Lemma hex_bytes_shape l :
  Forall (fun b => b < 256) l ->
  let s := fold_right (fun b acc => MD5.hex_byte b +:+ acc) EmptyString l in
  String.length s = (2 * List.length l)%nat /\ all_chars is_hex_char s = true.
Proof.
  cbv zeta. induction 1 as [| b l Hb _ [IHlen IHhex]]; [now split |].
  cbn [fold_right List.length].
  set (rest := fold_right (fun b acc => MD5.hex_byte b +:+ acc) EmptyString l) in *.
  change (MD5.hex_byte b +:+ rest)
    with (String (hex_digit (b / 16)) (String (hex_digit (b mod 16)) rest)).
  cbn [String.length all_chars].
  rewrite IHlen, IHhex, !hex_digit_is_hex.
  - split; [lia | reflexivity].
  - apply N.mod_lt. discriminate.
  - apply N.Div0.div_lt_upper_bound. exact Hb.
Qed.

End KeyFormat.

(** X5.  Whatever the tool name and the parameters, [get_cache_key] returns
    a string of exactly 32 characters, each a digit or one of a-f. *)
Theorem cache_key_is_32_hex_digits (tool_name : string) (params : list (string * json)) :
  String.length (get_cache_key tool_name params) = 32%nat
  /\ all_chars is_hex_char (get_cache_key tool_name params) = true.
Proof.
  unfold get_cache_key, md5_hex, MD5.hexdigest.
  destruct (digest_shape (encode (tool_name +:+ ":" +:+ json_dumps_sorted (JDict params))))
    as [Hlen Hsmall].
  destruct (hex_bytes_shape _ Hsmall) as [Hl Hh]. rewrite Hl, Hlen. now split.
Qed.

(* ---------------------------------------------------------------------- *)
(** ** Retry loop: what a call can cost and how it can end *)

(** X6.  The retry loop of one call makes one, two or three fan-outs and
    sleeps accordingly nothing, 1 s, or 1 s and 2 s (at most 3 s in all).
    It ends either with the payload that its last pass returned or, after a
    third failing pass, with the "Search failed after 3 attempts" payload of
    that pass's exception; the fall-through "Unexpected error" return after
    the loop is never reached. *)
Theorem retry_loop_is_bounded
    (env : Env) (params : CommunitySearchInput) (key : string) (w : World) :
  let out := retry_loop env params key (seq 0 MAX_RETRIES) w in
  exists n,
    (1 <= n <= 3)%nat
    /\ searches (log (snd out)) = (searches (log w) + n)%nat
    /\ sleeps (log (snd out)) = sleeps (log w) ++ firstn (n - 1) [1; 2]
    /\ ((exists w0, run_attempt env params key (n - 1) w0 = (Return (fst out), snd out))
        \/ (n = 3%nat
            /\ exists w0 e, run_attempt env params key 2 w0 = (Raise e, snd out)
                            /\ fst out = failed_payload e)).
Proof.
  cbv zeta. change (seq 0 MAX_RETRIES) with [0; 1; 2]%nat.
  assert (Hcount : forall attempt w0,
             sleeps (log (snd (run_attempt env params key attempt w0))) = sleeps (log w0)
             /\ searches (log (snd (run_attempt env params key attempt w0)))
                = S (searches (log w0)))
    by (intros; apply run_attempt_counts).
  pose proof (Hcount 0%nat w) as [Hs0 Hn0].
  destruct (run_attempt env params key 0 w) as [[r0 | e0] w0] eqn:H0; cbn [snd] in *.
  { exists 1%nat. rewrite (retry_loop_return env params key 0 _ w r0 w0 H0). cbn [fst snd].
    split; [lia |]. split; [lia |]. split; [cbn; now rewrite app_nil_r |].
    left. now exists w. }
  rewrite (retry_loop_raise_again env params key 0 _ w e0 w0) by (lia || exact H0).
  change (2 ^ Z.of_nat 0) with 1.
  destruct (sleep_counts 1 w0) as (Hs0' & Hn0' & _).
  pose proof (Hcount 1%nat (sleep 1 w0)) as [Hs1 Hn1].
  destruct (run_attempt env params key 1 (sleep 1 w0)) as [[r1 | e1] w1] eqn:H1;
    cbn [snd] in *.
  { exists 2%nat. rewrite (retry_loop_return env params key 1 _ _ r1 w1 H1). cbn [fst snd].
    split; [lia |]. split; [lia |]. split; [cbn; congruence |].
    left. now exists (sleep 1 w0). }
  rewrite (retry_loop_raise_again env params key 1 _ _ e1 w1) by (lia || exact H1).
  change (2 ^ Z.of_nat 1) with 2.
  destruct (sleep_counts 2 w1) as (Hs1' & Hn1' & _).
  pose proof (Hcount 2%nat (sleep 2 w1)) as [Hs2 Hn2].
  assert (Hsl : sleeps (log (sleep 2 w1)) = sleeps (log w) ++ [1; 2]).
  { rewrite Hs1', Hs1, Hs0', Hs0, <- app_assoc. reflexivity. }
  destruct (run_attempt env params key 2 (sleep 2 w1)) as [[r2 | e2] w2] eqn:H2;
    cbn [snd] in *; exists 3%nat.
  - rewrite (retry_loop_return env params key 2 _ _ r2 w2 H2). cbn [fst snd].
    split; [lia |]. split; [lia |]. split; [cbn; congruence |].
    left. now exists (sleep 2 w1).
  - rewrite (retry_loop_raise_last env params key _ _ e2 w2 H2). cbn [fst snd].
    split; [lia |]. split; [lia |]. split; [cbn; congruence |].
    right. split; [reflexivity |]. now exists (sleep 2 w1), e2.
Qed.

(* ---------------------------------------------------------------------- *)
(** ** Every payload of a completed pass can be served from the cache *)

Section PayloadServedBack.








End PayloadServedBack.



(* ---------------------------------------------------------------------- *)
(** ** Which replies each format can render *)

Section Rendering.

Lemma py_join_raises sep lines : forall i,
  raises (py_join_from i sep lines) = negb (forallb is_str lines).
Proof.
  induction lines as [| v rest IH]; intros i; [reflexivity |].
  cbn [py_join_from forallb].
  destruct v; cbn [is_str andb negb raises]; try reflexivity.
  destruct rest as [| v' rest']; [reflexivity |].
  rewrite <- (IH (S i)).
  now destruct (py_join_from (S i) sep (v' :: rest')).
Qed.

Lemma is_str_default (o : option json) (d : string) :
  is_str (from_option id (JStr d) o) = match o with None => true | Some v => is_str v end.
Proof. now destruct o. Qed.

Lemma finding_lines_dict i kv :
  exists lines,
    finding_lines (i, JDict kv) = Return lines
    /\ forallb is_str lines = renderable_finding (JDict kv).
Proof.
  eexists. split; [reflexivity |].
  cbn [forallb is_str renderable_finding andb]. unfold text_field.
  rewrite !is_str_default. rewrite !andb_true_r. reflexivity.
Qed.

Lemma forallb_concat {A} (p : A -> bool) (ls : list (list A)) :
  forallb p (concat ls) = forallb (forallb p) ls.
Proof.
  induction ls as [| l ls IH]; [reflexivity |].
  cbn [concat forallb]. now rewrite forallb_app, IH.
Qed.

Lemma sections_spec fs : forall i,
  match for_each finding_lines (enumerate i fs) with
  | Return sections => forallb is_str (concat sections) = forallb renderable_finding fs
  | Raise _ => forallb renderable_finding fs = false
  end.
Proof.
  induction fs as [| f fs IH]; intros i; [reflexivity |].
  cbn [enumerate for_each forallb].
  destruct f as [| | | | | kv]; try reflexivity.
  destruct (finding_lines_dict i kv) as (lines & -> & Hl).
  specialize (IH (S i)).
  destruct (for_each finding_lines (enumerate (S i) fs)) as [sections | e].
  - cbn [concat]. now rewrite forallb_app, Hl, IH.
  - now rewrite IH, andb_false_r.
Qed.

End Rendering.

(** X8.  Markdown rendering of a reply object whose findings are a list
    (or absent) succeeds exactly when every finding is an object whose
    problem, solution, benefit, evidence and gotchas fields are absent or
    strings; one finding of another shape, or one such field holding a
    number, a null, a list or an object, makes the rendering raise, which
    sends the pass into the retry loop.  Title, difficulty and score may
    hold any value. *)
Theorem markdown_renders_exactly_text_findings
    (params : CommunitySearchInput) (kv : list (string * json))
    (fs : list json) (sr : AggregatedResults) :
  findings_list kv = Some fs ->
  raises (render_markdown params (JDict kv) sr)
  = negb (forallb renderable_finding fs).
Proof.
  intros Hfs. unfold render_markdown.
  assert (Hget : py_get (JDict kv) "findings" (JList []) = Return (JList fs)).
  { unfold findings_list in Hfs. cbn [py_get].
    destruct (dict_lookup kv "findings") as [[| | | | l |] |]; cbn; congruence. }
  cbn [py_in bind].
  destruct (dict_lookup kv "error") as [err |] eqn:Herr; cbn [py_getitem bind];
    rewrite ?Herr; cbn [bind]; rewrite Hget; cbn [bind truthy py_len py_iter].
  all: destruct fs as [| f fs']; [reflexivity |].
  all: pose proof (sections_spec (f :: fs') 1) as Hsec;
    destruct (for_each finding_lines (enumerate 1 (f :: fs'))) as [sections | e];
    cbn [bind]; [| now rewrite Hsec].
  all: unfold py_join; rewrite py_join_raises, !forallb_app, forallb_concat;
    rewrite <- forallb_concat, Hsec; cbn [forallb is_str count_line andb];
    now rewrite andb_true_r.
Qed.

Lemma markdown_renders_witness :
  raises (render_markdown (fastapi_query MARKDOWN) (JDict null_problem_reply)
            (aggregate_search_results one_of_four)) = true
  /\ raises (render_markdown (fastapi_query MARKDOWN)
               (JDict [("findings", JList [queue_finding])])
               (aggregate_search_results one_of_four)) = false.
Proof.
  split.
  - rewrite (markdown_renders_exactly_text_findings (fastapi_query MARKDOWN)
               null_problem_reply
               [JDict [("title", JStr "Use a task queue"); ("problem", JNull)]]);
      reflexivity.
  - rewrite (markdown_renders_exactly_text_findings (fastapi_query MARKDOWN)
               [("findings", JList [queue_finding])] [queue_finding]);
      reflexivity.
Defined.

(** X9.  In JSON format any reply object whose findings are a list (or
    absent) is rendered: [format_response] returns a payload whatever the
    findings contain and whatever the size, so the pass completes and the
    payload is cached.  The same reply can make the markdown format raise. *)
Theorem json_format_renders_any_findings_list
    (params : CommunitySearchInput) (kv : list (string * json))
    (fs : list json) (sr : AggregatedResults) (total : nat) :
  response_format params = JSON ->
  findings_list kv = Some fs ->
  exists r, format_response params (JDict kv) sr total = Return r.
Proof.
  intros Hfmt Hfs. unfold format_response, json_response. rewrite Hfmt.
  assert (Hget : py_get (JDict kv) "findings" (JList []) = Return (JList fs)).
  { unfold findings_list in Hfs. cbn [py_get].
    destruct (dict_lookup kv "findings") as [[| | | | l |] |]; cbn; congruence. }
  rewrite Hget. cbn [bind py_get].
  destruct (_ >? _); [| eexists; reflexivity].
  rewrite truncate_json_list. eexists; reflexivity.
Qed.

Lemma json_format_witness :
  (exists r, format_response (fastapi_query JSON) (JDict null_problem_reply)
               (aggregate_search_results one_of_four) 2 = Return r)
  /\ raises (format_response (fastapi_query MARKDOWN) (JDict null_problem_reply)
               (aggregate_search_results one_of_four) 2) = true.
Proof.
  split.
  - apply (json_format_renders_any_findings_list (fastapi_query JSON) null_problem_reply
             [JDict [("title", JStr "Use a task queue"); ("problem", JNull)]]);
      reflexivity.
  - reflexivity.
Defined.

(** The same reply in the two formats: JSON answers at once, markdown fails
    three times and gives up. *)
Example format_decides_the_outcome :
  searches (log (snd (community_search null_problem_env (fastapi_query JSON)
                        (empty_world 0)))) = 1%nat
  /\ searches (log (snd (community_search null_problem_env (fastapi_query MARKDOWN)
                           (empty_world 0)))) = 3%nat
  /\ fst (community_search null_problem_env (fastapi_query MARKDOWN) (empty_world 0))
     = failed_payload
         (Exn TypeError "sequence item 9: expected str instance, NoneType found").
Proof. vm_compute. repeat split. Qed.

(* ---------------------------------------------------------------------- *)
(** ** Search functions: what a backend can contribute *)

Section SearchResults.

Lemma for_each_length {A B} (f : A -> outcome B) xs : forall ys,
  for_each f xs = Return ys -> List.length ys = List.length xs.
Proof.
  induction xs as [| x xs IH]; intros ys; cbn [for_each].
  - now intros [= <-].
  - destruct (f x) as [y | e]; [| discriminate].
    destruct (for_each f xs) as [ys' | e]; [| discriminate].
    intros [= <-]. cbn. now rewrite (IH ys').
Qed.

Lemma for_each_Forall {A B} (f : A -> outcome B) (P : B -> Prop) xs : forall ys,
  (forall x y, f x = Return y -> P y) ->
  for_each f xs = Return ys -> Forall P ys.
Proof.
  induction xs as [| x xs IH]; intros ys HP; cbn [for_each].
  - intros [= <-]. constructor.
  - destruct (f x) as [y | e] eqn:Hy; [| discriminate].
    destruct (for_each f xs) as [ys' | e]; [| discriminate].
    intros [= <-]. constructor; [now apply (HP x) | now apply IH].
Qed.

Lemma for_each_raises {A B} (f : A -> outcome B) xs x :
  In x xs -> raises (f x) = true -> raises (for_each f xs) = true.
Proof.
  induction xs as [| x' xs IH]; [intros [] |].
  intros [-> | Hin] Hx; cbn [for_each].
  - destruct (f x); [discriminate | reflexivity].
  - destruct (f x'); [| reflexivity].
    specialize (IH Hin Hx). now destruct (for_each f xs).
Qed.



Lemma slice_bounded n v snippet :
  py_slice n v = Return snippet ->
  match snippet with
  | JStr s => (String.length s <= n)%nat
  | JList l => (List.length l <= n)%nat
  | _ => False
  end.
Proof.
  destruct v; try discriminate; intros [= <-].
  - rewrite length_take. lia.
  - rewrite length_firstn. lia.
Qed.

Lemma except_empty_inv body l :
  except_empty body = Return l -> body = Return l \/ l = [].
Proof. destruct body; intros [= <-]; auto. Qed.

End SearchResults.


(** GitHub and Reddit entries are not capped by the code: the limit of five
    is asked of the server ([per_page], [limit]) and not enforced on the
    reply. *)
Example github_reply_is_not_capped :
  List.length (github (aggregate_search_results
                 {| so_http := Raise read_timeout;
                    gh_http := items_reply "items" seven_issues;
                    rd_http := Raise read_timeout;
                    hn_http := Raise read_timeout |})) = 7%nat.
Proof. reflexivity. Qed.

Section Normalised.

Lemma bounded_snippet_last (front : list (string * json)) snippet :
  dict_lookup front "snippet" = None ->
  match snippet with
  | JStr s => (String.length s <= 500)%nat
  | JList l => (List.length l <= 500)%nat
  | _ => False
  end ->
  bounded_snippet (JDict (front ++ [("snippet", snippet)])) = true.
Proof.
  intros Hfront Hb. unfold bounded_snippet.
  assert (Hl : dict_lookup (front ++ [("snippet", snippet)]) "snippet" = Some snippet).
  { induction front as [| [k v] front IH]; [reflexivity |].
    cbn in Hfront |- *. destruct (String.eqb k "snippet"); [discriminate | now apply IH]. }
  rewrite Hl. destruct snippet; try contradiction; now apply Nat.leb_le.
Qed.

Lemma aggregate_source_cases (t : outcome (list json)) (P : json -> Prop) :
  (forall l, t = Return l -> Forall P l) ->
  Forall P (list_or_empty (Some (except_empty t))).
Proof. intros H. destruct t as [l | e]; cbn; [now apply H | constructor]. Qed.

End Normalised.

(** X11.  Every aggregated entry has the normalised shape of its source: an
    object with exactly the five keys that source's search function writes,
    in that order.  The snippet of a Stack Overflow, GitHub or Reddit entry
    is cut to at most 500 characters (or 500 items when the backend sent a
    list as body); a Hacker News entry has the empty string as snippet. *)
Theorem results_are_normalised (r : Replies) :
  let a := aggregate_search_results r in
  Forall (fun e => entry_keys e = ["title"; "url"; "score"; "answer_count"; "snippet"]
                   /\ bounded_snippet e = true) (stackoverflow a)
  /\ Forall (fun e => entry_keys e = ["title"; "url"; "state"; "comments"; "snippet"]
                      /\ bounded_snippet e = true) (github a)
  /\ Forall (fun e => entry_keys e = ["title"; "url"; "score"; "comments"; "snippet"]
                      /\ bounded_snippet e = true) (reddit a)
  /\ Forall (fun e => entry_keys e = ["title"; "url"; "points"; "comments"; "snippet"]
                      /\ match e with
                         | JDict kv => dict_lookup kv "snippet" = Some (JStr "")
                         | _ => False
                         end) (hackernews a).
Proof.
  cbv zeta. unfold aggregate_search_results, gather.
  cbn [lookup list_lookup stackoverflow github reddit hackernews].
  unfold search_stackoverflow, search_github, search_reddit, search_hackernews.
  repeat match goal with |- _ /\ _ => split end; apply aggregate_source_cases; intros l.
  - unfold stackoverflow_try.
    destruct (so_http r) as [data | e]; cbn [bind]; [| discriminate].
    destruct (py_get data "items" (JList [])) as [items | e]; cbn [bind]; [| discriminate].
    destruct (py_slice 5 items) as [top | e]; cbn [bind]; [| discriminate].
    destruct (py_iter top) as [its | e]; cbn [bind]; [| discriminate].
    apply for_each_Forall. intros item y.
    destruct item as [| | | | | kv]; try discriminate. cbn [py_get bind].
    destruct (py_slice 500 _) as [snippet | e] eqn:Hs; cbn [bind]; [| discriminate].
    intros [= <-]. split; [reflexivity |].
    apply (bounded_snippet_last [_; _; _; _]); [reflexivity |].
    exact (slice_bounded _ _ _ Hs).
  - unfold github_try.
    destruct (gh_http r) as [data | e]; cbn [bind]; [| discriminate].
    destruct (py_get data "items" (JList [])) as [items | e]; cbn [bind]; [| discriminate].
    destruct (py_iter items) as [its | e]; cbn [bind]; [| discriminate].
    apply for_each_Forall. intros item y.
    destruct item as [| | | | | kv]; try discriminate. cbn [py_get bind].
    destruct (py_slice 500 _) as [snippet | e] eqn:Hs; cbn [bind]; [| discriminate].
    intros [= <-]. split; [reflexivity |].
    apply (bounded_snippet_last [_; _; _; _]); [reflexivity |].
    exact (slice_bounded _ _ _ Hs).
  - unfold reddit_try.
    destruct (rd_http r) as [data | e]; cbn [bind]; [| discriminate].
    destruct (py_get data "data" (JDict [])) as [listing | e]; cbn [bind]; [| discriminate].
    destruct (py_get listing "children" (JList [])) as [children | e]; cbn [bind];
      [| discriminate].
    destruct (py_iter children) as [its | e]; cbn [bind]; [| discriminate].
    apply for_each_Forall. intros item y.
    destruct item as [| | | | | kv]; try discriminate. cbn [py_get bind].
    destruct (from_option id (JDict []) (dict_lookup kv "data")) as [| | | | | post];
      try discriminate.
    cbn [py_get bind].
    destruct (py_slice 500 _) as [snippet | e] eqn:Hs; cbn [bind]; [| discriminate].
    intros [= <-]. split; [reflexivity |].
    apply (bounded_snippet_last [_; _; _; _]); [reflexivity |].
    exact (slice_bounded _ _ _ Hs).
  - unfold hackernews_try.
    destruct (hn_http r) as [data | e]; cbn [bind]; [| discriminate].
    destruct (py_get data "hits" (JList [])) as [items | e]; cbn [bind]; [| discriminate].
    destruct (py_slice 3 items) as [top | e]; cbn [bind]; [| discriminate].
    destruct (py_iter top) as [its | e]; cbn [bind]; [| discriminate].
    apply for_each_Forall. intros item y.
    destruct item as [| | | | | kv]; try discriminate. cbn [py_get bind].
    intros [= <-]. split; reflexivity.
Qed.

Section AllOrNothing.

Lemma for_each_raises_iff {A B} (f : A -> outcome B) xs :
  raises (for_each f xs) = existsb (fun x => raises (f x)) xs.
Proof.
  induction xs as [| x xs IH]; [reflexivity |]. cbn [for_each existsb].
  destruct (f x); cbn [raises orb]; [| reflexivity].
  rewrite <- IH. now destruct (for_each f xs).
Qed.

Lemma source_count (t : outcome (list json)) (n : nat) :
  (forall l, t = Return l -> List.length l = n) ->
  List.length (list_or_empty (Some (except_empty t))) = if raises t then 0%nat else n.
Proof. intros H. destruct t as [l | e]; cbn; [now apply H | reflexivity]. Qed.

Lemma existsb_pointwise {A} (f g : A -> bool) l :
  (forall x, f x = g x) -> existsb f l = existsb g l.
Proof.
  intros H. induction l as [| x l IH]; [reflexivity |]. cbn. now rewrite H, IH.
Qed.

Lemma existsb_negb_forallb {A} (p : A -> bool) l :
  existsb (fun x => negb (p x)) l = negb (forallb p l).
Proof.
  induction l as [| x l IH]; [reflexivity |]. cbn. rewrite IH.
  now destruct (p x).
Qed.

End AllOrNothing.

(** X12.  A backend's contribution is all or nothing.  When the Stack
    Overflow reply is an object whose [items] is a list, the source
    contributes the first five items (all of them when there are fewer) if
    each of those five is an object whose body is absent, a string or a
    list, and contributes nothing at all if one of them is not; items after
    the fifth are never looked at.  For GitHub the same holds over all
    items of the reply, a null or otherwise falsy body being accepted. *)
Theorem one_bad_item_discards_the_source
    (r : Replies) (so_kv gh_kv : list (string * json)) (so_items gh_items : list json) :
  so_http r = Return (JDict so_kv) ->
  dict_lookup so_kv "items" = Some (JList so_items) ->
  gh_http r = Return (JDict gh_kv) ->
  dict_lookup gh_kv "items" = Some (JList gh_items) ->
  List.length (stackoverflow (aggregate_search_results r))
    = (if forallb so_item_ok (firstn 5 so_items)
       then Nat.min 5 (List.length so_items) else 0%nat)
  /\ List.length (github (aggregate_search_results r))
     = (if forallb gh_item_ok gh_items then List.length gh_items else 0%nat).
Proof.
  intros Hso Hsoi Hgh Hghi.
  unfold aggregate_search_results, gather.
  cbn [lookup list_lookup stackoverflow github].
  unfold search_stackoverflow, search_github. split.
  - rewrite (source_count _ (Nat.min 5 (List.length so_items))).
    + unfold stackoverflow_try. rewrite Hso. cbn [bind py_get]. rewrite Hsoi.
      cbn [from_option id bind py_slice py_iter].
      rewrite for_each_raises_iff.
      rewrite <- (negb_involutive (forallb so_item_ok (firstn 5 so_items))).
      rewrite <- existsb_negb_forallb.
      rewrite (existsb_pointwise _ (fun x => negb (so_item_ok x)));
        [now destruct (existsb _ _) |].
      intros item. destruct item as [| | | | | kv]; try reflexivity.
      cbn [py_get bind so_item_ok].
      destruct (dict_lookup kv "body") as [[| | | | |] |]; reflexivity.
    + unfold stackoverflow_try. rewrite Hso. cbn [bind py_get]. rewrite Hsoi.
      cbn [from_option id bind py_slice py_iter].
      intros l H. rewrite (for_each_length _ _ _ H), length_firstn. reflexivity.
  - rewrite (source_count _ (List.length gh_items)).
    + unfold github_try. rewrite Hgh. cbn [bind py_get]. rewrite Hghi.
      cbn [from_option id bind py_iter].
      rewrite for_each_raises_iff.
      rewrite <- (negb_involutive (forallb gh_item_ok gh_items)).
      rewrite <- existsb_negb_forallb.
      rewrite (existsb_pointwise _ (fun x => negb (gh_item_ok x)));
        [now destruct (existsb _ _) |].
      intros item. destruct item as [| | | | | kv]; try reflexivity.
      cbn [py_get bind gh_item_ok].
      destruct (dict_lookup kv "body") as [[| [|] | n | s | [| x l] | [| p kv']] |];
        try reflexivity.
      * unfold py_or. cbn [from_option id truthy].
        now destruct (n =? 0)%Z.
      * unfold py_or. cbn [from_option id truthy].
        now destruct (s =? "")%string.
    + unfold github_try. rewrite Hgh. cbn [bind py_get]. rewrite Hghi.
      cbn [from_option id bind py_iter].
      intros l H. now rewrite (for_each_length _ _ _ H).
Qed.

Lemma one_bad_item_witness :
  List.length (stackoverflow (aggregate_search_results six_questions_reply)) = 0%nat
  /\ List.length (github (aggregate_search_results six_questions_reply)) = 7%nat.
Proof.
  apply (one_bad_item_discards_the_source six_questions_reply
           [("items", JList six_questions_one_null)] [("items", JList seven_issues)]
           six_questions_one_null seven_issues); reflexivity.
Defined.

(* ---------------------------------------------------------------------- *)
(** ** The validator returns fixed points *)

Section Trimming.
Lemma lstrip_head s :
  match lstrip s with "" => True | String c _ => is_space c = false end.
Proof.
  induction s as [| c s IH]; cbn [lstrip]; [exact I |].
  destruct (is_space c) eqn:Hc; [exact IH | exact Hc].
Qed.

Lemma rstrip_head c s :
  is_space c = false -> exists r, rstrip (String c s) = String c r.
Proof.
  intros Hc. cbn [rstrip]. destruct (rstrip s); [rewrite Hc |]; eauto.
Qed.

Lemma rstrip_rstrip s : rstrip (rstrip s) = rstrip s.
Proof.
  induction s as [| c s IH]; [reflexivity |]. cbn [rstrip].
  destruct (rstrip s) as [| c' r] eqn:Hr.
  - destruct (is_space c) eqn:Hc; [reflexivity |]. cbn [rstrip]. now rewrite Hc.
  - change (rstrip (String c (String c' r)))
      with (match rstrip (String c' r) with
            | "" => if is_space c then "" else String c ""
            | r0 => String c r0 end).
    now rewrite IH.
Qed.

Lemma strip_strip s : strip (strip s) = strip s.
Proof.
  unfold strip. pose proof (lstrip_head s) as H.
  destruct (lstrip s) as [| c t]; [reflexivity |].
  destruct (rstrip_head c t H) as [r Hr]. rewrite Hr.
  cbn [lstrip]. rewrite H, <- Hr. apply rstrip_rstrip.
Qed.

End Trimming.

(** X13.  The validator is idempotent: a topic it accepts is returned
    trimmed, trimming it again changes nothing, and validating the returned
    value once more (as happens when the field is assigned again) accepts
    it unchanged. *)
Theorem validator_is_idempotent (v t : string) :
  validate_topic_specificity v = Return t ->
  strip t = t /\ validate_topic_specificity t = Return t.
Proof.
  intros Ht.
  assert (Hst : t = strip v).
  { unfold validate_topic_specificity in Ht.
    destruct (_ && _) in Ht; [discriminate | now injection Ht]. }
  subst t. split; [apply strip_strip |].
  rewrite <- Ht. unfold validate_topic_specificity. now rewrite strip_strip.
Qed.

Lemma validator_is_idempotent_witness :
  strip "React custom hooks for form validation"
    = "React custom hooks for form validation"
  /\ validate_topic_specificity "React custom hooks for form validation"
     = Return "React custom hooks for form validation".
Proof.
  apply (validator_is_idempotent "  React custom hooks for form validation  ").
  reflexivity.
Defined.

(* ---------------------------------------------------------------------- *)
(** ** Provider calls: what reaches the parser *)

Example replace_examples :
  replace "aaaa" "aa" "b" = "bb"
  /\ replace "abc" "" "-" = "-a-b-c-"
  /\ replace "" "" "-" = "-"
  /\ replace "xabcabcy" "abc" "" = "xy"
  /\ replace "aabb" "ab" "" = "ab".
Proof. vm_compute. repeat split. Qed.

Section Fences.

Lemma has_char_app c (a b : string) : has_char c (a +:+ b) = has_char c a || has_char c b.
Proof.
  induction a as [| x a IH]; [reflexivity |].
  change (String x a +:+ b) with (String x (a +:+ b)). cbn [has_char].
  now rewrite IH, orb_assoc.
Qed.

(** A string free of some character of [old] has no occurrence of it. *)
Lemma no_char_no_occurrence c old s :
  has_char c old = true -> has_char c s = false -> contains old s = false.
Proof.
  intros Hold Hs. destruct (contains old s) eqn:Hc; [| reflexivity].
  apply contains_spec in Hc as (pre & post & ->).
  rewrite !has_char_app, Hold in Hs. now rewrite orb_true_r in Hs.
Qed.

Lemma replace_go_absent old new s :
  contains old s = false -> replace_go old new 0 s = s.
Proof.
  induction s as [| c s IH]; [reflexivity |].
  cbn [contains]. intros [H1 H2]%orb_false_iff.
  cbn [replace_go]. rewrite H1. now rewrite IH.
Qed.

Lemma replace_absent s old new :
  old <> "" -> contains old s = false -> replace s old new = s.
Proof.
  intros Hne H. destruct old; [congruence |]. now apply replace_go_absent.
Qed.

Lemma startswith_fence s : startswith fence s = (3 <=? lead s)%nat.
Proof.
  unfold fence.
  destruct s as [| a [| b [| c s]]]; cbn [startswith lead];
    repeat (destruct (Ascii.eqb "`" _)); reflexivity.
Qed.

Lemma replace_go_skip old new k c s :
  replace_go old new (S k) (String c s) = replace_go old new k s.
Proof. reflexivity. Qed.

(** Deleting the fences from a string that starts with fewer than three
    backticks leaves those backticks. *)
Lemma lead_replace_fence s :
  (lead s < 3)%nat -> lead (replace_go fence "" 0 s) = lead s.
Proof.
  induction s as [| c s IH]; [reflexivity |]. intros Hl.
  cbn [replace_go]. rewrite startswith_fence.
  destruct (Nat.leb_spec 3 (lead (String c s))) as [Hge | _]; [lia |].
  cbn [lead] in *. destruct (Ascii.eqb "`" c); [| reflexivity].
  rewrite IH; [reflexivity | lia].
Qed.

Lemma no_fence_after_replace s : forall skip,
  contains fence (replace_go fence "" skip s) = false.
Proof.
  induction s as [| c s IH]; intros skip; [reflexivity |].
  destruct skip as [| k]; [| apply IH].
  pose proof (lead_replace_fence (String c s)) as Hlead.
  cbn [replace_go] in *. rewrite startswith_fence in *.
  destruct (Nat.leb_spec 3 (lead (String c s))) as [Hge | Hlt].
  - apply IH.
  - cbn [contains]. rewrite IH, orb_false_r, startswith_fence.
    rewrite Hlead by exact Hlt. now apply Nat.leb_gt.
Qed.

Lemma lstrip_suffix s : exists pre, s = pre +:+ lstrip s.
Proof.
  induction s as [| c s [pre IH]]; [now exists "" |]. cbn [lstrip].
  destruct (is_space c); [| now exists ""].
  exists (String c pre). change (String c pre +:+ lstrip s) with (String c (pre +:+ lstrip s)).
  now rewrite <- IH.
Qed.

Lemma rstrip_prefix s : exists post, s = rstrip s +:+ post.
Proof.
  induction s as [| c s [post IH]]; [now exists "" |]. cbn [rstrip].
  destruct (rstrip s) as [| c' r].
  - destruct (is_space c); [now exists (String c s) |].
    exists post. change (String c "" +:+ post) with (String c ("" +:+ post)).
    now rewrite <- IH.
  - exists post. change (String c (String c' r) +:+ post) with (String c (String c' r +:+ post)).
    now rewrite <- IH.
Qed.

Lemma append_assoc3 (a b c : string) : (a +:+ b) +:+ c = a +:+ (b +:+ c).
Proof.
  induction a as [| x a IH]; [reflexivity |].
  change ((String x a +:+ b) +:+ c) with (String x ((a +:+ b) +:+ c)).
  now rewrite IH.
Qed.

Lemma contains_strip term s : contains term s = false -> contains term (strip s) = false.
Proof.
  intros H. destruct (contains term (strip s)) eqn:Hc; [| reflexivity].
  apply contains_spec in Hc as (pre & post & Hs). unfold strip in Hs.
  destruct (lstrip_suffix s) as [a Ha]. destruct (rstrip_prefix (lstrip s)) as [b Hb].
  assert (Hin : contains term s = true); [| congruence].
  apply contains_spec. exists (a +:+ pre), (post +:+ b).
  rewrite Ha at 1. rewrite Hb at 1. rewrite Hs.
  now rewrite !append_assoc3.
Qed.

(** What the parser is given holds no fence. *)
Lemma strip_fences_no_fence text s :
  strip_fences text = Return s -> contains fence s = false.
Proof.
  destruct text; try discriminate. intros [= <-].
  apply contains_strip. apply no_fence_after_replace.
Qed.

Lemma bind_ext {A B} (m : outcome A) (k1 k2 : A -> outcome B) :
  (forall a, m = Return a -> k1 a = k2 a) -> bind m k1 = bind m k2.
Proof. intros H. destruct m; [now apply H | reflexivity]. Qed.

Lemma plain_text_is_stripped s :
  has_char "`" s = false -> strip_fences (JStr s) = Return (strip s).
Proof.
  intros H. unfold strip_fences.
  rewrite (replace_absent s fence_open) by
    (try discriminate; now apply (no_char_no_occurrence "`")).
  rewrite (replace_absent s fence_close) by
    (try discriminate; now apply (no_char_no_occurrence "`")).
  rewrite (replace_absent s fence) by
    (try discriminate; now apply (no_char_no_occurrence "`")).
  reflexivity.
Qed.

Lemma no_opening_in_tail body :
  has_char "`" body = false -> contains fence_open (body +:+ fence_close) = false.
Proof.
  induction body as [| c body IH]; [reflexivity |].
  cbn [has_char]. intros [Hc Hb]%orb_false_iff.
  change (String c body +:+ fence_close) with (String c (body +:+ fence_close)).
  cbn [contains]. rewrite (IH Hb), orb_false_r.
  change fence_open with (String "`" ("``json" +:+ newline)). cbn [startswith].
  rewrite Ascii.eqb_sym. now rewrite Hc.
Qed.

Lemma no_fence_at_head body :
  has_char "`" body = false -> startswith fence (body +:+ fence_close) = false.
Proof.
  destruct body as [| c body]; [reflexivity |]. cbn [has_char].
  intros [Hc _]%orb_false_iff.
  change (String c body +:+ fence_close) with (String c (body +:+ fence_close)).
  unfold fence. cbn [startswith]. rewrite Ascii.eqb_sym. now rewrite Hc.
Qed.

Lemma closing_removed body :
  has_char "`" body = false -> replace_go fence_close "" 0 (body +:+ fence_close) = body.
Proof.
  induction body as [| c body IH]; [reflexivity |].
  cbn [has_char]. intros [Hc Hb]%orb_false_iff.
  change (String c body +:+ fence_close) with (String c (body +:+ fence_close)).
  cbn [replace_go].
  change fence_close with (String (ascii_of_N 10) fence) at 1. cbn [startswith].
  rewrite (no_fence_at_head body Hb).
  destruct (Ascii.eqb _ c); now rewrite (IH Hb).
Qed.

Lemma fenced_text_is_unwrapped body :
  has_char "`" body = false -> strip_fences (JStr (fenced body)) = Return (strip body).
Proof.
  intros H. unfold strip_fences, fenced.
  assert (H1 : replace (fence_open +:+ body +:+ fence_close) fence_open ""
               = body +:+ fence_close).
  { change (replace_go fence_open "" 0 (body +:+ fence_close) = body +:+ fence_close).
    now apply replace_go_absent, no_opening_in_tail. }
  rewrite H1.
  assert (H2 : replace (body +:+ fence_close) fence_close "" = body)
    by now apply closing_removed.
  rewrite H2.
  rewrite (replace_absent body fence) by
    (try discriminate; now apply (no_char_no_occurrence "`")).
  reflexivity.
Qed.

End Fences.

(** X14.  Whatever a provider replies, the text handed to [json.loads] holds
    no run of three backticks: every fence is deleted first, those inside
    the JSON text (a code block in a finding's solution) as well as those
    around it.  Hence the result of each of the five provider functions
    depends on the parser only through what it does on fence-free text. *)
Theorem parser_never_sees_a_fence
    (p : provider) (loads1 loads2 : string -> outcome json) (http : outcome json) :
  (forall s, contains fence s = false -> loads1 s = loads2 s) ->
  call_provider p loads1 http = call_provider p loads2 http.
Proof.
  intros H.
  destruct p; cbn [call_provider];
    unfold call_gemini, call_openai, call_anthropic, call_openrouter, call_perplexity;
    repeat (apply bind_ext; intros ? ?);
    eauto using strip_fences_no_fence.
Qed.

Lemma parser_never_sees_a_fence_witness :
  call_provider openai echo (Return (chat_reply (JStr "see ```code``` here")))
  = call_provider openai
      (fun s => if contains fence s then Raise not_json else echo s)
      (Return (chat_reply (JStr "see ```code``` here"))).
Proof.
  apply parser_never_sees_a_fence. intros s Hs. now rewrite Hs.
Defined.

Example inner_fences_are_deleted :
  call_provider anthropic echo (Return (anthropic_reply (JStr "see ```code``` here")))
  = Return (JStr "see code here").
Proof. vm_compute. reflexivity. Qed.

(** X15.  A reply of the documented shape whose text holds no backtick is
    parsed after trimming only, and the same text wrapped in a JSON code
    fence (the opening fence with its line break before it, a line break
    and the closing fence after it) is parsed as that very text: the five
    provider functions unwrap a fenced answer. *)
Theorem fenced_reply_is_unwrapped
    (p : provider) (json_loads : string -> outcome json) (body : string) :
  has_char "`" body = false ->
  call_provider p json_loads (Return (reply_of p (JStr body))) = json_loads (strip body)
  /\ call_provider p json_loads (Return (reply_of p (JStr (fenced body))))
     = json_loads (strip body).
Proof.
  intros H.
  pose proof (plain_text_is_stripped body H) as H1.
  pose proof (fenced_text_is_unwrapped body H) as H2.
  destruct p; cbn [call_provider reply_of]; split;
    unfold call_gemini, call_openai, call_anthropic, call_openrouter, call_perplexity,
           gemini_reply, chat_reply, anthropic_reply;
    cbn [bind py_getitem py_first dict_lookup String.eqb Ascii.eqb Bool.eqb];
    (rewrite H1 || rewrite H2); reflexivity.
Qed.

Lemma fenced_reply_witness :
  call_provider gemini echo (Return (reply_of gemini (JStr " [1, 2] ")))
    = echo (strip " [1, 2] ")
  /\ call_provider gemini echo (Return (reply_of gemini (JStr (fenced " [1, 2] "))))
     = echo (strip " [1, 2] ").
Proof.
  apply (fenced_reply_is_unwrapped gemini echo " [1, 2] "). reflexivity.
Defined.

(* ---------------------------------------------------------------------- *)
(** ** Cache key: order of the parameters *)

Section KeyOrder.

#[local] Instance by_key_trans : Transitive by_key.
Proof. intros p q r. unfold by_key. apply transitivity. Qed.

Lemma insert_item_perm p l : insert_item p l ≡ₚ p :: l.
Proof.
  induction l as [| q l IH]; [reflexivity |]. cbn [insert_item].
  destruct (String.leb (fst p) (fst q)); [reflexivity |].
  rewrite IH. apply Permutation_swap.
Qed.

Lemma sort_items_perm l : sort_items l ≡ₚ l.
Proof.
  induction l as [| p l IH]; [reflexivity |].
  cbn [sort_items fold_right]. rewrite insert_item_perm. now constructor.
Qed.

Lemma insert_item_hd p q l :
  by_key q p -> HdRel by_key q l -> HdRel by_key q (insert_item p l).
Proof.
  intros Hqp Hl. destruct l as [| r l]; cbn [insert_item]; [now constructor |].
  destruct (String.leb (fst p) (fst r)); constructor; [exact Hqp |].
  now inversion Hl.
Qed.

Lemma insert_item_sorted p l : Sorted by_key l -> Sorted by_key (insert_item p l).
Proof.
  induction l as [| q l IH]; intros Hs; cbn [insert_item]; [repeat constructor |].
  destruct (String.leb (fst p) (fst q)) eqn:Hpq.
  - constructor; [exact Hs |]. constructor. unfold by_key, String.le. now rewrite Hpq.
  - inversion Hs as [| ? ? Hl Hhd]; subst. constructor; [now apply IH |].
    apply insert_item_hd; [| exact Hhd].
    destruct (total String.le (fst q) (fst p)) as [H | H]; [exact H |].
    unfold String.le in H. rewrite Hpq in H. contradiction.
Qed.

Lemma sort_items_sorted l : Sorted by_key (sort_items l).
Proof.
  induction l as [| p l IH]; [constructor |]. now apply insert_item_sorted.
Qed.

Lemma sort_items_canonical l1 l2 :
  NoDup (map fst l1) -> l1 ≡ₚ l2 -> sort_items l1 = sort_items l2.
Proof.
  intros Hnd Hp.
  apply (Sorted_unique_strong by_key); try apply sort_items_sorted.
  - intros x1 x2 H1 H2 H12 H21.
    rewrite sort_items_perm in H1. rewrite sort_items_perm, <- Hp in H2.
    assert (Hk : fst x1 = fst x2) by (apply (anti_symm String.le); assumption).
    destruct x1 as [k v1], x2 as [k' v2]. cbn in Hk. subst k'.
    f_equal. clear -Hnd H1 H2.
    induction l1 as [| [k0 v0] l1 IH]; [now apply elem_of_nil in H1 |].
    cbn in Hnd. apply NoDup_cons in Hnd as [Hni Hnd].
    assert (Hkey : forall v, (k, v) ∈ l1 -> k ∈ map fst l1).
    { intros v Hv. apply list_elem_of_fmap. now exists (k, v). }
    apply elem_of_cons in H1 as [H1 | H1], H2 as [H2 | H2].
    + congruence.
    + injection H1 as <- <-. exfalso. eauto.
    + injection H2 as <- <-. exfalso. eauto.
    + now apply IH.
  - now rewrite !sort_items_perm.
Qed.

End KeyOrder.

(** X16.  The cache key does not depend on the order in which the keyword
    arguments are given: two parameter dictionaries with the same items,
    each key occurring once, get the same key. *)
Theorem cache_key_ignores_parameter_order
    (tool_name : string) (params1 params2 : list (string * json)) :
  NoDup (map fst params1) ->
  params1 ≡ₚ params2 ->
  get_cache_key tool_name params1 = get_cache_key tool_name params2.
Proof.
  intros Hnd Hp. unfold get_cache_key. cbn [json_dumps_sorted].
  rewrite (sort_items_canonical
             (map (fun p => (fst p, json_dumps_sorted (snd p))) params1)
             (map (fun p => (fst p, json_dumps_sorted (snd p))) params2)).
  - reflexivity.
  - now rewrite map_map.
  - now apply Permutation_map.
Qed.

Lemma cache_key_order_witness :
  get_cache_key "community_search" [("language", JStr "Rust"); ("goal", JNull)]
  = get_cache_key "community_search" [("goal", JNull); ("language", JStr "Rust")].
Proof.
  apply cache_key_ignores_parameter_order.
  - apply NoDup_cons. split; [| apply NoDup_singleton].
    intros H. apply list_elem_of_singleton in H. discriminate H.
  - apply Permutation_swap.
Defined.

(* ---------------------------------------------------------------------- *)
(** ** Workspace detection *)

Section Workspace.

Lemma tree_induction (P : tree -> Prop) :
  P Unlisted ->
  (forall files dirs, Forall (fun d => P (snd d)) dirs -> P (Dir files dirs)) ->
  forall t, P t.
Proof.
  intros HU HD. fix IH 1. intros [files dirs |]; [| exact HU].
  apply HD. induction dirs as [| [name sub] dirs IHdirs]; constructor.
  - apply IH.
  - exact IHdirs.
Qed.

Lemma walk_without_ignored t : walk (without_ignored t) = walk t.
Proof.
  induction t as [| files dirs IH] using tree_induction; [reflexivity |].
  cbn [walk without_ignored]. f_equal.
  induction IH as [| [name sub] dirs Hsub _ IHdirs]; [reflexivity |].
  cbn [map flat_map fst snd]. rewrite IHdirs. f_equal.
  destruct (is_in name ignored_dirs); [reflexivity | exact Hsub].
Qed.

Lemma scan_list_count files : forall s,
  file_count (scan_list files s) = (file_count s + List.length files)%nat.
Proof.
  induction files as [| f files IH]; intros s; cbn [scan_list fold_left List.length].
  - lia.
  - fold (scan_list files (scan_file f s)). rewrite IH. cbn [scan_file file_count]. lia.
Qed.

Lemma scan_files_spec files : forall s,
  scan_files files s = scan_list (firstn (max_files - file_count s) files) s.
Proof.
  induction files as [| f files IH]; intros s; cbn [scan_files].
  - now rewrite firstn_nil.
  - destruct (Nat.leb_spec max_files (file_count s)) as [Hge | Hlt].
    + now replace (max_files - file_count s)%nat with 0%nat by lia.
    + rewrite IH. cbn [scan_file file_count].
      replace (max_files - file_count s)%nat with (S (max_files - S (file_count s)))
        by lia.
      reflexivity.
Qed.

Lemma scan_walk_spec visits : forall s,
  scan_walk visits s = scan_list (firstn (max_files - file_count s) (concat visits)) s.
Proof.
  induction visits as [| files visits IH]; intros s; cbn [scan_walk concat].
  - now rewrite firstn_nil.
  - rewrite firstn_app. unfold scan_list at 1. rewrite fold_left_app.
    fold (scan_list (firstn (max_files - file_count s) files) s).
    rewrite <- scan_files_spec.
    pose proof (scan_files_spec files s) as Hs. pose proof (scan_list_count
      (firstn (max_files - file_count s) files) s) as Hc. rewrite <- Hs in Hc.
    rewrite length_firstn in *.
    destruct (Nat.leb_spec max_files (file_count (scan_files files s))) as [Hge | Hlt].
    + replace (max_files - file_count s - _)%nat with 0%nat by lia. reflexivity.
    + rewrite IH. unfold scan_list. do 2 f_equal. lia.
Qed.

Lemma scan_is_scan_list t :
  scan_walk (walk t) scan_start = scan_list (examined t) scan_start.
Proof. rewrite scan_walk_spec. reflexivity. Qed.

Lemma examined_count t :
  (max_files <=? List.length (examined t))%nat
  = (max_files <=? List.length (visible_files t))%nat.
Proof.
  unfold examined. rewrite length_firstn.
  destruct (Nat.leb_spec max_files (List.length (visible_files t)));
    [apply Nat.leb_le | apply Nat.leb_gt]; lia.
Qed.

Lemma scan_list_config files : forall s,
  config_files (scan_list files s)
  = config_files s ++ List.filter (fun f => is_in f config_names) files.
Proof.
  induction files as [| f files IH]; intros s; cbn [scan_list fold_left List.filter].
  - now rewrite app_nil_r.
  - fold (scan_list files (scan_file f s)). rewrite IH. cbn [scan_file config_files].
    destruct (is_in f config_names); [now rewrite <- app_assoc | reflexivity].
Qed.

Lemma add_matching_spec x patterns : forall found name,
  name ∈ add_matching x patterns found <-> name ∈ found \/ matches x patterns name.
Proof.
  unfold add_matching, matches.
  induction patterns as [| [n vals] patterns IH]; intros found name; cbn [fold_left].
  - split; [now left | intros [H | (v & [] & _)]; exact H].
  - rewrite IH. cbn [fst snd]. split.
    + intros [H | (v & Hin & Hv)].
      * destruct (is_in x vals) eqn:Hx; [| now left].
        apply elem_of_union in H as [H | H]; [now left |].
        apply elem_of_singleton in H as ->. right. exists vals. split; [now left | exact Hx].
      * right. exists v. split; [now right | exact Hv].
    + intros [H | (v & [[= -> ->] | Hin] & Hv)].
      * left. destruct (is_in x vals); [apply elem_of_union; now left | exact H].
      * left. rewrite Hv. apply elem_of_union. right. now apply elem_of_singleton.
      * right. now exists v.
Qed.

Lemma scan_list_languages files : forall s name,
  name ∈ languages (scan_list files s)
  <-> name ∈ languages s
      \/ exists file, In file files /\ matches (path_suffix file) language_patterns name.
Proof.
  induction files as [| f files IH]; intros s name; cbn [scan_list fold_left].
  - split; [now left | intros [H | (file & [] & _)]; exact H].
  - fold (scan_list files (scan_file f s)). rewrite IH. cbn [scan_file languages].
    rewrite add_matching_spec. split.
    + intros [[H | H] | (file & Hin & H)]; [now left | right; exists f | right; exists file];
        (split; [(now left) || (now right) | exact H]).
    + intros [H | (file & [<- | Hin] & H)]; [now do 2 left | left; now right |].
      right. now exists file.
Qed.

Lemma scan_list_frameworks files : forall s name,
  name ∈ frameworks (scan_list files s)
  <-> name ∈ frameworks s
      \/ exists file, In file files /\ matches file framework_files name.
Proof.
  induction files as [| f files IH]; intros s name; cbn [scan_list fold_left].
  - split; [now left | intros [H | (file & [] & _)]; exact H].
  - fold (scan_list files (scan_file f s)). rewrite IH. cbn [scan_file frameworks].
    rewrite add_matching_spec. split.
    + intros [[H | H] | (file & Hin & H)]; [now left | right; exists f | right; exists file];
        (split; [(now left) || (now right) | exact H]).
    + intros [H | (file & [<- | Hin] & H)]; [now do 2 left | left; now right |].
      right. now exists file.
Qed.

Lemma sorted_spec (found : gset string) :
  Sorted String.le (sorted found) /\ NoDup (sorted found)
  /\ forall name, name ∈ sorted found <-> name ∈ found.
Proof.
  unfold sorted. split; [apply Sorted_merge_sort; apply _ |]. split.
  - rewrite merge_sort_Permutation. apply NoDup_elements.
  - intros name. rewrite merge_sort_Permutation. apply elem_of_elements.
Qed.

Lemma package_json_frameworks file :
  matches file framework_files "React" <-> matches file framework_files "Express".
Proof.
  unfold matches, framework_files. cbn [In].
  split; intros (v & H & Hv); exists v; (split; [| exact Hv]);
    repeat (destruct H as [[= <-] | H]; try discriminate); try contradiction; tauto.
Qed.

End Workspace.

(** X17.  The scan examines exactly the first hundred files the walk
    reaches.  [scan_limited] is set when the walk reaches a hundred files or
    more, so also for a workspace of exactly a hundred files, none of which
    was left out; [config_files] lists the configuration files among the
    examined ones in walk order, a name once for each directory that holds
    it. *)
Theorem scan_examines_the_first_hundred_files (cwd : string) (t : tree) :
  field (detect_workspace_context cwd t) "scan_limited"
    = Some (JBool (100 <=? List.length (visible_files t))%nat)
  /\ field (detect_workspace_context cwd t) "config_files"
     = Some (JList (map JStr
               (List.filter (fun f => is_in f config_names) (examined t)))).
Proof.
  unfold detect_workspace_context. rewrite scan_is_scan_list.
  cbn [field dict_lookup String.eqb Ascii.eqb Bool.eqb].
  rewrite scan_list_count, scan_list_config. cbn [scan_start file_count config_files].
  rewrite Nat.add_0_l, app_nil_l, examined_count. split; reflexivity.
Qed.

Example exactly_one_hundred_files :
  field (detect_workspace_context "/work" (Dir (repeat "notes.txt" 100) [])) "scan_limited"
    = Some (JBool true)
  /\ field (detect_workspace_context "/work"
              (Dir (repeat "notes.txt" 100) [("src", Dir ["main.rs"] [])])) "languages"
     = Some (JList []).
Proof. vm_compute. split; reflexivity. Qed.

(** X18.  What lies inside a directory named [.git], [node_modules],
    [__pycache__], [venv], [.venv], [dist] or [build], at any depth below
    the working directory, never reaches the result: two workspaces that
    are equal once the content of those directories is forgotten get the
    same context. *)
Theorem ignored_directories_do_not_matter (cwd : string) (t1 t2 : tree) :
  without_ignored t1 = without_ignored t2 ->
  detect_workspace_context cwd t1 = detect_workspace_context cwd t2.
Proof.
  intros H. unfold detect_workspace_context.
  now rewrite <- (walk_without_ignored t1), H, walk_without_ignored.
Qed.

Lemma ignored_directories_witness :
  detect_workspace_context "/work" sample_tree
  = detect_workspace_context "/work"
      (Dir ["README.md"; "package.json"; ".gitignore"; "main.py"]
         [ ("node_modules", Dir [] []);
           ("src", Dir ["app.ts"; "cli.cpp"; "a.tar.gz"; "Makefile"; "x."; ".py"]
                       [("build", Unlisted); ("lib", Dir ["util.cs"] [])]);
           ("link", Unlisted) ]).
Proof.
  apply ignored_directories_do_not_matter. reflexivity.
Defined.

Example sample_tree_context :
  detect_workspace_context "/work" sample_tree
  = JDict [ ("workspace", JStr "/work");
            ("languages", JList [JStr "C#"; JStr "C++"; JStr "Python"; JStr "TypeScript"]);
            ("frameworks", JList [JStr "Express"; JStr "FastAPI"; JStr "React"]);
            ("config_files", JList [JStr "package.json"]);
            ("scan_limited", JBool false) ].
Proof. vm_compute. reflexivity. Qed.

(** X19.  The reported languages and frameworks are sorted by code point
    and free of duplicates.  A language is reported exactly when one of the
    examined files has one of its extensions as suffix, a framework exactly
    when one of the examined files bears one of its marker names; React and
    Express share the marker [package.json], so one is never reported
    without the other. *)
Theorem detected_languages_and_frameworks (cwd : string) (t : tree) :
  exists langs fws : list string,
    field (detect_workspace_context cwd t) "languages" = Some (JList (map JStr langs))
    /\ field (detect_workspace_context cwd t) "frameworks" = Some (JList (map JStr fws))
    /\ Sorted String.le langs /\ NoDup langs
    /\ Sorted String.le fws /\ NoDup fws
    /\ (forall name, name ∈ langs <->
          exists file, In file (examined t)
                       /\ matches (path_suffix file) language_patterns name)
    /\ (forall name, name ∈ fws <->
          exists file, In file (examined t) /\ matches file framework_files name)
    /\ ("React" ∈ fws <-> "Express" ∈ fws).
Proof.
  unfold detect_workspace_context. rewrite scan_is_scan_list.
  set (s := scan_list (examined t) scan_start).
  exists (sorted (languages s)), (sorted (frameworks s)).
  cbn [field dict_lookup String.eqb Ascii.eqb Bool.eqb].
  destruct (sorted_spec (languages s)) as (Hl1 & Hl2 & Hl3).
  destruct (sorted_spec (frameworks s)) as (Hf1 & Hf2 & Hf3).
  assert (Hfw : forall name, name ∈ sorted (frameworks s) <->
            exists file, In file (examined t) /\ matches file framework_files name).
  { intros name. rewrite Hf3. unfold s. rewrite scan_list_frameworks.
    cbn [scan_start frameworks]. rewrite elem_of_empty. tauto. }
  repeat split; try assumption; try reflexivity.
  - rewrite Hl3. unfold s. rewrite scan_list_languages.
    cbn [scan_start languages]. rewrite elem_of_empty. tauto.
  - rewrite Hl3. unfold s. rewrite scan_list_languages.
    cbn [scan_start languages]. rewrite elem_of_empty. tauto.
  - now apply Hfw.
  - now apply Hfw.
  - rewrite !Hfw. intros (file & Hin & H). exists file. now rewrite <- package_json_frameworks.
  - rewrite !Hfw. intros (file & Hin & H). exists file. now rewrite package_json_frameworks.
Qed.

(* ---------------------------------------------------------------------- *)
(** ** Server context *)

Section ServerContext.



End ServerContext.


Example sample_tree_default_language :
  exists context,
    server_context blank_gemini_env "/work" sample_tree = Return context
    /\ field context "context_defaults" = Some (JDict [("language", JStr "C#")])
    /\ field context "available_providers"
       = Some (JDict [ ("configured", JStr "perplexity");
                       ("supported",
                        JList [JStr "gemini"; JStr "openai"; JStr "anthropic";
                               JStr "openrouter"; JStr "perplexity"]) ]).
Proof. eexists. vm_compute. repeat split. Qed.
